(** * Pomodoro productivity tracker: record store, task registry,
      statistics engine and timer state machine

    A shallow embedding of [src/task_manager.py], [src/stats.py] and
    [src/timer.py], of the menus of [main.py] and of the task list of
    [src/display.py].  The Python objects become records; every method
    takes the object, and the outside world that it touches, as arguments
    and returns the updated ones.

    Conventions of the embedding:
    - a Python [str] is a [string] whose characters are the code points
      U+0000 .. U+00FF;
    - a Python [int] is a [Z];
    - a [datetime.date] is its proleptic Gregorian ordinal
      ([date.toordinal()]), so that [d - timedelta(days=1)] is [d - 1];
      the time stamps that the program stores as ISO strings are kept as
      [datetime] values and rendered with [isoformat] when they are saved;
    - the only float of the program, the completion rate, is computed in
      exact rational arithmetic;
    - the standard library's [json] module is modelled by [Json.dumps] and
      [Json.loads] on the values that the program stores (null, booleans,
      integers, strings, lists and dictionaries; no floats);
    - a [dict] that the program fills and reads in order is a list of
      pairs in insertion order ([dict_get], [dict_put]); [list.sort] is
      [py_sort], [int] on a string is [Main.py_int];
    - what [show_task_list] and [display_stats] print is returned as a
      value, without colours, headings and separators; a date that the
      program prints with [strftime] is kept as a date.

    What is assumed of the environment:
    - the file system consists of regular files and directories; opening a
      file fails as the source expects it to (the failures that it catches),
      while [os.makedirs('data', exist_ok=True)], which the source calls
      outside every [try], succeeds;
    - Ctrl+C and the end of the input reach the program only while it
      waits, in a countdown or in [input];
    - of the terminal output only the notifications and the start of every
      countdown are recorded. *)

From Stdlib Require Import ZArith QArith Ascii String List Lia Bool.
From Stdlib Require Import DecimalString DecimalZ DecimalPos DecimalFacts.
From stdpp Require Import base option list gmap strings sorting.

Import ListNotations.
Local Open Scope Z_scope.
Local Open Scope list_scope.

(** ** Characters and text *)

Module Text.

Definition chars (s : string) : list ascii := list_ascii_of_string s.
Definition text (l : list ascii) : string := string_of_list_ascii l.

Definition code (c : ascii) : N := N_of_ascii c.

Definition is_digit (c : ascii) : bool :=
  ((48 <=? code c) && (code c <=? 57))%N.

(** [str.isspace] on U+0000 .. U+00FF. *)
Definition isspace (c : ascii) : bool :=
  let n := code c in
  (((9 <=? n) && (n <=? 13)) || ((28 <=? n) && (n <=? 32))
   || (n =? 133) || (n =? 160))%N.

(** [str.lower] on U+0000 .. U+00FF, one character. *)
Definition lower_char (c : ascii) : ascii :=
  let n := code c in
  if (((65 <=? n) && (n <=? 90))
      || ((192 <=? n) && (n <=? 222) && negb (n =? 215)))%N
  then ascii_of_N (n + 32) else c.

Fixpoint lstrip (l : list ascii) : list ascii :=
  match l with
  | c :: l' => if isspace c then lstrip l' else l
  | [] => []
  end.

(** [s.strip()] *)
Definition strip (s : string) : string :=
  text (rev (lstrip (rev (lstrip (chars s))))).

(** [s.lower()] *)
Definition lower (s : string) : string :=
  text (map lower_char (chars s)).

(** [s] with every apostrophe replaced by a double quote: a way to write
    down JSON text. *)
Definition quoted (s : string) : string :=
  text (map (fun c => if Ascii.eqb c "'" then "034"%char else c) (chars s)).

(** [s.startswith(p)] *)
Fixpoint starts_with (p s : list ascii) : bool :=
  match p, s with
  | [], _ => true
  | _ :: _, [] => false
  | a :: p', b :: s' => Ascii.eqb a b && starts_with p' s'
  end.

(** [sub in s] on the characters of two strings: [sub] occurs in [s] at
    some position. *)
Fixpoint occurs (sub s : list ascii) : bool :=
  starts_with sub s
  || match s with
     | [] => false
     | _ :: s' => occurs sub s'
     end.

(** [sub in s] *)
Definition contains (sub s : string) : bool := occurs (chars sub) (chars s).

(** [a < b] on strings: the order of the code points at the first position
    where the two differ; a proper prefix is smaller. *)
Fixpoint chars_lt (a b : list ascii) : bool :=
  match a, b with
  | _, [] => false
  | [], _ :: _ => true
  | x :: a', y :: b' =>
      (code x <? code y)%N || ((code x =? code y)%N && chars_lt a' b')
  end.

Definition str_lt (a b : string) : bool := chars_lt (chars a) (chars b).

End Text.

(** ** The [json] module *)

Module Json.
Import Text.

(** The Python values that [json.dump] serialises and [json.load] builds.
    A [dict] keeps its keys in insertion order; its keys are pairwise
    distinct ([wf]). *)
Unset Elimination Schemes.
Inductive json : Type :=
| JNull
| JBool (b : bool)
| JInt (z : Z)
| JStr (s : string)
| JList (l : list json)
| JDict (d : list (string * json)).
Set Elimination Schemes.

Definition dquote : ascii := "034"%char.
Definition backslash : ascii := "092"%char.

Definition hex_digit (n : N) : ascii :=
  if (n <? 10)%N then ascii_of_N (48 + n) else ascii_of_N (87 + n).

(** One character of a string literal, as [json.dumps] writes it with
    [ensure_ascii=True]: everything outside [' ' .. '~'] is escaped. *)
Definition escape_char (c : ascii) : list ascii :=
  let n := code c in
  if (n =? 34)%N then [backslash; dquote]
  else if (n =? 92)%N then [backslash; backslash]
  else if (n =? 10)%N then chars "\n"
  else if (n =? 13)%N then chars "\r"
  else if (n =? 9)%N then chars "\t"
  else if (n =? 8)%N then chars "\b"
  else if (n =? 12)%N then chars "\f"
  else if ((32 <=? n) && (n <=? 126))%N then [c]
  else chars "\u00" ++ [hex_digit (n / 16); hex_digit (n mod 16)].

Definition quote (s : string) : list ascii :=
  dquote :: flat_map escape_char (chars s) ++ [dquote].

Fixpoint digits (d : Decimal.uint) : list ascii :=
  match d with
  | Decimal.Nil => []
  | Decimal.D0 d => "0"%char :: digits d
  | Decimal.D1 d => "1"%char :: digits d
  | Decimal.D2 d => "2"%char :: digits d
  | Decimal.D3 d => "3"%char :: digits d
  | Decimal.D4 d => "4"%char :: digits d
  | Decimal.D5 d => "5"%char :: digits d
  | Decimal.D6 d => "6"%char :: digits d
  | Decimal.D7 d => "7"%char :: digits d
  | Decimal.D8 d => "8"%char :: digits d
  | Decimal.D9 d => "9"%char :: digits d
  end.

(** [int.__repr__] *)
Definition repr_int (z : Z) : list ascii :=
  match Z.to_int z with
  | Decimal.Pos d => digits d
  | Decimal.Neg d => "-"%char :: digits d
  end.

(** A line break followed by the indentation of nesting level [lvl]
    ([indent=2]). *)
Definition newline_indent (lvl : nat) : list ascii :=
  "010"%char :: repeat " "%char (2 * lvl).

(** [json.dumps(v, indent=2)], at nesting level [lvl]. *)
Fixpoint encode (lvl : nat) (v : json) : list ascii :=
  match v with
  | JNull => chars "null"
  | JBool true => chars "true"
  | JBool false => chars "false"
  | JInt z => repr_int z
  | JStr s => quote s
  | JList [] => chars "[]"
  | JList (x :: xs) =>
      "["%char :: newline_indent (S lvl) ++ encode (S lvl) x
      ++ (fix items (l : list json) : list ascii :=
            match l with
            | [] => []
            | y :: l' =>
                ","%char :: newline_indent (S lvl) ++ encode (S lvl) y
                ++ items l'
            end) xs
      ++ newline_indent lvl ++ ["]"%char]
  | JDict [] => chars "{}"
  | JDict ((k, x) :: ms) =>
      "{"%char :: newline_indent (S lvl) ++ quote k ++ chars ": "
      ++ encode (S lvl) x
      ++ (fix members (l : list (string * json)) : list ascii :=
            match l with
            | [] => []
            | (k', y) :: l' =>
                ","%char :: newline_indent (S lvl) ++ quote k' ++ chars ": "
                ++ encode (S lvl) y ++ members l'
            end) ms
      ++ newline_indent lvl ++ ["}"%char]
  end.

Definition dumps (v : json) : string := text (encode 0 v).

(** *** Reading: the scanner *)

Inductive token : Type :=
| TLBrace | TRBrace | TLBrack | TRBrack | TComma | TColon
| TNull | TBool (b : bool) | TInt (z : Z) | TStr (s : string).

(** JSON whitespace: space, tab, line feed, carriage return. *)
Definition is_ws (c : ascii) : bool :=
  let n := code c in ((n =? 32) || (n =? 9) || (n =? 10) || (n =? 13))%N.

Definition hex_val (c : ascii) : option N :=
  let n := code c in
  if ((48 <=? n) && (n <=? 57))%N then Some (n - 48)%N
  else if ((97 <=? n) && (n <=? 102))%N then Some (n - 87)%N
  else if ((65 <=? n) && (n <=? 70))%N then Some (n - 55)%N
  else None.

(** The character named by [\uXXXX]; code points above U+00FF have no
    counterpart in [string] and are refused. *)
Definition hex4 (a b c d : ascii) : option ascii :=
  match hex_val a, hex_val b, hex_val c, hex_val d with
  | Some x, Some y, Some z, Some w =>
      let n := (((x * 16 + y) * 16 + z) * 16 + w)%N in
      if (n <? 256)%N then Some (ascii_of_N n) else None
  | _, _, _, _ => None
  end.

(** The character named by a one-letter escape. *)
Definition unescape (e : ascii) : option ascii :=
  let n := code e in
  if (n =? 34)%N then Some dquote
  else if (n =? 92)%N then Some backslash
  else if (n =? 47)%N then Some "/"%char
  else if (n =? 98)%N then Some "008"%char
  else if (n =? 102)%N then Some "012"%char
  else if (n =? 110)%N then Some "010"%char
  else if (n =? 114)%N then Some "013"%char
  else if (n =? 116)%N then Some "009"%char
  else None.

(** The body of a string literal, after its opening quote
    ([py_scanstring], strict). *)
Fixpoint scan_string (s : list ascii) : option (list ascii * list ascii) :=
  match s with
  | [] => None
  | c :: r =>
      if (code c =? 34)%N then Some ([], r)
      else if (code c =? 92)%N then
        match r with
        | [] => None
        | e :: r1 =>
            if (code e =? 117)%N then
              match r1 with
              | h1 :: h2 :: h3 :: h4 :: r2 =>
                  match hex4 h1 h2 h3 h4, scan_string r2 with
                  | Some x, Some (body, rest) => Some (x :: body, rest)
                  | _, _ => None
                  end
              | _ => None
              end
            else
              match unescape e, scan_string r1 with
              | Some x, Some (body, rest) => Some (x :: body, rest)
              | _, _ => None
              end
        end
      else if (code c <? 32)%N then None
      else
        match scan_string r with
        | Some (body, rest) => Some (c :: body, rest)
        | None => None
        end
  end.

Definition digit_of (c : ascii) : option (Decimal.uint -> Decimal.uint) :=
  let n := code c in
  if (n =? 48)%N then Some Decimal.D0
  else if (n =? 49)%N then Some Decimal.D1
  else if (n =? 50)%N then Some Decimal.D2
  else if (n =? 51)%N then Some Decimal.D3
  else if (n =? 52)%N then Some Decimal.D4
  else if (n =? 53)%N then Some Decimal.D5
  else if (n =? 54)%N then Some Decimal.D6
  else if (n =? 55)%N then Some Decimal.D7
  else if (n =? 56)%N then Some Decimal.D8
  else if (n =? 57)%N then Some Decimal.D9
  else None.

(** The longest run of decimal digits. *)
Fixpoint scan_digits (s : list ascii) : Decimal.uint * list ascii :=
  match s with
  | [] => (Decimal.Nil, [])
  | c :: r =>
      match digit_of c with
      | Some D => let '(d, rest) := scan_digits r in (D d, rest)
      | None => (Decimal.Nil, s)
      end
  end.

(** The integer part of a number: a single zero, or a non-zero digit
    followed by digits. *)
Definition scan_uint (s : list ascii) : option (Decimal.uint * list ascii) :=
  match s with
  | [] => None
  | c :: r =>
      if (code c =? 48)%N then Some (Decimal.D0 Decimal.Nil, r)
      else if is_digit c then Some (scan_digits s)
      else None
  end.

(** A fraction or an exponent would make the number a float. *)
Definition float_follows (s : list ascii) : bool :=
  match s with
  | c :: _ => ((code c =? 46) || (code c =? 101) || (code c =? 69))%N
  | [] => false
  end.

(** A number: an optional minus sign and an integer part. *)
Definition scan_number (s : list ascii) : option (Z * list ascii) :=
  match s with
  | [] => None
  | c :: r =>
      if (code c =? 45)%N then
        match scan_uint r with
        | Some (d, rest) =>
            if float_follows rest then None
            else Some (Z.of_int (Decimal.Neg d), rest)
        | None => None
        end
      else
        match scan_uint s with
        | Some (d, rest) =>
            if float_follows rest then None
            else Some (Z.of_int (Decimal.Pos d), rest)
        | None => None
        end
  end.

Definition scan_word (w : string) (s : list ascii) : option (list ascii) :=
  let n := length (chars w) in
  if decide (take n s = chars w) then Some (drop n s) else None.

(** The tokens of a document; [fuel] bounds the number of steps. *)
Fixpoint lex (fuel : nat) (s : list ascii) : option (list token) :=
  match fuel with
  | O => None
  | S fuel' =>
      match s with
      | [] => Some []
      | c :: r =>
          let n := code c in
          if is_ws c then lex fuel' r
          else if (n =? 91)%N then cons TLBrack <$> lex fuel' r
          else if (n =? 93)%N then cons TRBrack <$> lex fuel' r
          else if (n =? 123)%N then cons TLBrace <$> lex fuel' r
          else if (n =? 125)%N then cons TRBrace <$> lex fuel' r
          else if (n =? 44)%N then cons TComma <$> lex fuel' r
          else if (n =? 58)%N then cons TColon <$> lex fuel' r
          else if (n =? 34)%N then
            match scan_string r with
            | Some (body, rest) => cons (TStr (text body)) <$> lex fuel' rest
            | None => None
            end
          else if (n =? 110)%N then
            rest ← scan_word "null" s; cons TNull <$> lex fuel' rest
          else if (n =? 116)%N then
            rest ← scan_word "true" s; cons (TBool true) <$> lex fuel' rest
          else if (n =? 102)%N then
            rest ← scan_word "false" s; cons (TBool false) <$> lex fuel' rest
          else
            match scan_number s with
            | Some (z, rest) => cons (TInt z) <$> lex fuel' rest
            | None => None
            end
      end
  end.

Definition tokenize (s : list ascii) : option (list token) :=
  lex (S (length s)) s.

(** *** Reading: the parser *)

(** [d[k] = v] on an insertion-ordered dictionary. *)
Fixpoint dict_set (k : string) (v : json) (d : list (string * json))
  : list (string * json) :=
  match d with
  | [] => [(k, v)]
  | (k', v') :: d' =>
      if decide (k = k') then (k, v) :: d' else (k', v') :: dict_set k v d'
  end.

(** [dict(pairs)]: a later pair overwrites an earlier one with its key. *)
Definition dict_of_pairs (pairs : list (string * json))
  : list (string * json) :=
  fold_left (fun d kv => dict_set kv.1 kv.2 d) pairs [].

(** An open container: the elements read so far, latest first, and for a
    dictionary the key whose value is being read. *)
Inductive frame : Type :=
| InList (acc : list json)
| InDict (acc : list (string * json)) (key : string).

Inductive pstate : Type :=
| Val (stk : list frame)
| AfterElem (stk : list frame) (acc : list json)
| Key (stk : list frame) (acc : list (string * json))
| Colon (stk : list frame) (acc : list (string * json)) (key : string)
| AfterMember (stk : list frame) (acc : list (string * json))
| Done (v : json).

(** A finished value goes to the innermost open container. *)
Definition deliver (v : json) (stk : list frame) : pstate :=
  match stk with
  | [] => Done v
  | InList acc :: stk' => AfterElem stk' (v :: acc)
  | InDict acc k :: stk' => AfterMember stk' ((k, v) :: acc)
  end.

Definition step (st : pstate) (t : token) : option pstate :=
  match st with
  | Val stk =>
      match t with
      | TNull => Some (deliver JNull stk)
      | TBool b => Some (deliver (JBool b) stk)
      | TInt z => Some (deliver (JInt z) stk)
      | TStr s => Some (deliver (JStr s) stk)
      | TLBrack => Some (Val (InList [] :: stk))
      | TLBrace => Some (Key stk [])
      | TRBrack =>
          match stk with
          | InList [] :: stk' => Some (deliver (JList []) stk')
          | _ => None
          end
      | _ => None
      end
  | AfterElem stk acc =>
      match t with
      | TComma => Some (Val (InList acc :: stk))
      | TRBrack => Some (deliver (JList (rev acc)) stk)
      | _ => None
      end
  | Key stk acc =>
      match t with
      | TStr k => Some (Colon stk acc k)
      | TRBrace =>
          match acc with
          | [] => Some (deliver (JDict []) stk)
          | _ => None
          end
      | _ => None
      end
  | Colon stk acc k =>
      match t with
      | TColon => Some (Val (InDict acc k :: stk))
      | _ => None
      end
  | AfterMember stk acc =>
      match t with
      | TComma => Some (Key stk acc)
      | TRBrace => Some (deliver (JDict (dict_of_pairs (rev acc))) stk)
      | _ => None
      end
  | Done _ => None
  end.

Fixpoint run (st : pstate) (ts : list token) : option json :=
  match ts with
  | [] => match st with Done v => Some v | _ => None end
  | t :: ts' =>
      match step st t with
      | Some st' => run st' ts'
      | None => None
      end
  end.

Definition parse (ts : list token) : option json := run (Val []) ts.

(** [json.loads(s)]; [None] stands for [JSONDecodeError]. *)
Definition loads (s : string) : option json :=
  match tokenize (chars s) with
  | Some ts => parse ts
  | None => None
  end.

(** *** Notions for the proof that [loads] inverts [dumps] *)


(** A value all of whose dictionaries have pairwise distinct keys, as
    every Python [dict] has. *)
Fixpoint wf (v : json) : bool :=
  match v with
  | JList l =>
      (fix all (l : list json) : bool :=
         match l with
         | [] => true
         | x :: l' => wf x && all l'
         end) l
  | JDict d =>
      bool_decide (NoDup (map fst d))
      && (fix all (l : list (string * json)) : bool :=
            match l with
            | [] => true
            | (_, x) :: l' => wf x && all l'
            end) d
  | _ => true
  end.







End Json.

(** ** Dates and time stamps *)

Module Datetime.
Import Text.

(** A [datetime.datetime]; [date] is [d.date().toordinal()]. *)
Record datetime : Type := mk_datetime {
  date : Z;
  hour : Z;
  minute : Z;
  second : Z;
  microsecond : Z
}.

Definition days_before_month (leap : bool) (month : Z) : Z :=
  nth (Z.to_nat month) [0; 0; 31; 59; 90; 120; 151; 181; 212; 243; 273; 304; 334] 0
  + (if (2 <? month) && leap then 1 else 0).

Definition days_in_month (leap : bool) (month : Z) : Z :=
  nth (Z.to_nat month) [0; 31; 28; 31; 30; 31; 30; 31; 31; 30; 31; 30; 31] 0
  + (if (month =? 2) && leap then 1 else 0).

(** Year, month and day of an ordinal ([datetime._ord2ymd]). *)
Definition ord2ymd (ordinal : Z) : Z * Z * Z :=
  let n := ordinal - 1 in
  let n400 := n / 146097 in
  let n := n mod 146097 in
  let n100 := n / 36524 in
  let n := n mod 36524 in
  let n4 := n / 1461 in
  let n := n mod 1461 in
  let n1 := n / 365 in
  let n := n mod 365 in
  let year := n400 * 400 + 1 + n100 * 100 + n4 * 4 + n1 in
  if (n1 =? 4) || (n100 =? 4) then (year - 1, 12, 31)
  else
    let leap := (n1 =? 3) && (negb (n4 =? 24) || (n100 =? 3)) in
    let month := (n + 50) / 32 in
    let preceding := days_before_month leap month in
    if n <? preceding
    then (year, month - 1,
          n - (preceding - days_in_month leap (month - 1)) + 1)
    else (year, month, n - preceding + 1).

(** [z] in decimal, padded with zeros on the left to [width] digits. *)
Definition padded (width : nat) (z : Z) : list ascii :=
  let ds := Json.repr_int z in
  repeat "0"%char (width - length ds) ++ ds.

(** [d.isoformat()]: [YYYY-MM-DDTHH:MM:SS], followed by [.ffffff] when the
    microsecond is not zero. *)
Definition isoformat (d : datetime) : string :=
  let '(y, m, dd) := ord2ymd (date d) in
  text (padded 4 y ++ chars "-" ++ padded 2 m ++ chars "-" ++ padded 2 dd
        ++ chars "T" ++ padded 2 (hour d) ++ chars ":" ++ padded 2 (minute d)
        ++ chars ":" ++ padded 2 (second d)
        ++ (if microsecond d =? 0 then []
            else chars "." ++ padded 6 (microsecond d))).

End Datetime.

(** ** The file system, as far as the program sees it *)

Module Os.

(** Regular files with their text, and the directories that exist. *)
Record World : Type := mk_world {
  files : gmap string string;
  dirs : gset string
}.

(** The directory part of a path: what stands before its last slash. *)
Fixpoint dir_part (p : string) : option string :=
  match p with
  | EmptyString => None
  | String c p' =>
      match dir_part p' with
      | Some d => Some (String c d)
      | None => if Ascii.eqb c "/" then Some EmptyString else None
      end
  end.

Definition dirname (p : string) : string := default EmptyString (dir_part p).

(** [os.makedirs(d, exist_ok=True)] *)
Definition makedirs (d : string) (w : World) : World :=
  {| files := files w; dirs := {[ d ]} ∪ dirs w |}.

(** [os.path.exists(p)] *)
Definition path_exists (p : string) (w : World) : bool :=
  bool_decide (is_Some (files w !! p)) || bool_decide (p ∈ dirs w).

(** [open(p, 'r').read()]; [None] stands for [OSError]. *)
Definition read_text (p : string) (w : World) : option string :=
  if bool_decide (p ∈ dirs w) then None else files w !! p.

(** Whether [open(p, 'w')] succeeds: the directory of [p] exists (the
    working directory always does) and [p] is not itself a directory. *)
Definition can_write (p : string) (w : World) : bool :=
  (bool_decide (dirname p = EmptyString) || bool_decide (dirname p ∈ dirs w))
  && negb (bool_decide (p ∈ dirs w)).

(** [open(p, 'w').write(s)]; [None] stands for [OSError]. *)
Definition write_text (p : string) (s : string) (w : World) : option World :=
  if can_write p w
  then Some {| files := <[p := s]> (files w); dirs := dirs w |}
  else None.

End Os.

(** ** Exceptions *)

Inductive exn : Type :=
| KeyboardInterrupt | EOFError | ZeroDivisionError | OSError | JSONDecodeError.

(** The outcome of a call that may raise. *)
Inductive res (A : Type) : Type :=
| Ok (a : A)
| Err (e : exn).
Arguments Ok {A} a.
Arguments Err {A} e.

(** ** Record store: the bodies shared by [_load_tasks] / [_load_sessions]
    and [_save_tasks] / [_save_sessions] *)

Module RecordStore.
Import Json Os.

(** [os.makedirs('data', exist_ok=True)] *)
Definition _ensure_data_directory (w : World) : World := makedirs "data" w.

(** [with open(path, 'r') as f: return json.load(f)] *)
Definition read_json (path : string) (w : World) : res json :=
  match read_text path w with
  | None => Err OSError
  | Some s =>
      match loads s with
      | Some v => Ok v
      | None => Err JSONDecodeError
      end
  end.

(** [with open(path, 'w') as f: json.dump(doc, f, indent=2)] *)
Definition write_json (path : string) (doc : json) (w : World) : res World :=
  match write_text path (dumps doc) w with
  | Some w' => Ok w'
  | None => Err OSError
  end.

(** The body of [_load_tasks] and [_load_sessions]: the bare [except]
    around the read turns every failure into the empty list. *)
Definition load (data_file : string) (w : World) : res json * World :=
  let w := _ensure_data_directory w in
  if path_exists data_file w then
    match read_json data_file w with
    | Ok v => (Ok v, w)
    | Err _ => (Ok (JList []), w)
    end
  else (Ok (JList []), w).

(** The body of [_save_tasks] and [_save_sessions]: [except Exception]
    around the write reports the failure on the terminal and goes on. *)
Definition save (data_file : string) (doc : json) (w : World) : World :=
  let w := _ensure_data_directory w in
  match write_json data_file doc w with
  | Ok w' => w'
  | Err _ => w
  end.

End RecordStore.

(** [sum(l)] on integers. *)
Definition py_sum (l : list Z) : Z := fold_left Z.add l 0.

(** [a / b] on integers: true division, exact here. *)
Definition py_truediv (a b : Z) : res Q :=
  if b =? 0 then Err ZeroDivisionError
  else Ok (Qdiv (inject_Z a) (inject_Z b)).

(** A dictionary entry that is written only when the key is present. *)
Definition field {A : Type} (key : string) (f : A -> Json.json)
    (o : option A) : list (string * Json.json) :=
  match o with
  | Some a => [(key, f a)]
  | None => []
  end.

(** ** Sorting *)

(** [x] placed into a sorted list, behind the elements that are not
    greater. *)
Fixpoint insert_sorted {A : Type} (lt : A -> A -> bool) (x : A) (l : list A)
  : list A :=
  match l with
  | [] => [x]
  | y :: l' => if lt x y then x :: y :: l' else y :: insert_sorted lt x l'
  end.

(** [l.sort(key=...)], where [lt a b] compares the keys of [a] and [b]
    with [<].  The sort of Python is stable, and a stable sort has one
    result only; it is computed here by insertion from left to right.
    With [reverse=True] the keys are compared with [>] and elements with
    equal keys still keep their order. *)
Definition py_sort {A : Type} (lt : A -> A -> bool) (l : list A) : list A :=
  fold_left (fun sorted x => insert_sorted lt x sorted) l [].

(** No element of the list is smaller than one that stands before it. *)
Definition ascending {A : Type} (lt : A -> A -> bool) (l : list A) : Prop :=
  StronglySorted (fun a b => lt b a = false) l.

(** ** Task registry ([src/task_manager.py]) *)

Module TaskManager.
Import Json Os Datetime.

(** A task dictionary.  The keys that the program reads with
    [t.get(key, default)] may be absent ([None]); [id] and [name] are read
    with [t[key]].  [completed_at] is always present and holds a time stamp
    or Python's [None]. *)
Record Task : Type := mk_task {
  id : Z;
  name : string;
  priority : option string;
  completed : option bool;
  created_at : option datetime;
  completed_at : option datetime;
  pomodoros_spent : option Z
}.

(** The dictionary as [json.dump] sees it, keys in the order in which
    [add_task] writes them. *)
Definition task_to_json (t : Task) : json :=
  JDict ([("id"%string, JInt (id t)); ("name"%string, JStr (name t))]
         ++ field "priority" JStr (priority t)
         ++ field "completed" JBool (completed t)
         ++ field "created_at" (fun d => JStr (isoformat d)) (created_at t)
         ++ [("completed_at"%string,
              match completed_at t with
              | Some d => JStr (isoformat d)
              | None => JNull
              end)]
         ++ field "pomodoros_spent" JInt (pomodoros_spent t)).

Definition tasks_to_json (l : list Task) : json :=
  JList (map task_to_json l).

Record TaskManager : Type := mk_task_manager {
  data_file : string;
  tasks : list Task
}.

Definition set_tasks (self : TaskManager) (l : list Task) : TaskManager :=
  {| data_file := data_file self; tasks := l |}.

Definition _load_tasks (self : TaskManager) (w : World) : res json * World :=
  RecordStore.load (data_file self) w.

Definition _save_tasks (self : TaskManager) (w : World) : World :=
  RecordStore.save (data_file self) (tasks_to_json (tasks self)) w.

(** [len(self.tasks)] *)
Definition len (self : TaskManager) : Z := Z.of_nat (length (tasks self)).

(** [add_task(task_name, priority)] at time [now]; the caller's default for
    [priority] is ['medium']. *)
Definition add_task (task_name priority : string) (now : datetime)
    (self : TaskManager) (w : World) : Task * TaskManager * World :=
  let task :=
    {| id := len self + 1;
       name := task_name;
       priority := Some priority;
       completed := Some false;
       created_at := Some now;
       completed_at := None;
       pomodoros_spent := Some 0 |} in
  let self := set_tasks self (tasks self ++ [task]) in
  (task, self, _save_tasks self w).

Definition get_all_tasks (self : TaskManager) : list Task := tasks self.

(** [t.get('completed', False)] *)
Definition is_completed (t : Task) : bool := default false (completed t).

Definition get_pending_tasks (self : TaskManager) : list Task :=
  List.filter (fun t => negb (is_completed t)) (tasks self).

Definition get_completed_tasks (self : TaskManager) : list Task :=
  List.filter is_completed (tasks self).

(** [0 <= index < len(self.tasks)] *)
Definition in_range (index : Z) (self : TaskManager) : bool :=
  (0 <=? index) && (index <? len self).

Definition get_task_by_index (index : Z) (self : TaskManager) : option Task :=
  if in_range index self then tasks self !! Z.to_nat index else None.

Definition complete_task (index : Z) (now : datetime) (self : TaskManager)
    (w : World) : bool * TaskManager * World :=
  if in_range index self then
    let mark t :=
      {| id := id t; name := name t; priority := priority t;
         completed := Some true; created_at := created_at t;
         completed_at := Some now; pomodoros_spent := pomodoros_spent t |} in
    let self := set_tasks self (alter mark (Z.to_nat index) (tasks self)) in
    (true, self, _save_tasks self w)
  else (false, self, w).

Definition delete_task (index : Z) (self : TaskManager) (w : World)
  : option Task * TaskManager * World :=
  if in_range index self then
    let deleted := tasks self !! Z.to_nat index in
    let self := set_tasks self (delete (Z.to_nat index) (tasks self)) in
    (deleted, self, _save_tasks self w)
  else (None, self, w).

(** [t['pomodoros_spent'] = t.get('pomodoros_spent', 0) + 1] *)
Definition spend_pomodoro (t : Task) : Task :=
  {| id := id t; name := name t; priority := priority t;
     completed := completed t; created_at := created_at t;
     completed_at := completed_at t;
     pomodoros_spent := Some (default 0 (pomodoros_spent t) + 1) |}.

(** The loop of [increment_pomodoro]: the list after the first task with
    the given id has been updated, [None] when the loop ends without a
    match. *)
Fixpoint increment_loop (task_id : Z) (l : list Task) : option (list Task) :=
  match l with
  | [] => None
  | t :: l' =>
      if id t =? task_id then Some (spend_pomodoro t :: l')
      else cons t <$> increment_loop task_id l'
  end.

Definition increment_pomodoro (task : Task) (self : TaskManager) (w : World)
  : TaskManager * World :=
  match increment_loop (id task) (tasks self) with
  | Some l =>
      let self := set_tasks self l in
      (self, _save_tasks self w)
  | None => (self, w)
  end.

(** The dictionary returned by [get_task_stats]. *)
Record TaskStats : Type := mk_task_stats {
  stat_total : Z;
  stat_pending : Z;
  stat_completed : Z;
  stat_completion_rate : Q;
  stat_total_pomodoros : Z
}.

Definition get_task_stats (self : TaskManager) : res TaskStats :=
  let total := len self in
  let pending := Z.of_nat (length (get_pending_tasks self)) in
  let completed := Z.of_nat (length (get_completed_tasks self)) in
  let total_pomodoros :=
    py_sum (map (fun t => default 0 (pomodoros_spent t)) (tasks self)) in
  let rate :=
    if 0 <? total then
      match py_truediv completed total with
      | Ok q => Ok (Qmult q (inject_Z 100))
      | Err e => Err e
      end
    else Ok (inject_Z 0) in
  match rate with
  | Ok r =>
      Ok {| stat_total := total; stat_pending := pending;
            stat_completed := completed; stat_completion_rate := r;
            stat_total_pomodoros := total_pomodoros |}
  | Err e => Err e
  end.

Definition uncomplete_task (index : Z) (self : TaskManager) (w : World)
  : bool * TaskManager * World :=
  if in_range index self then
    let unmark t :=
      {| id := id t; name := name t; priority := priority t;
         completed := Some false; created_at := created_at t;
         completed_at := None; pomodoros_spent := pomodoros_spent t |} in
    let self := set_tasks self (alter unmark (Z.to_nat index) (tasks self)) in
    (true, self, _save_tasks self w)
  else (false, self, w).

Definition edit_task (index : Z) (new_name : string) (self : TaskManager)
    (w : World) : bool * TaskManager * World :=
  if in_range index self then
    let rename t :=
      {| id := id t; name := new_name; priority := priority t;
         completed := completed t; created_at := created_at t;
         completed_at := completed_at t;
         pomodoros_spent := pomodoros_spent t |} in
    let self := set_tasks self (alter rename (Z.to_nat index) (tasks self)) in
    (true, self, _save_tasks self w)
  else (false, self, w).

Definition set_priority (index : Z) (new_priority : string)
    (self : TaskManager) (w : World) : bool * TaskManager * World :=
  if in_range index self
     && bool_decide (new_priority ∈ ["high"; "medium"; "low"]%string)
  then
    let rank t :=
      {| id := id t; name := name t; priority := Some new_priority;
         completed := completed t; created_at := created_at t;
         completed_at := completed_at t;
         pomodoros_spent := pomodoros_spent t |} in
    let self := set_tasks self (alter rank (Z.to_nat index) (tasks self)) in
    (true, self, _save_tasks self w)
  else (false, self, w).

Definition clear_completed_tasks (self : TaskManager) (w : World)
  : TaskManager * World :=
  let self :=
    set_tasks self (List.filter (fun t => negb (is_completed t)) (tasks self)) in
  (self, _save_tasks self w).

Definition clear_all_tasks (self : TaskManager) (w : World)
  : TaskManager * World :=
  let self := set_tasks self [] in
  (self, _save_tasks self w).

Definition search_tasks (keyword : string) (self : TaskManager) : list Task :=
  let keyword := Text.lower keyword in
  List.filter (fun t => Text.contains keyword (Text.lower (name t)))
              (tasks self).

(** [priority_order.get(p, 1)] *)
Definition priority_order (p : string) : Z :=
  if bool_decide (p = "high"%string) then 0
  else if bool_decide (p = "medium"%string) then 1
  else if bool_decide (p = "low"%string) then 2
  else 1.

(** The key of [sort_tasks_by_priority]. *)
Definition priority_key (t : Task) : bool * Z :=
  (is_completed t, priority_order (default "medium"%string (priority t))).

(** [a < b] on tuples of a boolean and an integer. *)
Definition priority_key_lt (a b : bool * Z) : bool :=
  if Bool.eqb a.1 b.1 then a.2 <? b.2 else negb a.1 && b.1.

Definition sort_tasks_by_priority (self : TaskManager) (w : World)
  : TaskManager * World :=
  let self :=
    set_tasks self
      (py_sort (fun a b => priority_key_lt (priority_key a) (priority_key b))
               (tasks self)) in
  (self, _save_tasks self w).

(** [x.get('created_at', '')] *)
Definition date_key (t : Task) : string :=
  match created_at t with
  | Some d => isoformat d
  | None => EmptyString
  end.

Definition sort_tasks_by_date (self : TaskManager) (w : World)
  : TaskManager * World :=
  let self :=
    set_tasks self
      (py_sort (fun a b => Text.str_lt (date_key b) (date_key a))
               (tasks self)) in
  (self, _save_tasks self w).

End TaskManager.

(** ** Dictionaries with keys in insertion order *)

Section dict.
Context {K V : Type} `{EqDecision K}.

(** [d.get(key)] *)
Fixpoint dict_get (key : K) (d : list (K * V)) : option V :=
  match d with
  | [] => None
  | (k, v) :: d' => if decide (k = key) then Some v else dict_get key d'
  end.

(** [d[key] = v]: a key that is present keeps its place, a new key goes to
    the end. *)
Fixpoint dict_put (key : K) (v : V) (d : list (K * V)) : list (K * V) :=
  match d with
  | [] => [(key, v)]
  | (k, v') :: d' =>
      if decide (k = key) then (k, v) :: d' else (k, v') :: dict_put key v d'
  end.

(** [d[key] = f(d[key])] on a [defaultdict] whose factory returns
    [dflt]. *)
Definition dict_update (dflt : V) (f : V -> V) (key : K) (d : list (K * V))
  : list (K * V) :=
  dict_put key (f (default dflt (dict_get key d))) d.

End dict.

(** ** Statistics engine ([src/stats.py]) *)

Module Stats.
Import Json Os Datetime.

(** A session dictionary.  [timestamp] is read with [s['timestamp']], the
    other keys with [s.get], so they may be absent. *)
Record Session : Type := mk_session {
  type : option string;
  task : option string;
  duration : option Z;
  completed : option bool;
  timestamp : datetime
}.

Definition session_to_json (s : Session) : json :=
  JDict (field "type" JStr (type s)
         ++ field "task" JStr (task s)
         ++ field "duration" JInt (duration s)
         ++ field "completed" JBool (completed s)
         ++ [("timestamp"%string, JStr (isoformat (timestamp s)))]).

Definition sessions_to_json (l : list Session) : json :=
  JList (map session_to_json l).

Record Stats : Type := mk_stats {
  data_file : string;
  sessions : list Session
}.

Definition set_sessions (self : Stats) (l : list Session) : Stats :=
  {| data_file := data_file self; sessions := l |}.

Definition _load_sessions (self : Stats) (w : World) : res json * World :=
  RecordStore.load (data_file self) w.

Definition _save_sessions (self : Stats) (w : World) : World :=
  RecordStore.save (data_file self) (sessions_to_json (sessions self)) w.

Definition add_session (session_data : Session) (self : Stats) (w : World)
  : Stats * World :=
  let self := set_sessions self (sessions self ++ [session_data]) in
  (self, _save_sessions self w).

(** [datetime.fromisoformat(s['timestamp']).date()] *)
Definition session_date (s : Session) : Z := date (timestamp s).

Definition get_today_sessions (today : Z) (self : Stats) : list Session :=
  List.filter (fun s => session_date s =? today) (sessions self).

(** [s.get('type') == 'pomodoro' and s.get('completed', False)] *)
Definition is_completed_pomodoro (s : Session) : bool :=
  bool_decide (type s = Some "pomodoro"%string) && default false (completed s).

Definition get_pomodoro_count (sessions : list Session) : Z :=
  py_sum (map (fun _ => 1) (List.filter is_completed_pomodoro sessions)).

Definition get_total_focus_time (sessions : list Session) : string :=
  let total_seconds :=
    py_sum (map (fun s => default 0 (duration s))
                (List.filter is_completed_pomodoro sessions)) in
  let hours := total_seconds / 3600 in
  let minutes := (total_seconds mod 3600) / 60 in
  if 0 <? hours then
    Text.text (repr_int hours ++ Text.chars "h " ++ repr_int minutes
               ++ Text.chars "m")
  else Text.text (repr_int minutes ++ Text.chars "m").

(** The set of dates that carry a completed pomodoro. *)
Definition pomodoro_dates (sessions : list Session) : gset Z :=
  fold_left
    (fun dates s =>
       if is_completed_pomodoro s then dates ∪ {[ session_date s ]}
       else dates)
    sessions ∅.

(** [sorted(dates, reverse=True)] *)
Definition sorted_reverse (dates : gset Z) : list Z :=
  merge_sort (flip Z.le) (elements dates).

(** The loop of [get_streak] over the sorted dates. *)
Fixpoint streak_loop (sorted_dates : list Z) (streak current_date : Z) : Z :=
  match sorted_dates with
  | [] => streak
  | d :: rest =>
      if d =? current_date then streak_loop rest (streak + 1) (current_date - 1)
      else if d =? current_date then streak_loop rest streak current_date
      else streak
  end.

(** [get_streak()], called on the day [today]. *)
Definition get_streak (today : Z) (self : Stats) : Z :=
  match sessions self with
  | [] => 0
  | _ =>
      let dates := pomodoro_dates (sessions self) in
      if bool_decide (dates = ∅) then 0
      else streak_loop (sorted_reverse dates) 0 today
  end.

(** [d.weekday()]: Monday is 0. *)
Definition weekday (d : Z) : Z := (d + 6) mod 7.

(** [today - timedelta(days=today.weekday())] *)
Definition week_start (today : Z) : Z := today - weekday today.

Definition get_week_sessions (today : Z) (self : Stats) : list Session :=
  List.filter (fun s => week_start today <=? session_date s) (sessions self).

(** The [defaultdict(int)] that [get_best_day] fills: the completed
    pomodoros of every date. *)
Definition daily_counts (sessions : list Session) : list (Z * Z) :=
  fold_left
    (fun counts s =>
       if is_completed_pomodoro s
       then dict_update 0 (fun n => n + 1) (session_date s) counts
       else counts)
    sessions [].

(** [max(d, key=d.get)], begun at the first entry of [d]: a later key
    replaces the best one only when its value is greater. *)
Fixpoint max_by_value (best : Z * Z) (rest : list (Z * Z)) : Z * Z :=
  match rest with
  | [] => best
  | (k, n) :: rest' =>
      if best.2 <? n then max_by_value (k, n) rest'
      else max_by_value best rest'
  end.

(** The dictionary returned by [get_best_day]; the date is kept as a date,
    the source renders it with [strftime('%A, %B %d, %Y')]. *)
Record BestDay : Type := mk_best_day {
  best_date : Z;
  best_pomodoros : Z
}.

Definition get_best_day (self : Stats) : option BestDay :=
  match sessions self with
  | [] => None
  | _ =>
      let counts := daily_counts (sessions self) in
      match counts with
      | [] => None
      | first :: rest =>
          let best := (max_by_value first rest).1 in
          Some {| best_date := best;
                  best_pomodoros := default 0 (dict_get best counts) |}
      end
  end.

(** An entry of the dictionary returned by [get_task_stats]. *)
Record TaskFocus : Type := mk_task_focus {
  focus_count : Z;
  focus_time : Z
}.

(** [session.get('task', 'General work')] *)
Definition task_name (s : Session) : string :=
  default "General work"%string (task s).

Definition get_task_stats (self : Stats) : list (string * TaskFocus) :=
  fold_left
    (fun task_stats s =>
       if is_completed_pomodoro s then
         let key := task_name s in
         let task_stats :=
           dict_update (mk_task_focus 0 0)
             (fun e => mk_task_focus (focus_count e + 1) (focus_time e))
             key task_stats in
         dict_update (mk_task_focus 0 0)
           (fun e => mk_task_focus (focus_count e)
                       (focus_time e + default 0 (duration s)))
           key task_stats
       else task_stats)
    (sessions self) [].

Definition clear_all_stats (self : Stats) (w : World) : Stats * World :=
  let self := set_sessions self [] in
  (self, _save_sessions self w).

(** [d.strftime('%A')], in the C locale. *)
Definition day_name (d : Z) : string :=
  nth (Z.to_nat (weekday d))
      ["Monday"; "Tuesday"; "Wednesday"; "Thursday"; "Friday"; "Saturday";
       "Sunday"]%string EmptyString.

Definition get_weekly_chart (today : Z) (self : Stats) : list (string * Z) :=
  let start := week_start today in
  let daily_data :=
    fold_left (fun data i => dict_put (day_name (start + i)) 0 data)
              [0; 1; 2; 3; 4; 5; 6] [] in
  fold_left
    (fun data s =>
       if is_completed_pomodoro s then
         if start <=? session_date s then
           let key := day_name (session_date s) in
           match dict_get key data with
           | Some n => dict_put key (n + 1) data
           | None => data
           end
         else data
       else data)
    (sessions self) daily_data.

(** The dictionary [stats_data] that [display_stats] hands to
    [Display.show_stats_summary]. *)
Record StatsData : Type := mk_stats_data {
  today_pomodoros : Z;
  today_focus_time : string;
  week_pomodoros : Z;
  week_focus_time : string;
  total_pomodoros : Z;
  total_focus_time : string;
  current_streak : Z;
  best_day : option BestDay
}.

(** The task breakdown of [display_stats]: the entries of
    [get_task_stats], the greatest count first, at most five. *)
Definition top_tasks (self : Stats) : list (string * TaskFocus) :=
  take 5 (py_sort (fun a b => focus_count b.2 <? focus_count a.2)
                  (get_task_stats self)).

(** What [display_stats()] shows on the day [today]. *)
Definition display_stats (today : Z) (self : Stats)
  : StatsData * list (string * TaskFocus) :=
  let today_sessions := get_today_sessions today self in
  let week_sessions := get_week_sessions today self in
  let all_sessions := sessions self in
  ({| today_pomodoros := get_pomodoro_count today_sessions;
      today_focus_time := get_total_focus_time today_sessions;
      week_pomodoros := get_pomodoro_count week_sessions;
      week_focus_time := get_total_focus_time week_sessions;
      total_pomodoros := get_pomodoro_count all_sessions;
      total_focus_time := get_total_focus_time all_sessions;
      current_streak := get_streak today self;
      best_day := get_best_day self |},
   top_tasks self).

End Stats.

(** ** Timer state machine ([src/timer.py]) *)

Module Timer.
Import Os Datetime.

(** What the outside world does while the program waits: the countdown
    reaches its deadline, the user presses Ctrl+C, types a line, or closes
    the input. *)
Inductive signal : Type :=
| Expire
| Interrupt
| Line (s : string)
| Eof.

(** A signal and the wall-clock time at which it arrives. *)
Record event : Type := mk_event {
  at_time : datetime;
  what : signal
}.

(** The [session_type] argument of [countdown]. *)
Inductive session_type : Type :=
| pomodoro
| short_break
| long_break.

(** What the program does to the outside world, apart from files. *)
Inductive action : Type :=
| Notify (title : string)
| Countdown (kind : session_type) (duration : Z).

Record PomodoroTimer : Type := mk_timer {
  pomodoro_duration : Z;
  short_break_duration : Z;
  long_break_duration : Z;
  pomodoros_until_long_break : Z;
  current_pomodoros : Z;
  stats : Stats.Stats
}.

(** [PomodoroTimer.__init__], given the session log that [Stats()] loads. *)
Definition init (st : Stats.Stats) : PomodoroTimer :=
  {| pomodoro_duration := 25 * 60;
     short_break_duration := 5 * 60;
     long_break_duration := 15 * 60;
     pomodoros_until_long_break := 4;
     current_pomodoros := 0;
     stats := st |}.

Definition reset_to_default (self : PomodoroTimer) : PomodoroTimer :=
  {| pomodoro_duration := 25 * 60;
     short_break_duration := 5 * 60;
     long_break_duration := 15 * 60;
     pomodoros_until_long_break := pomodoros_until_long_break self;
     current_pomodoros := current_pomodoros self;
     stats := stats self |}.

(** The running program: the timer, the task registry that [main] holds
    next to it, the file system, the clock, the signals still to come and
    the actions performed so far. *)
Record Machine : Type := mk_machine {
  timer : PomodoroTimer;
  task_manager : TaskManager.TaskManager;
  world : World;
  clock : datetime;
  script : list event;
  trace : list action
}.

Inductive outcome (A : Type) : Type :=
| Return (a : A) (m : Machine)
| Raise (e : exn) (m : Machine)
| Blocked (m : Machine).
Arguments Return {A} a m.
Arguments Raise {A} e m.
Arguments Blocked {A} m.

(** The machine in which a statement ends. *)
Definition machine_of {A : Type} (o : outcome A) : Machine :=
  match o with
  | Return _ m => m
  | Raise _ m => m
  | Blocked m => m
  end.

(** A statement: it runs on a machine and returns, raises, or waits for a
    signal that the script does not provide. *)
Definition M (A : Type) : Type := Machine -> outcome A.

#[export] Instance M_ret : MRet M := fun A a m => Return a m.
#[export] Instance M_bind : MBind M := fun A B f x m =>
  match x m with
  | Return a m' => f a m'
  | Raise e m' => Raise e m'
  | Blocked m' => Blocked m'
  end.

Definition raise {A : Type} (e : exn) : M A := fun m => Raise e m.

(** [try: body  except KeyboardInterrupt: handler] *)
Definition try_except {A : Type} (body handler : M A) : M A := fun m =>
  match body m with
  | Raise KeyboardInterrupt m' => handler m'
  | r => r
  end.

Definition get {A : Type} (f : PomodoroTimer -> A) : M A :=
  fun m => Return (f (timer m)) m.

Definition set_timer (t : PomodoroTimer) : M unit := fun m =>
  Return tt {| timer := t; task_manager := task_manager m; world := world m;
               clock := clock m; script := script m; trace := trace m |}.

Definition set_world (w : World) : M unit := fun m =>
  Return tt {| timer := timer m; task_manager := task_manager m; world := w;
               clock := clock m; script := script m; trace := trace m |}.

Definition emit (a : action) : M unit := fun m =>
  Return tt {| timer := timer m; task_manager := task_manager m;
               world := world m; clock := clock m; script := script m;
               trace := trace m ++ [a] |}.

(** The machine once the first signal of the script has arrived. *)
Definition advance (e : event) (rest : list event) (m : Machine) : Machine :=
  {| timer := timer m; task_manager := task_manager m; world := world m;
     clock := at_time e; script := rest; trace := trace m |}.

(** [datetime.now()] *)
Definition now : M datetime := fun m => Return (clock m) m.

(** [Notifier.notify(title, message)]: failures are swallowed inside. *)
Definition notify (title : string) : M unit := emit (Notify title).

(** [input(prompt)] *)
Definition input : M string := fun m =>
  match script m with
  | [] => Blocked m
  | e :: rest =>
      match what e with
      | Line s => Return s (advance e rest m)
      | Interrupt => Raise KeyboardInterrupt (advance e rest m)
      | Eof => Raise EOFError (advance e rest m)
      | Expire => Blocked m
      end
  end.

(** [countdown(duration, session_type, task)]: the loop runs while the
    deadline lies ahead, so a duration that is not positive ends it at
    once; otherwise it ends when the deadline is reached or Ctrl+C is
    pressed. *)
Definition countdown (duration : Z) (kind : session_type) : M bool :=
  emit (Countdown kind duration);;
  if duration <=? 0 then mret true
  else fun m =>
    match script m with
    | [] => Blocked m
    | e :: rest =>
        match what e with
        | Expire => Return true (advance e rest m)
        | Interrupt => Raise KeyboardInterrupt (advance e rest m)
        | _ => Blocked m
        end
    end.

(** [a % b] *)
Definition py_mod (a b : Z) : M Z :=
  if b =? 0 then raise ZeroDivisionError else mret (a mod b).

(** [input(...).strip().lower()] *)
Definition input_choice : M string :=
  s ← input; mret (Text.lower (Text.strip s)).

Definition set_current_pomodoros (n : Z) (t : PomodoroTimer) : PomodoroTimer :=
  {| pomodoro_duration := pomodoro_duration t;
     short_break_duration := short_break_duration t;
     long_break_duration := long_break_duration t;
     pomodoros_until_long_break := pomodoros_until_long_break t;
     current_pomodoros := n;
     stats := stats t |}.

Definition set_stats (st : Stats.Stats) (t : PomodoroTimer) : PomodoroTimer :=
  {| pomodoro_duration := pomodoro_duration t;
     short_break_duration := short_break_duration t;
     long_break_duration := long_break_duration t;
     pomodoros_until_long_break := pomodoros_until_long_break t;
     current_pomodoros := current_pomodoros t;
     stats := st |}.

(** [self.stats.add_session(session_data)] *)
Definition stats_add_session (session_data : Stats.Session) : M unit := fun m =>
  let '(st, w) := Stats.add_session session_data (stats (timer m)) (world m) in
  Return tt {| timer := set_stats st (timer m); task_manager := task_manager m;
               world := w; clock := clock m; script := script m;
               trace := trace m |}.

(** The two statements that [start_pomodoro] runs both after a countdown
    that reached its deadline and after an interrupted one that the user
    confirms: [self.current_pomodoros += 1] and
    [self.stats.add_session({...})]. *)
Definition count_and_record (task : option TaskManager.Task) : M unit :=
  t ← get (fun t => t);
  set_timer (set_current_pomodoros (current_pomodoros t + 1) t);;
  d ← get pomodoro_duration;
  stamp ← now;
  stats_add_session
    {| Stats.type := Some "pomodoro"%string;
       Stats.task := Some (match task with
                           | Some t => TaskManager.name t
                           | None => "General work"%string
                           end);
       Stats.duration := Some d;
       Stats.completed := Some true;
       Stats.timestamp := stamp |}.

Definition start_break (break_type : string) : M unit :=
  try_except
    (duration ← get (if bool_decide (break_type = "short"%string)
                     then short_break_duration else long_break_duration);
     let kind := if bool_decide (break_type = "short"%string)
                 then short_break else long_break in
     completed ← countdown duration kind;
     if completed : bool then
       notify "Break Over!";;
       _ ← input; mret tt
     else mret tt)
    (_ ← input; mret tt).

(** [start_pomodoro(task)]; [fuel] bounds the depth of the calls that it
    makes to itself when the user asks for another pomodoro. *)
Fixpoint start_pomodoro_rec (fuel : nat) (task : option TaskManager.Task)
  : M unit :=
  match fuel with
  | O => fun m => Blocked m
  | S fuel' =>
      try_except
        (notify "Pomodoro Started!";;
         d ← get pomodoro_duration;
         completed ← countdown d pomodoro;
         if completed : bool then
           count_and_record task;;
           notify "Pomodoro Complete!";;
           n ← get current_pomodoros;
           k ← get pomodoros_until_long_break;
           r ← py_mod n k;
           (if r =? 0 then _ ← input; start_break "long"
            else _ ← input; start_break "short");;
           choice ← input_choice;
           if bool_decide (choice = "y"%string)
           then start_pomodoro_rec fuel' task
           else mret tt
         else mret tt)
        (choice ← input_choice;
         (if bool_decide (choice = "y"%string)
          then count_and_record task
          else mret tt);;
         _ ← input; mret tt)
  end.

(** Every call that [start_pomodoro] makes to itself comes after at least
    two signals, so the length of the script bounds the depth. *)
Definition start_pomodoro (task : option TaskManager.Task) : M unit :=
  fun m => start_pomodoro_rec (S (length (script m))) task m.

(** [get_stats_summary()['next_break']] *)
Definition next_break (self : PomodoroTimer) : res string :=
  if pomodoros_until_long_break self =? 0 then Err ZeroDivisionError
  else if current_pomodoros self mod pomodoros_until_long_break self =? 0
       then Ok "long"%string else Ok "short"%string.

(** A statement never puts signals back: in whatever way it ends, the
    script is not longer than before. *)
Definition shrinks {A : Type} (x : M A) : Prop :=
  ∀ m, (length (script (machine_of (x m))) ≤ length (script m))%nat.

(** A statement that returns has consumed at least one signal. *)
Definition consumes {A : Type} (x : M A) : Prop :=
  ∀ m a m', x m = Return a m' → (length (script m') < length (script m))%nat.

(** The signal that ends the countdown of a pomodoro at its deadline: none
    when the duration is not positive, since such a countdown ends at
    once. *)
Definition expiry (t : PomodoroTimer) (deadline : datetime) : list event :=
  if pomodoro_duration t <=? 0 then [] else [mk_event deadline Expire].

(** A statement only adds to the actions performed so far. *)
Definition extends {A : Type} (x : M A) : Prop :=
  ∀ m, ∃ more, trace (machine_of (x m)) = trace m ++ more.

(** The breaks whose countdown was started. *)
Definition breaks_started (tr : list action) : list session_type :=
  omap (fun a => match a with
                 | Countdown short_break _ => Some short_break
                 | Countdown long_break _ => Some long_break
                 | _ => None
                 end) tr.

(** [f"{n:02d}"]: at least two characters, zeros in front of the digits;
    the sign of a negative number counts as one of them. *)
Definition format_02d (n : Z) : list ascii :=
  if n <? 0 then Json.repr_int n else padded 2 n.

(** [format_time(seconds)] *)
Definition format_time (seconds : Z) : string :=
  let minutes := seconds / 60 in
  let secs := seconds mod 60 in
  Text.text (format_02d minutes ++ Text.chars ":" ++ format_02d secs).

(** The dictionary returned by [get_stats_summary]. *)
Record StatsSummary : Type := mk_stats_summary {
  pomodoros_today : Z;
  summary_next_break : string
}.

Definition get_stats_summary (self : PomodoroTimer) : res StatsSummary :=
  match next_break self with
  | Ok b => Ok {| pomodoros_today := current_pomodoros self;
                  summary_next_break := b |}
  | Err e => Err e
  end.

(** The record that [start_pomodoro(task)] writes for a pomodoro of [d]
    seconds, whatever its time stamp. *)
Definition pomodoro_record (task : option TaskManager.Task) (d : Z)
    (s : Stats.Session) : Prop :=
  Stats.type s = Some "pomodoro"%string
  ∧ Stats.task s = Some (match task with
                         | Some t => TaskManager.name t
                         | None => "General work"%string
                         end)
  ∧ Stats.duration s = Some d
  ∧ Stats.completed s = Some true.

(** What a run of the timer for [task] may have done between the machines
    [m] and [m']: the task registry and the settings are those of [m], the
    session log has grown by records of [task], the counter by their
    number, and no file but the session log has been written. *)
Definition counted_together (task : option TaskManager.Task)
    (m m' : Machine) : Prop :=
  task_manager m' = task_manager m
  ∧ (pomodoro_duration (timer m'), short_break_duration (timer m'),
     long_break_duration (timer m'), pomodoros_until_long_break (timer m'))
    = (pomodoro_duration (timer m), short_break_duration (timer m),
       long_break_duration (timer m), pomodoros_until_long_break (timer m))
  ∧ Stats.data_file (stats (timer m')) = Stats.data_file (stats (timer m))
  ∧ (∃ new : list Stats.Session,
       Stats.sessions (stats (timer m'))
       = Stats.sessions (stats (timer m)) ++ new
       ∧ current_pomodoros (timer m')
         = current_pomodoros (timer m) + Z.of_nat (length new)
       ∧ Forall (pomodoro_record task (pomodoro_duration (timer m))) new)
  ∧ (∀ path : string,
       path ≠ Stats.data_file (stats (timer m)) →
       files (world m') !! path = files (world m) !! path).

(** A statement that leaves the timer, the task registry and the files as
    they are. *)
Definition quiet {A : Type} (x : M A) : Prop :=
  ∀ m, timer (machine_of (x m)) = timer m
       ∧ task_manager (machine_of (x m)) = task_manager m
       ∧ world (machine_of (x m)) = world m.

(** A statement whose runs for [task] count and record together. *)
Definition keeps {A : Type} (task : option TaskManager.Task) (x : M A)
  : Prop :=
  ∀ m, counted_together task m (machine_of (x m)).

End Timer.

(** ** Terminal output ([src/display.py]) *)

Module Display.

(** [enumerate(l, start)] *)
Definition enumerate {A : Type} (start : Z) (l : list A) : list (Z * A) :=
  imap (fun i x => (start + Z.of_nat i, x)) l.

(** What [show_task_list(tasks)] prints for a list that is not empty: the
    numbered names under the heading of the pending tasks, those under the
    heading of the completed tasks, and the three numbers of the last
    line.  Colours, headings and separators are left out. *)
Record TaskListing : Type := mk_task_listing {
  pending_lines : list (Z * string);
  completed_lines : list (Z * string);
  total_line : Z * Z * Z
}.

(** [show_task_list(tasks)]; [None] stands for the message that there are
    no tasks yet. *)
Definition show_task_list (tasks : list TaskManager.Task)
  : option TaskListing :=
  match tasks with
  | [] => None
  | _ =>
      let pending :=
        List.filter (fun t => negb (TaskManager.is_completed t)) tasks in
      let completed := List.filter TaskManager.is_completed tasks in
      Some {| pending_lines :=
                enumerate 1 (map TaskManager.name pending);
              completed_lines :=
                enumerate 1 (map TaskManager.name completed);
              total_line :=
                (Z.of_nat (length tasks), Z.of_nat (length pending),
                 Z.of_nat (length completed)) |}
  end.

End Display.

(** ** The menus ([main.py]) *)

Module Main.
Import Os Datetime Timer.

(** The characters that [int] skips before and after a number. *)
Definition int_space (c : ascii) : bool :=
  let n := Text.code c in
  (((9 <=? n) && (n <=? 13)) || (n =? 32) || (n =? 133) || (n =? 160))%N.

Fixpoint drop_space (l : list ascii) : list ascii :=
  match l with
  | c :: l' => if int_space c then drop_space l' else l
  | [] => []
  end.

(** The digits of a decimal literal, read from the left: [value] and
    [count] are the number and the count of the digits read so far,
    [after_digit] tells whether the last character was a digit.  An
    underscore may only stand between two digits. *)
Fixpoint int_digits (l : list ascii) (value : Z) (count : nat)
    (after_digit : bool) : option (Z * nat) :=
  match l with
  | [] => if after_digit then Some (value, count) else None
  | c :: l' =>
      if Text.is_digit c
      then int_digits l' (10 * value + Z.of_N (Text.code c - 48)) (S count)
                      true
      else if Ascii.eqb c "_"
      then if after_digit then int_digits l' value count false else None
      else None
  end.

(** [int(s)] on a string; [None] stands for [ValueError].  A literal of
    more than 4300 digits is refused. *)
Definition py_int (s : string) : option Z :=
  let l := rev (drop_space (rev (drop_space (Text.chars s)))) in
  let '(negative, body) :=
    match l with
    | c :: r =>
        if Ascii.eqb c "-" then (true, r)
        else if Ascii.eqb c "+" then (false, r)
        else (false, l)
    | [] => (false, [])
    end in
  match int_digits body 0 0 false with
  | Some (value, count) =>
      if (count <=? 4300)%nat
      then Some (if negative : bool then - value else value)
      else None
  | None => None
  end.

(** [try: body  except: handler].  The bare [except] catches every
    exception; a body that returns [None] has raised the [ValueError] of
    [int]. *)
Definition try_bare {A : Type} (body : M (option A)) (handler : M A) : M A :=
  fun m =>
    match body m with
    | Return (Some a) m' => Return a m'
    | Return None m' => handler m'
    | Raise _ m' => handler m'
    | Blocked m' => Blocked m'
    end.

(** A method of the task registry that [main] holds, run at the present
    time on the present files. *)
Definition registry {A : Type}
    (method : datetime -> TaskManager.TaskManager -> World ->
              A * TaskManager.TaskManager * World) : M A :=
  fun m =>
    let '(a, tm, w) := method (clock m) (task_manager m) (world m) in
    Return a {| timer := timer m; task_manager := tm; world := w;
                clock := clock m; script := script m; trace := trace m |}.

(** [input(...).strip()] *)
Definition input_stripped : M string :=
  s ← input; mret (Text.strip s).

Definition start_timer_menu : M unit :=
  tasks ← (fun m =>
             Return (TaskManager.get_pending_tasks (task_manager m)) m);
  selected_task ←
    match tasks with
    | _ :: _ =>
        try_bare
          (s ← input;
           match py_int s with
           | Some choice =>
               if (1 <=? choice) && (choice <=? Z.of_nat (length tasks))
               then mret (Some (tasks !! Z.to_nat (choice - 1)))
               else mret (Some None)
           | None => mret None
           end)
          (mret None)
    | [] => mret None
    end;
  _ ← input;
  start_pomodoro selected_task.

(** [manage_tasks_menu(task_manager)]; [fuel] bounds the number of rounds
    of its loop. *)
Fixpoint manage_tasks_menu_rec (fuel : nat) : M unit :=
  match fuel with
  | O => fun m => Blocked m
  | S fuel' =>
      choice ← input_stripped;
      if bool_decide (choice = "1"%string) then
        _ ← input; manage_tasks_menu_rec fuel'
      else if bool_decide (choice = "2"%string) then
        task_name ← input_stripped;
        (if bool_decide (task_name = EmptyString) then mret tt
         else
           _ ← registry (fun now =>
                           TaskManager.add_task task_name "medium" now);
           mret tt);;
        _ ← input; manage_tasks_menu_rec fuel'
      else if bool_decide (choice = "3"%string) then
        try_bare
          (s ← input;
           match py_int s with
           | Some task_id =>
               _ ← registry (fun now =>
                               TaskManager.complete_task (task_id - 1) now);
               mret (Some tt)
           | None => mret None
           end)
          (mret tt);;
        _ ← input; manage_tasks_menu_rec fuel'
      else if bool_decide (choice = "4"%string) then
        try_bare
          (s ← input;
           match py_int s with
           | Some task_id =>
               _ ← registry (fun _ => TaskManager.delete_task (task_id - 1));
               mret (Some tt)
           | None => mret None
           end)
          (mret tt);;
        _ ← input; manage_tasks_menu_rec fuel'
      else if bool_decide (choice = "5"%string) then mret tt
      else manage_tasks_menu_rec fuel'
  end.

(** Every round of the loop reads a line first, so the length of the
    script bounds the number of rounds. *)
Definition manage_tasks_menu : M unit :=
  fun m => manage_tasks_menu_rec (S (length (script m))) m.

Definition set_pomodoro_duration (d : Z) (t : PomodoroTimer) : PomodoroTimer :=
  {| pomodoro_duration := d;
     short_break_duration := short_break_duration t;
     long_break_duration := long_break_duration t;
     pomodoros_until_long_break := pomodoros_until_long_break t;
     current_pomodoros := current_pomodoros t;
     stats := stats t |}.

Definition set_short_break_duration (d : Z) (t : PomodoroTimer)
  : PomodoroTimer :=
  {| pomodoro_duration := pomodoro_duration t;
     short_break_duration := d;
     long_break_duration := long_break_duration t;
     pomodoros_until_long_break := pomodoros_until_long_break t;
     current_pomodoros := current_pomodoros t;
     stats := stats t |}.

Definition set_long_break_duration (d : Z) (t : PomodoroTimer)
  : PomodoroTimer :=
  {| pomodoro_duration := pomodoro_duration t;
     short_break_duration := short_break_duration t;
     long_break_duration := d;
     pomodoros_until_long_break := pomodoros_until_long_break t;
     current_pomodoros := current_pomodoros t;
     stats := stats t |}.

(** [minutes = int(input(...)); timer.<field> = minutes * 60], inside
    [try] with a bare [except]. *)
Definition ask_minutes (store : Z -> PomodoroTimer -> PomodoroTimer)
  : M unit :=
  try_bare
    (s ← input;
     match py_int s with
     | Some minutes =>
         t ← get (fun t => t);
         set_timer (store (minutes * 60) t);;
         mret (Some tt)
     | None => mret None
     end)
    (mret tt).

(** [settings_menu(timer)]; [fuel] bounds the number of rounds of its
    loop. *)
Fixpoint settings_menu_rec (fuel : nat) : M unit :=
  match fuel with
  | O => fun m => Blocked m
  | S fuel' =>
      choice ← input_stripped;
      if bool_decide (choice = "1"%string) then
        ask_minutes set_pomodoro_duration;;
        _ ← input; settings_menu_rec fuel'
      else if bool_decide (choice = "2"%string) then
        ask_minutes set_short_break_duration;;
        _ ← input; settings_menu_rec fuel'
      else if bool_decide (choice = "3"%string) then
        ask_minutes set_long_break_duration;;
        _ ← input; settings_menu_rec fuel'
      else if bool_decide (choice = "4"%string) then
        t ← get (fun t => t);
        set_timer (reset_to_default t);;
        _ ← input; settings_menu_rec fuel'
      else if bool_decide (choice = "5"%string) then mret tt
      else settings_menu_rec fuel'
  end.

Definition settings_menu : M unit :=
  fun m => settings_menu_rec (S (length (script m))) m.

(** [main()], once the three objects exist: the timer and the task
    registry are those of the machine, [stats] is the object that [main]
    creates for the statistics view, a second one beside that of the timer.
    Choice 5 ends the program; the result is what the statistics view has
    shown, in order.  [fuel] bounds the number of rounds of the loop. *)
Fixpoint main_rec (fuel : nat) (stats : Stats.Stats)
    (shown : list (Stats.StatsData * list (string * Stats.TaskFocus)))
  : M (list (Stats.StatsData * list (string * Stats.TaskFocus))) :=
  match fuel with
  | O => fun m => Blocked m
  | S fuel' =>
      choice ← input_stripped;
      if bool_decide (choice = "1"%string) then
        start_timer_menu;; main_rec fuel' stats shown
      else if bool_decide (choice = "2"%string) then
        manage_tasks_menu;; main_rec fuel' stats shown
      else if bool_decide (choice = "3"%string) then
        stamp ← now;
        let view := Stats.display_stats (date stamp) stats in
        _ ← input;
        main_rec fuel' stats (shown ++ [view])
      else if bool_decide (choice = "4"%string) then
        settings_menu;; main_rec fuel' stats shown
      else if bool_decide (choice = "5"%string) then mret shown
      else _ ← input; main_rec fuel' stats shown
  end.

Definition main (stats : Stats.Stats)
  : M (list (Stats.StatsData * list (string * Stats.TaskFocus))) :=
  fun m => main_rec (S (length (script m))) stats [] m.

(** A statement that leaves the counter of the timer, the number of
    pomodoros between two long breaks, the session log, the task registry
    and the files as they are. *)
Definition steady {A : Type} (x : M A) : Prop :=
  ∀ m, current_pomodoros (timer (machine_of (x m)))
       = current_pomodoros (timer m)
       ∧ pomodoros_until_long_break (timer (machine_of (x m)))
         = pomodoros_until_long_break (timer m)
       ∧ stats (timer (machine_of (x m))) = stats (timer m)
       ∧ task_manager (machine_of (x m)) = task_manager m
       ∧ world (machine_of (x m)) = world m.

End Main.

(** ** The specification's wording, for comparison with the code *)

Module Spec.
Import Stats.


(** A record with [type = 'pomodoro'] and [completed = true]. *)
Definition completed_pomodoro (s : Session) : Prop :=
  type s = Some "pomodoro"%string ∧ completed s = Some true.

(** The sum of [duration] over the completed pomodoros. *)
Fixpoint focus_seconds (sessions : list Session) : Z :=
  match sessions with
  | [] => 0
  | s :: rest =>
      match type s, completed s with
      | Some ty, Some true =>
          if String.eqb ty "pomodoro" then default 0 (duration s) + focus_seconds rest
          else focus_seconds rest
      | _, _ => focus_seconds rest
      end
  end.

(** At least one completed pomodoro exists on the calendar day [day]. *)
Definition pomodoro_on (sessions : list Session) (day : Z) : Prop :=
  ∃ s, s ∈ sessions ∧ completed_pomodoro s ∧ session_date s = day.

(** [k] is the number of consecutive days, counted backward from [today],
    that carry a completed pomodoro: the days [today], [today - 1], ...,
    [today - (k - 1)] do, and the day [today - k] does not. *)
Definition is_streak (sessions : list Session) (today k : Z) : Prop :=
  0 ≤ k
  ∧ (∀ i, 0 ≤ i < k → pomodoro_on sessions (today - i))
  ∧ ¬ pomodoro_on sessions (today - k).

End Spec.

(** * Properties *)

(** ** The model of the [json] module *)

Module JsonFacts.
Import Text Json.


Lemma chars_text (l : list ascii) : chars (text l) = l.
Proof. apply list_ascii_of_string_of_list_ascii. Qed.

(** *** The model on sample texts *)

Example loads_task_list :
  loads (quoted "[{'id': 1, 'name': 'write', 'completed': false, 'completed_at': null}, {}]")
  = Some (JList [JDict [("id", JInt 1); ("name", JStr "write");
                        ("completed", JBool false); ("completed_at", JNull)];
                 JDict []]).
Proof. vm_compute. reflexivity. Qed.

Example loads_nested :
  loads (quoted " [ -12 , [ true , [ ] ] , { 'k' : { } } ] ")
  = Some (JList [JInt (-12); JList [JBool true; JList []];
                 JDict [("k", JDict [])]]).
Proof. vm_compute. reflexivity. Qed.

(** A key that comes twice keeps its first place and its last value. *)
Example loads_duplicate_key :
  loads (quoted "{'a': 1, 'b': 3, 'a': 2}")
  = Some (JDict [("a", JInt 2); ("b", JInt 3)]).
Proof. vm_compute. reflexivity. Qed.

Example loads_escapes :
  loads (quoted "'a\u0041\/\\'") = Some (JStr "aA/\").
Proof. vm_compute. reflexivity. Qed.

Example loads_rejects :
  Forall (fun s => loads (quoted s) = None)
    [EmptyString; " "; "nul"; "[1,]"; "[1 2]"; "{'a':1,}"; "{'a'}"; "{1:2}"; "[[]";
     "[]]"; "01"; "-"; "+1"; "truefalse"; "'\x'"; "'open"]%string.
Proof. repeat constructor. Qed.

Example dumps_then_loads :
  let doc :=
    JList [JDict [("id", JInt 1); ("name", JStr (quoted "a 'b' \ c"))];
           JList [JInt (-3); JNull]; JDict []; JStr (String "200" EmptyString)] in
  loads (dumps doc) = Some doc.
Proof. vm_compute. reflexivity. Qed.

Example dumps_scalars :
  map dumps [JNull; JBool true; JBool false; JInt 0; JInt (-42); JInt 1500;
             JList []; JDict []]
  = ["null"; "true"; "false"; "0"; "-42"; "1500"; "[]"; "{}"]%string.
Proof. vm_compute. reflexivity. Qed.

Example isoformat_samples :
  map Datetime.isoformat
      [Datetime.mk_datetime 738890 9 3 7 0;
       Datetime.mk_datetime 738945 23 59 59 45;
       Datetime.mk_datetime 719163 0 0 0 0]
  = ["2024-01-05T09:03:07"; "2024-02-29T23:59:59.000045";
     "1970-01-01T00:00:00"]%string.
Proof. vm_compute. reflexivity. Qed.

(** *** String literals *)



(** *** Numbers *)









(** *** The scanner on the text that [encode] writes *)























(** *** The parser on the tokens of a value *)




Lemma wf_list (x : json) (xs : list json) :
  wf (JList (x :: xs)) = wf x && wf (JList xs).
Proof. reflexivity. Qed.






End JsonFacts.

(** ** Record store *)

Module RecordStoreFacts.
Import Json Os RecordStore.

Lemma load_world (data_file : string) (w : World) :
  (load data_file w).2 = _ensure_data_directory w.
Proof.
  unfold load. destruct (path_exists _ _); [| reflexivity].
  destruct (read_json _ _); reflexivity.
Qed.



(** A file that does not hold JSON is read as the empty list. *)
Example load_garbage :
  let w := mk_world {[ "data/tasks.json"%string := "not json"%string ]} ∅ in
  (TaskManager._load_tasks
     (TaskManager.mk_task_manager "data/tasks.json" []) w).1
  = Ok (JList [])
  ∧ (Stats._load_sessions (Stats.mk_stats "data/sessions.json" []) w).1
    = Ok (JList []).
Proof. split; vm_compute; reflexivity. Qed.


(** When the write fails, the file system stays as the creation of the data
    directory left it. *)
Lemma save_failed (data_file : string) (doc : json) (w : World) :
  can_write data_file (_ensure_data_directory w) = false →
  save data_file doc w = _ensure_data_directory w.
Proof. intros Hw. unfold save, write_json, write_text. by rewrite Hw. Qed.



Lemma wf_sessions_to_json (l : list Stats.Session) :
  wf (Stats.sessions_to_json l) = true.
Proof.
  induction l as [| s l IH]; [reflexivity |].
  unfold Stats.sessions_to_json in *. cbn [map].
  rewrite JsonFacts.wf_list, IH, andb_true_r.
  destruct s as [[ty |] [ta |] [du |] [co |] ts]; reflexivity.
Qed.




End RecordStoreFacts.

(** ** Task registry *)

Module TaskManagerFacts.
Import Json Os Datetime TaskManager.

Lemma py_truediv_ok (a b : Z) :
  b ≠ 0 → py_truediv a b = Ok (Qdiv (inject_Z a) (inject_Z b)).
Proof.
  intros Hb. unfold py_truediv.
  destruct (Z.eqb_spec b 0) as [Heq | _]; [contradiction | reflexivity].
Qed.


(** One task of four completed: the rate is 25. *)
Example get_task_stats_quarter :
  let t := fun (n : string) (done : bool) =>
    mk_task 1 n (Some "medium"%string) (Some done) None None (Some 2) in
  ∃ st : TaskStats,
    get_task_stats
      (mk_task_manager "data/tasks.json"
         [t "a" false; t "b" true; t "c" false; t "d" false]%string)
    = Ok st
    ∧ (stat_total st, stat_pending st, stat_completed st,
       stat_total_pomodoros st) = (4, 3, 1, 8)
    ∧ Qeq (stat_completion_rate st) (inject_Z 25).
Proof. eexists. split; [reflexivity |]. split; reflexivity. Qed.

(** The division of [get_task_stats] is the only statement that can raise,
    and it raises exactly on a zero divisor. *)
Lemma py_truediv_zero (a : Z) : py_truediv a 0 = Err ZeroDivisionError.
Proof. reflexivity. Qed.

Lemma increment_loop_None (task_id : Z) (l : list Task) :
  increment_loop task_id l = None ↔ Forall (fun t => id t ≠ task_id) l.
Proof.
  induction l as [| t l IH]; cbn.
  - split; [constructor | reflexivity].
  - destruct (Z.eqb_spec (id t) task_id) as [Heq | Hne].
    + split; [discriminate |]. intros H. inversion H; subst. contradiction.
    + destruct (increment_loop task_id l) eqn:Hl; cbn.
      * split; [discriminate |]. intros H. inversion H as [| ? ? _ Hl']; subst.
        apply IH in Hl'. discriminate.
      * split; [| reflexivity]. intros _. constructor; [exact Hne |].
        by apply IH.
Qed.

Lemma increment_loop_Some (task_id : Z) (l l' : list Task) :
  increment_loop task_id l = Some l' ↔
  ∃ (i : nat) (t : Task),
    l !! i = Some t ∧ id t = task_id
    ∧ (∀ (j : nat) (u : Task), (j < i)%nat → l !! j = Some u → id u ≠ task_id)
    ∧ l' = <[i := spend_pomodoro t]> l.
Proof.
  revert l'. induction l as [| t l IH]; intros l'; cbn.
  - split; [discriminate |]. intros (i & u & Hi & _). by destruct i.
  - destruct (Z.eqb_spec (id t) task_id) as [Heq | Hne].
    + split.
      * intros [= <-]. exists 0%nat, t. repeat split; auto. intros j u Hj. lia.
      * intros (i & u & Hi & Hid & Hfirst & ->). destruct i as [| i].
        -- cbn in Hi. by injection Hi as ->.
        -- exfalso. apply (Hfirst 0%nat t); [lia | reflexivity | exact Heq].
    + destruct (increment_loop task_id l) as [l0 |] eqn:Hl; cbn.
      * split.
        -- intros [= <-]. destruct (proj1 (IH l0) eq_refl)
             as (i & u & Hi & Hid & Hfirst & ->).
           exists (S i), u. repeat split; auto.
           intros [| j] v Hj Hv; cbn in Hv.
           ++ by injection Hv as <-.
           ++ apply (Hfirst j); [lia | exact Hv].
        -- intros (i & u & Hi & Hid & Hfirst & ->). destruct i as [| i].
           ++ cbn in Hi. injection Hi as ->. contradiction.
           ++ cbn. do 2 f_equal.
              assert (Some l0 = Some (<[i:=spend_pomodoro u]> l)) as [= ->];
                [| reflexivity].
              apply IH. exists i, u. repeat split; auto.
              intros j v Hj Hv. apply (Hfirst (S j)); [lia | exact Hv].
      * split; [discriminate |].
        intros (i & u & Hi & Hid & Hfirst & ->). destruct i as [| i].
        -- cbn in Hi. injection Hi as ->. contradiction.
        -- exfalso. assert (Hnone := proj1 (increment_loop_None task_id l) Hl).
           rewrite Forall_lookup in Hnone. exact (Hnone i u Hi Hid).
Qed.

(** C10: [increment_pomodoro] changes at most one stored task.  When some
    stored task has the id of the argument, the first such task in list
    order gets [pomodoros_spent] raised by one (an absent counter counts as
    0), its other fields and every other position of the list stay as they
    were; when none has it, the list is unchanged and nothing is saved.
    The path of the registry never changes. *)
Theorem increment_pomodoro_frame (task : Task) (self : TaskManager) (w : World) :
  let self' := (increment_pomodoro task self w).1 in
  data_file self' = data_file self
  ∧ length (tasks self') = length (tasks self)
  ∧ match list_find (fun t => id t = id task) (tasks self) with
    | Some (i, t) =>
        tasks self' !! i
        = Some {| id := id t; name := name t; priority := priority t;
                  completed := completed t; created_at := created_at t;
                  completed_at := completed_at t;
                  pomodoros_spent := Some (default 0 (pomodoros_spent t) + 1) |}
        ∧ (∀ j : nat, j ≠ i → tasks self' !! j = tasks self !! j)
        ∧ (∀ (j : nat) (u : Task),
             (j < i)%nat → tasks self !! j = Some u → id u ≠ id task)
    | None =>
        tasks self' = tasks self ∧ (increment_pomodoro task self w).2 = w
    end.
Proof.
  unfold increment_pomodoro.
  destruct (increment_loop (id task) (tasks self)) as [l' |] eqn:Hloop.
  - apply increment_loop_Some in Hloop as (i & t & Hi & Hid & Hfirst & ->).
    cbn. split; [reflexivity |]. split; [apply length_insert |].
    assert (Hfind : list_find (fun t => id t = id task) (tasks self)
                    = Some (i, t)).
    { apply list_find_Some. repeat split; auto.
      intros j u Hu Hj. by apply (Hfirst j u). }
    rewrite Hfind. repeat split.
    + rewrite list_lookup_insert_eq by (by eapply lookup_lt_Some).
      reflexivity.
    + intros j Hj. by apply list_lookup_insert_ne.
    + exact Hfirst.
  - cbn. split; [reflexivity |]. split; [reflexivity |].
    apply increment_loop_None in Hloop.
    destruct (list_find _ (tasks self)) as [[i t] |] eqn:Hfind;
      [| split; reflexivity].
    apply list_find_Some in Hfind as (Hi & Hid & _).
    rewrite Forall_lookup in Hloop. exfalso. exact (Hloop i t Hi Hid).
Qed.

(** With two stored tasks of the same id, only the first is incremented. *)
Example increment_pomodoro_first_of_duplicates :
  let t := fun n => mk_task 2 n (Some "medium"%string) (Some false) None None
                            (Some 0) in
  map pomodoros_spent
      (tasks (increment_pomodoro (t "b"%string)
                (mk_task_manager "data/tasks.json" [t "b"%string; t "c"%string])
                (mk_world ∅ ∅)).1)
  = [Some 1; Some 0].
Proof. reflexivity. Qed.

(** The id of a new task is the number of stored tasks plus one. *)
Lemma add_task_id (task_name priority : string) (now : datetime)
    (self : TaskManager) (w : World) :
  id (add_task task_name priority now self w).1.1
  = Z.of_nat (length (tasks self)) + 1
  ∧ tasks (add_task task_name priority now self w).1.2
    = tasks self ++ [(add_task task_name priority now self w).1.1].
Proof. split; reflexivity. Qed.

(** C5, the run that shows the defect: two tasks are added, the first is
    deleted, a third is added.  The new task gets the id 2, which the task
    that is still stored already carries. *)
Example add_task_reuses_id_after_delete :
  let now := mk_datetime 738886 9 0 0 0 in
  let start := (mk_task_manager "data/tasks.json" [], mk_world ∅ ∅) in
  let '(_, tm1, w1) := add_task "a" "medium" now start.1 start.2 in
  let '(_, tm2, w2) := add_task "b" "medium" now tm1 w1 in
  let '(_, tm3, w3) := delete_task 0 tm2 w2 in
  let '(t, tm4, w4) := add_task "c" "medium" now tm3 w3 in
  id t = 2 ∧ map id (tasks tm4) = [2; 2] ∧ map name (tasks tm4) = ["b"; "c"]%string.
Proof. vm_compute. auto. Qed.

End TaskManagerFacts.

(** ** Statistics engine *)

Module StatsFacts.
Import Json Os Datetime Stats.

Lemma fold_left_add_shift (l : list Z) (a : Z) :
  fold_left Z.add l a = a + fold_left Z.add l 0.
Proof.
  revert a. induction l as [| x l IH]; intros a; cbn [fold_left]; [lia |].
  rewrite (IH (a + x)), (IH (0 + x)). lia.
Qed.

Lemma py_sum_cons (x : Z) (l : list Z) : py_sum (x :: l) = x + py_sum l.
Proof. unfold py_sum. cbn. apply fold_left_add_shift. Qed.

Lemma is_completed_pomodoro_spec (s : Session) :
  is_completed_pomodoro s = true ↔ Spec.completed_pomodoro s.
Proof.
  unfold is_completed_pomodoro, Spec.completed_pomodoro.
  rewrite andb_true_iff, bool_decide_eq_true.
  destruct (completed s) as [[] |]; cbn; intuition congruence.
Qed.

Lemma focus_seconds_filter (sessions : list Session) :
  py_sum (map (fun s => default 0 (duration s))
              (List.filter is_completed_pomodoro sessions))
  = Spec.focus_seconds sessions.
Proof.
  induction sessions as [| s l IH]; [reflexivity |].
  cbn [List.filter Spec.focus_seconds]. unfold is_completed_pomodoro at 1.
  destruct (type s) as [ty |]; [| cbn; exact IH].
  destruct (String.eqb_spec ty "pomodoro") as [-> | Hne].
  - rewrite bool_decide_eq_true_2 by reflexivity.
    destruct (completed s) as [[] |]; cbn -[py_sum]; [| exact IH ..].
    rewrite py_sum_cons, IH. reflexivity.
  - rewrite bool_decide_eq_false_2 by congruence.
    cbn [andb]. destruct (completed s) as [[] |]; exact IH.
Qed.

(** C6: [get_total_focus_time] adds up [duration] over exactly the records
    with [type = 'pomodoro'] and [completed = true] and writes the total as
    hours and minutes; the hours are written only when they are positive,
    so they are left out when they are zero.  Two completed pomodoros of
    1500 and 900 seconds give "40m", three of 1500 seconds give "1h 15m". *)
Theorem get_total_focus_time_spec (sessions : list Session) :
  let total := Spec.focus_seconds sessions in
  let hours := total / 3600 in
  let minutes := (total mod 3600) / 60 in
  get_total_focus_time sessions
  = (if 0 <? hours
     then Text.text (repr_int hours ++ Text.chars "h " ++ repr_int minutes
                     ++ Text.chars "m")
     else Text.text (repr_int minutes ++ Text.chars "m"))
  ∧ (∀ (task1 task2 : option string) (at1 at2 : datetime),
       get_total_focus_time
         [mk_session (Some "pomodoro"%string) task1 (Some 1500) (Some true) at1;
          mk_session (Some "pomodoro"%string) task2 (Some 900) (Some true) at2]
       = "40m"%string)
  ∧ (∀ (task1 task2 task3 : option string) (at1 at2 at3 : datetime),
       get_total_focus_time
         [mk_session (Some "pomodoro"%string) task1 (Some 1500) (Some true) at1;
          mk_session (Some "pomodoro"%string) task2 (Some 1500) (Some true) at2;
          mk_session (Some "pomodoro"%string) task3 (Some 1500) (Some true) at3]
       = "1h 15m"%string).
Proof.
  split; [| split; intros; reflexivity].
  unfold get_total_focus_time. rewrite focus_seconds_filter. reflexivity.
Qed.

(** Records of another type, or not completed, add nothing. *)
Example get_total_focus_time_skips :
  ∀ at1 : datetime,
    get_total_focus_time
      [mk_session (Some "pomodoro"%string) None (Some 1500) (Some true) at1;
       mk_session (Some "short_break"%string) None (Some 300) (Some true) at1;
       mk_session (Some "pomodoro"%string) None (Some 1500) (Some false) at1;
       mk_session (Some "pomodoro"%string) None (Some 1500) None at1;
       mk_session None None (Some 1500) (Some true) at1]
    = "25m"%string.
Proof. reflexivity. Qed.

Lemma pomodoro_dates_acc (sessions : list Session) (acc : gset Z) (day : Z) :
  day ∈ fold_left
          (fun dates s =>
             if is_completed_pomodoro s then dates ∪ {[ session_date s ]}
             else dates)
          sessions acc
  ↔ day ∈ acc ∨ Spec.pomodoro_on sessions day.
Proof.
  revert acc. induction sessions as [| s l IH]; intros acc; cbn [fold_left].
  - split; [auto |]. intros [H | (s & Hs & _)]; [exact H |].
    by apply elem_of_nil in Hs.
  - rewrite IH. unfold Spec.pomodoro_on.
    destruct (is_completed_pomodoro s) eqn:Hs.
    + apply is_completed_pomodoro_spec in Hs.
      rewrite elem_of_union, elem_of_singleton. split.
      * intros [[H | ->] | (s' & Hin & Hc & Hd)]; [by left | right | right].
        -- exists s. split; [apply list_elem_of_here | auto].
        -- exists s'. split; [by apply list_elem_of_further | auto].
      * intros [H | (s' & Hin & Hc & Hd)]; [by left; left |].
        apply elem_of_cons in Hin as [-> | Hin]; [left; right; auto |].
        right. exists s'. auto.
    + split.
      * intros [H | (s' & Hin & Hc & Hd)]; [by left | right].
        exists s'. split; [by apply list_elem_of_further | auto].
      * intros [H | (s' & Hin & Hc & Hd)]; [by left |].
        apply elem_of_cons in Hin as [-> | Hin].
        -- apply is_completed_pomodoro_spec in Hc. congruence.
        -- right. exists s'. auto.
Qed.

Lemma pomodoro_dates_spec (sessions : list Session) (day : Z) :
  day ∈ pomodoro_dates sessions ↔ Spec.pomodoro_on sessions day.
Proof.
  unfold pomodoro_dates. rewrite pomodoro_dates_acc.
  split; [intros [H | H]; [by apply not_elem_of_empty in H | exact H] | auto].
Qed.

#[local] Instance flip_le_total : Total (flip Z.le).
Proof. intros x y. unfold flip. lia. Qed.

#[local] Instance flip_le_trans : Transitive (flip Z.le).
Proof. intros x y z. unfold flip. lia. Qed.

Lemma sorted_reverse_elem_of (dates : gset Z) (day : Z) :
  day ∈ sorted_reverse dates ↔ day ∈ dates.
Proof.
  unfold sorted_reverse. rewrite merge_sort_Permutation.
  apply elem_of_elements.
Qed.

(** The sorted list of dates is strictly decreasing. *)
Lemma sorted_reverse_decreasing (dates : gset Z) :
  StronglySorted (fun x y => y < x) (sorted_reverse dates).
Proof.
  assert (Hs : StronglySorted (flip Z.le) (sorted_reverse dates))
    by apply (StronglySorted_merge_sort _).
  assert (Hn : NoDup (sorted_reverse dates)).
  { unfold sorted_reverse. rewrite merge_sort_Permutation.
    apply NoDup_elements. }
  induction Hs as [| x l Hl IH Hx]; [constructor |].
  apply NoDup_cons in Hn as [Hx' Hn]. constructor; [by apply IH |].
  rewrite Forall_forall in *. intros y Hy.
  assert (x ≠ y) by (intros ->; contradiction).
  specialize (Hx y Hy). unfold flip in Hx. lia.
Qed.

(** The loop counts the days [current_date], [current_date - 1], ... that
    head a strictly decreasing list none of whose dates lies after
    [current_date]. *)
Lemma streak_loop_counts (l : list Z) (streak current_date : Z) :
  StronglySorted (fun x y => y < x) l →
  Forall (fun d => d ≤ current_date) l →
  let k := streak_loop l streak current_date - streak in
  0 ≤ k
  ∧ (∀ i, 0 ≤ i < k → current_date - i ∈ l)
  ∧ current_date - k ∉ l.
Proof.
  revert streak current_date.
  induction l as [| d l IH]; intros streak cur Hs Hle; cbn [streak_loop].
  - replace (streak - streak) with 0 by lia. cbn.
    split; [lia |]. split; [intros i Hi; lia | apply not_elem_of_nil].
  - apply StronglySorted_inv in Hs as [Hs Hd].
    apply Forall_cons in Hle as [Hdc Hle].
    destruct (Z.eqb_spec d cur) as [-> | Hne].
    + destruct (IH (streak + 1) (cur - 1) Hs) as (Hk & Hin & Hout).
      { rewrite Forall_forall in *. intros y Hy. specialize (Hd y Hy). lia. }
      set (n := streak_loop l (streak + 1) (cur - 1)) in *.
      cbn zeta. split; [lia |]. split.
      * intros i Hi. destruct (decide (i = 0)) as [-> | Hi0].
        -- replace (cur - 0) with cur by lia. apply list_elem_of_here.
        -- apply list_elem_of_further.
           replace (cur - i) with (cur - 1 - (i - 1)) by lia.
           apply Hin. lia.
      * intros Hin'. apply elem_of_cons in Hin' as [Heq | Hin']; [lia |].
        apply Hout. replace (cur - 1 - (n - (streak + 1)))
          with (cur - (n - streak)) by lia. exact Hin'.
    + replace (streak - streak) with 0 by lia. cbn zeta.
      split; [lia |]. split; [intros i Hi; lia |].
      replace (cur - 0) with cur by lia.
      intros Hin'. apply elem_of_cons in Hin' as [Heq | Hin']; [congruence |].
      rewrite Forall_forall in Hd. specialize (Hd cur Hin'). lia.
Qed.

(** On a log none of whose completed pomodoros is dated after today,
    [get_streak] is the number of consecutive days, counted backward from
    today, that carry a completed pomodoro. *)
Lemma get_streak_spec (today : Z) (self : Stats) :
  (∀ s, s ∈ sessions self → Spec.completed_pomodoro s →
        session_date s ≤ today) →
  Spec.is_streak (sessions self) today (get_streak today self).
Proof.
  intros Hpast. unfold get_streak.
  destruct (sessions self) as [| s0 l0] eqn:Hl.
  - split; [lia |]. split; [intros i Hi; lia |].
    intros (s & Hs & _). by apply elem_of_nil in Hs.
  - rewrite <- Hl in *. clear Hl s0 l0.
    destruct (decide (pomodoro_dates (sessions self) = ∅)) as [He | Hne].
    + rewrite bool_decide_eq_true_2 by exact He.
      split; [lia |]. split; [intros i Hi; lia |].
      rewrite <- pomodoro_dates_spec, He. apply not_elem_of_empty.
    + rewrite bool_decide_eq_false_2 by exact Hne.
      pose proof (streak_loop_counts
                    (sorted_reverse (pomodoro_dates (sessions self))) 0 today
                    (sorted_reverse_decreasing _)) as Hloop.
      rewrite Z.sub_0_r in Hloop. cbn zeta in Hloop.
      destruct Hloop as (Hk & Hin & Hout).
      { rewrite Forall_forall. intros d Hd.
        apply sorted_reverse_elem_of, pomodoro_dates_spec in Hd
          as (s & Hs & Hc & <-).
        by apply Hpast. }
      split; [exact Hk |]. split.
      * intros i Hi. apply pomodoro_dates_spec, sorted_reverse_elem_of.
        by apply Hin.
      * intros Hon. apply Hout.
        by apply sorted_reverse_elem_of, pomodoro_dates_spec.
Qed.

(** The number of consecutive days is determined by the log and the day. *)
Lemma is_streak_unique (sessions : list Session) (today k1 k2 : Z) :
  Spec.is_streak sessions today k1 → Spec.is_streak sessions today k2 →
  k1 = k2.
Proof.
  intros (H1 & Hin1 & Hout1) (H2 & Hin2 & Hout2).
  destruct (Z.lt_trichotomy k1 k2) as [Hlt | [Heq | Hgt]]; [| exact Heq |].
  - exfalso. apply Hout1, Hin2. lia.
  - exfalso. apply Hout2, Hin1. lia.
Qed.

(** Without a completed pomodoro today the streak is 0, whatever the rest
    of the log holds. *)
Lemma get_streak_none_today (today : Z) (self : Stats) :
  ¬ Spec.pomodoro_on (sessions self) today → get_streak today self = 0.
Proof.
  intros Hnone. unfold get_streak.
  destruct (sessions self) as [| s0 l0] eqn:Hl; [reflexivity |].
  rewrite <- Hl in *. clear Hl s0 l0.
  destruct (bool_decide _); [reflexivity |].
  destruct (sorted_reverse _) as [| d l] eqn:Hsorted; [reflexivity |].
  cbn [streak_loop].
  destruct (Z.eqb_spec d today) as [-> | Hne]; [| reflexivity].
  exfalso. apply Hnone, pomodoro_dates_spec, sorted_reverse_elem_of.
  rewrite Hsorted. apply list_elem_of_here.
Qed.

(** With a completed pomodoro dated after today the streak is 0, whatever
    the rest of the log holds: the latest date comes first in the sorted
    list, it is not today, and the loop ends there. *)
Lemma get_streak_later_date (today : Z) (self : Stats) (s : Session) :
  s ∈ sessions self → Spec.completed_pomodoro s → today < session_date s →
  get_streak today self = 0.
Proof.
  intros Hs Hc Hlater. unfold get_streak.
  destruct (sessions self) as [| s0 l0] eqn:Hl; [reflexivity |].
  rewrite <- Hl in *. clear Hl s0 l0.
  destruct (bool_decide _); [reflexivity |].
  assert (Hin : session_date s ∈ sorted_reverse (pomodoro_dates (sessions self))).
  { apply sorted_reverse_elem_of, pomodoro_dates_spec. by exists s. }
  pose proof (sorted_reverse_decreasing (pomodoro_dates (sessions self)))
    as Hsorted.
  destruct (sorted_reverse _) as [| d l]; [reflexivity |].
  cbn [streak_loop].
  destruct (Z.eqb_spec d today) as [-> | Hne]; [| reflexivity].
  exfalso. apply StronglySorted_inv in Hsorted as [_ Hd].
  apply elem_of_cons in Hin as [Heq | Hin]; [lia |].
  rewrite Forall_forall in Hd. specialize (Hd _ Hin). lia.
Qed.

(** Completed pomodoros today and on the two days before, none on the day
    before those: the streak is 3. *)
Example get_streak_three :
  let pom day :=
    mk_session (Some "pomodoro"%string) (Some "General work"%string)
      (Some 1500) (Some true) (mk_datetime day 9 0 0 0) in
  get_streak 738890
    (mk_stats "data/sessions.json"
       [pom 738886; pom 738888; pom 738889; pom 738889; pom 738890])
  = 3.
Proof. vm_compute. reflexivity. Qed.

(** C3, the log that shows the defect: one completed pomodoro today and
    one dated tomorrow.  Counting backward from today gives one day, but
    the loop compares its first date, tomorrow, with today, leaves through
    [break] and returns 0; the second [elif], which repeats the condition
    of the [if], never runs. *)
Example get_streak_stops_at_later_date :
  let pom day :=
    mk_session (Some "pomodoro"%string) (Some "General work"%string)
      (Some 1500) (Some true) (mk_datetime day 9 0 0 0) in
  let log := [pom 738890; pom 738891] in
  get_streak 738890 (mk_stats "data/sessions.json" log) = 0
  ∧ Spec.is_streak log 738890 1.
Proof.
  intros pom log. split; [vm_compute; reflexivity |].
  split; [lia |]. split.
  - intros i Hi. assert (i = 0) as -> by lia.
    exists (pom 738890). split; [apply list_elem_of_here |].
    split; [split; reflexivity | reflexivity].
  - intros (s & Hs & _ & Hd). unfold log in Hs.
    repeat (apply elem_of_cons in Hs as [-> | Hs]; [cbn in Hd; lia |]).
    by apply elem_of_nil in Hs.
Qed.

End StatsFacts.

(** ** Timer state machine *)

Module TimerFacts.
Import Os Datetime Timer.

Lemma start_pomodoro_rec_S (fuel : nat) (task : option TaskManager.Task) :
  start_pomodoro_rec (S fuel) task
  = try_except
        (notify "Pomodoro Started!";;
         d ← get pomodoro_duration;
         completed ← countdown d pomodoro;
         if completed : bool then
           count_and_record task;;
           notify "Pomodoro Complete!";;
           n ← get current_pomodoros;
           k ← get pomodoros_until_long_break;
           r ← py_mod n k;
           (if r =? 0 then _ ← input; start_break "long"
            else _ ← input; start_break "short");;
           choice ← input_choice;
           if bool_decide (choice = "y"%string)
           then start_pomodoro_rec fuel task
           else mret tt
         else mret tt)
        (choice ← input_choice;
         (if bool_decide (choice = "y"%string)
          then count_and_record task
          else mret tt);;
         _ ← input; mret tt).
Proof. reflexivity. Qed.

(** Runs the statements of the timer on an explicit machine, leaving
    arithmetic, text and the file system untouched. *)
Ltac exec :=
  cbv beta iota zeta delta
    [mbind M_bind mret M_ret notify emit get set_timer set_world countdown
     input input_choice raise count_and_record stats_add_session now advance
     try_except py_mod start_break timer task_manager world clock script
     trace what at_time machine_of Stats.add_session].

Lemma breaks_started_app (tr1 tr2 : list action) :
  breaks_started (tr1 ++ tr2) = breaks_started tr1 ++ breaks_started tr2.
Proof. apply omap_app. Qed.

(** The session record that the timer writes for [task] at time [stamp]. *)
Lemma count_and_record_run (task : option TaskManager.Task) (m : Machine) :
  ∃ m', count_and_record task m = Return tt m'
    ∧ Stats.sessions (stats (timer m'))
      = Stats.sessions (stats (timer m))
        ++ [Stats.mk_session
              (Some "pomodoro"%string)
              (Some (match task with
                     | Some t => TaskManager.name t
                     | None => "General work"%string
                     end))
              (Some (pomodoro_duration (timer m))) (Some true) (clock m)]
    ∧ current_pomodoros (timer m') = current_pomodoros (timer m) + 1
    ∧ task_manager m' = task_manager m
    ∧ trace m' = trace m ∧ script m' = script m.
Proof. eexists. split; [reflexivity |]. cbn. auto. Qed.

(** *** The fuel of [start_pomodoro] *)

Lemma bind_ext {A B : Type} (x : M A) (f g : A → M B) (m : Machine) :
  (∀ a m', x m = Return a m' → f a m' = g a m') →
  (x ≫= f) m = (x ≫= g) m.
Proof.
  intros H. unfold mbind, M_bind. destruct (x m) eqn:Hx; auto.
Qed.

Lemma shrinks_return {A : Type} (x : M A) (m : Machine) (a : A) (m' : Machine) :
  shrinks x → x m = Return a m' →
  (length (script m') ≤ length (script m))%nat.
Proof. intros H Hx. specialize (H m). by rewrite Hx in H. Qed.

Lemma shrinks_ret {A : Type} (a : A) : shrinks (mret a : M A).
Proof. intros m. reflexivity. Qed.

Lemma shrinks_bind {A B : Type} (x : M A) (f : A → M B) :
  shrinks x → (∀ a, shrinks (f a)) → shrinks (x ≫= f).
Proof.
  intros Hx Hf m. specialize (Hx m). unfold mbind, M_bind.
  destruct (x m) as [a m' | e m' | m']; cbn [machine_of] in *; try exact Hx.
  specialize (Hf a m'). lia.
Qed.

Lemma shrinks_try {A : Type} (body handler : M A) :
  shrinks body → shrinks handler → shrinks (try_except body handler).
Proof.
  intros Hb Hh m. specialize (Hb m). unfold try_except.
  destruct (body m) as [a m' | [] m' | m']; cbn [machine_of] in *;
    try exact Hb.
  specialize (Hh m'). lia.
Qed.

Lemma shrinks_emit (a : action) : shrinks (emit a).
Proof. intros m. reflexivity. Qed.

Lemma shrinks_get {A : Type} (f : PomodoroTimer → A) : shrinks (get f).
Proof. intros m. reflexivity. Qed.

Lemma shrinks_input : shrinks input.
Proof.
  intros m. unfold input. destruct (script m) as [| e rest] eqn:Hs;
    cbn [machine_of]; [by rewrite Hs |].
  destruct (what e); cbn [machine_of advance script length]; rewrite ?Hs;
    cbn [length]; lia.
Qed.

Lemma consumes_input : consumes input.
Proof.
  intros m a m'. unfold input. destruct (script m) as [| e rest];
    [discriminate |].
  destruct (what e); intros [= <- <-] || discriminate.
  cbn. lia.
Qed.

Lemma shrinks_countdown (d : Z) (kind : session_type) :
  shrinks (countdown d kind).
Proof.
  unfold countdown. apply shrinks_bind; [apply shrinks_emit |]. intros _.
  destruct (d <=? 0); [apply shrinks_ret |].
  intros m. destruct (script m) as [| e rest] eqn:Hs;
    cbn [machine_of]; [by rewrite Hs |].
  destruct (what e); cbn [machine_of advance script length]; rewrite ?Hs;
    cbn [length]; lia.
Qed.

Lemma shrinks_start_break (break_type : string) :
  shrinks (start_break break_type).
Proof.
  unfold start_break. apply shrinks_try.
  - apply shrinks_bind; [apply shrinks_get |]. intros d.
    apply shrinks_bind; [apply shrinks_countdown |]. intros [].
    + apply shrinks_bind; [apply shrinks_emit |]. intros _.
      apply shrinks_bind; [apply shrinks_input |]. intros _.
      apply shrinks_ret.
    + apply shrinks_ret.
  - apply shrinks_bind; [apply shrinks_input |]. intros _. apply shrinks_ret.
Qed.

Lemma shrinks_count_and_record (task : option TaskManager.Task) :
  shrinks (count_and_record task).
Proof. intros m. reflexivity. Qed.

Lemma shrinks_py_mod (a b : Z) : shrinks (py_mod a b).
Proof. intros m. unfold py_mod. destruct (b =? 0); reflexivity. Qed.

Lemma consumes_bind {A B : Type} (x : M A) (f : A → M B) :
  consumes x → (∀ a, shrinks (f a)) → consumes (x ≫= f).
Proof.
  intros Hx Hf m b m'. unfold mbind, M_bind.
  destruct (x m) as [a m1 | e m1 | m1] eqn:Hxm; try discriminate.
  intros Hfa. specialize (Hx m a m1 Hxm).
  pose proof (shrinks_return (f a) m1 b m' (Hf a) Hfa). lia.
Qed.

Lemma consumes_input_choice : consumes input_choice.
Proof.
  unfold input_choice. apply consumes_bind; [apply consumes_input |].
  intros s. apply shrinks_ret.
Qed.

(** With any two amounts of fuel above the length of the script,
    [start_pomodoro_rec] ends in the same way: the fuel that
    [start_pomodoro] takes never runs out. *)
Lemma start_pomodoro_rec_fuel (task : option TaskManager.Task) (f1 : nat) :
  ∀ (f2 : nat) (m : Machine),
    (length (script m) < f1)%nat → (length (script m) < f2)%nat →
    start_pomodoro_rec f1 task m = start_pomodoro_rec f2 task m.
Proof.
  induction f1 as [| f1 IH]; intros [| f2] m H1 H2; try lia.
  rewrite !start_pomodoro_rec_S. unfold try_except.
  match goal with
  | |- match ?b1 m with _ => _ end = match ?b2 m with _ => _ end =>
      enough (Hbody : b1 m = b2 m) by (rewrite Hbody; reflexivity)
  end.
  apply bind_ext. intros u1 m1 E1.
  pose proof (shrinks_return _ _ _ _ (shrinks_emit _) E1) as L1.
  apply bind_ext. intros d m2 E2.
  pose proof (shrinks_return _ _ _ _ (shrinks_get _) E2) as L2.
  apply bind_ext. intros completed m3 E3.
  pose proof (shrinks_return _ _ _ _ (shrinks_countdown _ _) E3) as L3.
  destruct completed; [| reflexivity].
  apply bind_ext. intros u4 m4 E4.
  pose proof (shrinks_return _ _ _ _ (shrinks_count_and_record _) E4) as L4.
  apply bind_ext. intros u5 m5 E5.
  pose proof (shrinks_return _ _ _ _ (shrinks_emit _) E5) as L5.
  apply bind_ext. intros n m6 E6.
  pose proof (shrinks_return _ _ _ _ (shrinks_get _) E6) as L6.
  apply bind_ext. intros k m7 E7.
  pose proof (shrinks_return _ _ _ _ (shrinks_get _) E7) as L7.
  apply bind_ext. intros r m8 E8.
  pose proof (shrinks_return _ _ _ _ (shrinks_py_mod _ _) E8) as L8.
  apply bind_ext. intros u9 m9 E9.
  assert (L9 : (length (script m9) < length (script m8))%nat).
  { destruct (r =? 0);
      refine (consumes_bind _ _ consumes_input _ _ _ _ E9);
      intros _; apply shrinks_start_break. }
  apply bind_ext. intros choice m10 E10.
  pose proof (consumes_input_choice _ _ _ E10) as L10.
  destruct (bool_decide (choice = "y"%string)); [| reflexivity].
  apply IH; lia.
Qed.

Lemma start_pomodoro_fuel (task : option TaskManager.Task) (fuel : nat)
    (m : Machine) :
  (length (script m) < fuel)%nat →
  start_pomodoro_rec fuel task m = start_pomodoro task m.
Proof.
  intros H. unfold start_pomodoro. apply start_pomodoro_rec_fuel; lia.
Qed.

(** *** Interrupted and completed sessions *)

(** C8: a pomodoro whose countdown is interrupted and whose operator does
    not answer "y" leaves everything as it was: the call returns, and the
    timer with its counter and its session log, the task registry and the
    files are those of the start.  Only the clock has advanced, the three
    signals have been consumed and the start of the pomodoro has been
    announced. *)
Theorem interrupted_discard_changes_nothing
    (t : PomodoroTimer) (tm : TaskManager.TaskManager) (w : World)
    (c : datetime) (tr : list action) (task : option TaskManager.Task)
    (t1 t2 t3 : datetime) (answer last : string) (rest : list event) :
  0 < pomodoro_duration t →
  Text.lower (Text.strip answer) ≠ "y"%string →
  start_pomodoro task
    (mk_machine t tm w c
       (mk_event t1 Interrupt :: mk_event t2 (Line answer)
        :: mk_event t3 (Line last) :: rest) tr)
  = Return tt
      (mk_machine t tm w t3 rest
         (tr ++ [Notify "Pomodoro Started!";
                 Countdown pomodoro (pomodoro_duration t)])).
Proof.
  intros Hd Hans. apply Z.leb_gt in Hd.
  unfold start_pomodoro. cbn [script length]. rewrite start_pomodoro_rec_S.
  exec. rewrite Hd. exec.
  rewrite bool_decide_eq_false_2 by exact Hans. exec.
  rewrite <- app_assoc. reflexivity.
Qed.

Lemma interrupted_discard_changes_nothing_witness :
  let t := init (Stats.mk_stats "data/sessions.json" []) in
  let tm := TaskManager.mk_task_manager "data/tasks.json" [] in
  let at0 := mk_datetime 738886 9 0 0 0 in
  start_pomodoro None
    (mk_machine t tm (mk_world ∅ ∅) at0
       [mk_event at0 Interrupt; mk_event at0 (Line " N ");
        mk_event at0 (Line EmptyString)] [])
  = Return tt
      (mk_machine t tm (mk_world ∅ ∅) at0 []
         ([] ++ [Notify "Pomodoro Started!"; Countdown pomodoro 1500])).
Proof.
  intros t tm at0.
  apply (interrupted_discard_changes_nothing t tm (mk_world ∅ ∅) at0 [] None
           at0 at0 at0 " N " EmptyString []).
  - vm_compute. reflexivity.
  - vm_compute. discriminate.
Defined.

(** C1, as the code has it: a pomodoro whose countdown is interrupted and
    whose operator answers "y" returns with exactly one record appended to
    the session log ([type = 'pomodoro'], [completed = true], the configured
    duration, the name of the selected task or 'General work', stamped with
    the time of the answer), the log written to its file, the counter of the
    timer raised by one, no break started, and the task registry untouched:
    the timer holds no reference to it, so no [pomodoros_spent] changes. *)
Theorem interrupted_complete_records_once
    (t : PomodoroTimer) (tm : TaskManager.TaskManager) (w : World)
    (c : datetime) (tr : list action) (task : option TaskManager.Task)
    (t1 t2 t3 : datetime) (answer last : string) (rest : list event) :
  0 < pomodoro_duration t →
  Text.lower (Text.strip answer) = "y"%string →
  ∃ m' : Machine,
    start_pomodoro task
      (mk_machine t tm w c
         (mk_event t1 Interrupt :: mk_event t2 (Line answer)
          :: mk_event t3 (Line last) :: rest) tr)
    = Return tt m'
    ∧ Stats.sessions (stats (timer m'))
      = Stats.sessions (stats t)
        ++ [Stats.mk_session
              (Some "pomodoro"%string)
              (Some (match task with
                     | Some t => TaskManager.name t
                     | None => "General work"%string
                     end))
              (Some (pomodoro_duration t)) (Some true) t2]
    ∧ world m' = Stats._save_sessions (stats (timer m')) w
    ∧ current_pomodoros (timer m') = current_pomodoros t + 1
    ∧ (pomodoro_duration (timer m'), short_break_duration (timer m'),
       long_break_duration (timer m'), pomodoros_until_long_break (timer m'))
      = (pomodoro_duration t, short_break_duration t,
         long_break_duration t, pomodoros_until_long_break t)
    ∧ task_manager m' = tm
    ∧ breaks_started (trace m') = breaks_started tr
    ∧ script m' = rest.
Proof.
  intros Hd Hans. apply Z.leb_gt in Hd.
  unfold start_pomodoro. cbn [script length]. rewrite start_pomodoro_rec_S.
  exec. rewrite Hd. exec.
  rewrite bool_decide_eq_true_2 by exact Hans. exec.
  eexists. split; [reflexivity |]. cbn [timer world task_manager trace script].
  repeat split.
  rewrite !breaks_started_app. cbn. rewrite !app_nil_r. reflexivity.
Qed.

Lemma interrupted_complete_records_once_witness :
  let t := init (Stats.mk_stats "data/sessions.json" []) in
  let tm := TaskManager.mk_task_manager "data/tasks.json" [] in
  let at0 := mk_datetime 738886 9 0 0 0 in
  ∃ m' : Machine,
    start_pomodoro None
      (mk_machine t tm (mk_world ∅ ∅) at0
         [mk_event at0 Interrupt; mk_event at0 (Line " Y ");
          mk_event at0 (Line EmptyString)] [])
    = Return tt m'
    ∧ Stats.sessions (stats (timer m'))
      = [Stats.mk_session (Some "pomodoro"%string) (Some "General work"%string)
           (Some 1500) (Some true) at0]
    ∧ current_pomodoros (timer m') = 1
    ∧ breaks_started (trace m') = [].
Proof.
  intros t tm at0.
  destruct (interrupted_complete_records_once t tm (mk_world ∅ ∅) at0 [] None
              at0 at0 at0 " Y " EmptyString [])
    as (m' & Hrun & Hlog & _ & Hcount & _ & _ & Hbreaks & _).
  - vm_compute. reflexivity.
  - vm_compute. reflexivity.
  - exists m'. repeat split; assumption.
Defined.

(** C1, as stated, fails: the selected task is stored in the registry with
    [pomodoros_spent = 0]; after the interrupted pomodoro has been confirmed
    the counter is still 0, not 1. *)
Lemma interrupted_complete_skips_registry :
  let task :=
    TaskManager.mk_task 1 "write" (Some "medium"%string) (Some false)
      (Some (mk_datetime 738886 8 0 0 0)) None (Some 0) in
  let at0 := mk_datetime 738886 9 0 0 0 in
  let m :=
    mk_machine (init (Stats.mk_stats "data/sessions.json" []))
      (TaskManager.mk_task_manager "data/tasks.json" [task])
      (mk_world ∅ ∅) at0
      [mk_event at0 Interrupt; mk_event at0 (Line "y"); mk_event at0 (Line EmptyString)]
      [] in
  ∃ m' : Machine,
    start_pomodoro (Some task) m = Return tt m'
    ∧ map TaskManager.pomodoros_spent
          (TaskManager.tasks (task_manager m')) = [Some 0]
    ∧ ¬ (map TaskManager.pomodoros_spent
             (TaskManager.tasks (task_manager m')) = [Some (0 + 1)]).
Proof.
  intros task at0 m. eexists. split; [vm_compute; reflexivity |].
  split; [reflexivity | discriminate].
Qed.

(** A defect that no statement above covers: when Ctrl+C arrives at the
    prompt that follows a countdown which has reached its deadline, the
    handler of [start_pomodoro] asks whether to mark the session as
    complete, and the answer "y" counts and records the same pomodoro a
    second time. *)
Example interrupt_at_break_prompt_counts_twice :
  let at0 := mk_datetime 738886 9 0 0 0 in
  let m :=
    mk_machine (init (Stats.mk_stats "data/sessions.json" []))
      (TaskManager.mk_task_manager "data/tasks.json" [])
      (mk_world ∅ ∅) at0
      [mk_event at0 Expire; mk_event at0 Interrupt; mk_event at0 (Line "y");
       mk_event at0 (Line EmptyString)] [] in
  ∃ m' : Machine,
    start_pomodoro None m = Return tt m'
    ∧ current_pomodoros (timer m') = 2
    ∧ length (Stats.sessions (stats (timer m'))) = 2%nat.
Proof. eexists. split; [vm_compute; reflexivity |]. split; reflexivity. Qed.

(** *** The actions of a run *)

Lemma bind_Return {A B : Type} (x : M A) (f : A → M B) (m : Machine)
    (a : A) (m' : Machine) :
  x m = Return a m' → (x ≫= f) m = f a m'.
Proof. intros H. unfold mbind, M_bind. by rewrite H. Qed.

Lemma extends_ret {A : Type} (a : A) : extends (mret a : M A).
Proof. intros m. exists []. by rewrite app_nil_r. Qed.

Lemma extends_bind {A B : Type} (x : M A) (f : A → M B) :
  extends x → (∀ a, extends (f a)) → extends (x ≫= f).
Proof.
  intros Hx Hf m. destruct (Hx m) as [more Hm]. unfold mbind, M_bind.
  destruct (x m) as [a m' | e m' | m']; cbn [machine_of] in *; eauto.
  destruct (Hf a m') as [more' Hm']. exists (more ++ more').
  by rewrite Hm', Hm, app_assoc.
Qed.

Lemma extends_try {A : Type} (body handler : M A) :
  extends body → extends handler → extends (try_except body handler).
Proof.
  intros Hb Hh m. destruct (Hb m) as [more Hm]. unfold try_except.
  destruct (body m) as [a m' | [] m' | m']; cbn [machine_of] in *; eauto.
  destruct (Hh m') as [more' Hm']. exists (more ++ more').
  by rewrite Hm', Hm, app_assoc.
Qed.

Lemma extends_emit (a : action) : extends (emit a).
Proof. intros m. by exists [a]. Qed.

Lemma extends_get {A : Type} (f : PomodoroTimer → A) : extends (get f).
Proof. intros m. exists []. by rewrite app_nil_r. Qed.

Lemma extends_input : extends input.
Proof.
  intros m. exists []. rewrite app_nil_r. unfold input.
  destruct (script m) as [| e rest]; [reflexivity |].
  destruct (what e); reflexivity.
Qed.

Lemma extends_input_choice : extends input_choice.
Proof.
  unfold input_choice. apply extends_bind; [apply extends_input |].
  intros s. apply extends_ret.
Qed.

Lemma extends_countdown (d : Z) (kind : session_type) :
  extends (countdown d kind).
Proof.
  unfold countdown. apply extends_bind; [apply extends_emit |]. intros _.
  destruct (d <=? 0); [apply extends_ret |].
  intros m. exists []. rewrite app_nil_r.
  destruct (script m) as [| e rest]; [reflexivity |].
  destruct (what e); reflexivity.
Qed.

Lemma extends_count_and_record (task : option TaskManager.Task) :
  extends (count_and_record task).
Proof. intros m. exists []. by rewrite app_nil_r. Qed.

Lemma extends_py_mod (a b : Z) : extends (py_mod a b).
Proof.
  intros m. exists []. rewrite app_nil_r. unfold py_mod.
  destruct (b =? 0); reflexivity.
Qed.

Lemma extends_start_break (break_type : string) :
  extends (start_break break_type).
Proof.
  unfold start_break. apply extends_try.
  - apply extends_bind; [apply extends_get |]. intros d.
    apply extends_bind; [apply extends_countdown |]. intros [].
    + apply extends_bind; [apply extends_emit |]. intros _.
      apply extends_bind; [apply extends_input |]. intros _.
      apply extends_ret.
    + apply extends_ret.
  - apply extends_bind; [apply extends_input |]. intros _. apply extends_ret.
Qed.

Lemma extends_handler (task : option TaskManager.Task) :
  extends (choice ← input_choice;
           (if bool_decide (choice = "y"%string)
            then count_and_record task
            else mret tt);;
           _ ← input; mret tt).
Proof.
  apply extends_bind; [apply extends_input_choice |]. intros choice.
  apply extends_bind.
  - destruct (bool_decide _);
      [apply extends_count_and_record | apply extends_ret].
  - intros _. apply extends_bind; [apply extends_input |]. intros _.
    apply extends_ret.
Qed.

Lemma extends_start_pomodoro_rec (fuel : nat) (task : option TaskManager.Task) :
  extends (start_pomodoro_rec fuel task).
Proof.
  induction fuel as [| fuel IH].
  - intros m. exists []. by rewrite app_nil_r.
  - rewrite start_pomodoro_rec_S.
    apply extends_try; [| apply extends_handler].
    apply extends_bind; [apply extends_emit |]. intros _.
    apply extends_bind; [apply extends_get |]. intros d.
    apply extends_bind; [apply extends_countdown |]. intros [];
      [| apply extends_ret].
    apply extends_bind; [apply extends_count_and_record |]. intros _.
    apply extends_bind; [apply extends_emit |]. intros _.
    apply extends_bind; [apply extends_get |]. intros n.
    apply extends_bind; [apply extends_get |]. intros k.
    apply extends_bind; [apply extends_py_mod |]. intros r.
    apply extends_bind.
    + destruct (r =? 0);
        (apply extends_bind; [apply extends_input |]); intros _;
        apply extends_start_break.
    + intros _. apply extends_bind; [apply extends_input_choice |].
      intros choice. destruct (bool_decide _); [exact IH | apply extends_ret].
Qed.

(** The first action of [start_break] is the start of the countdown of
    its break. *)
Lemma start_break_first (break_type : string) (m : Machine) :
  ∃ more,
    trace (machine_of (start_break break_type m))
    = trace m
      ++ Countdown
           (if bool_decide (break_type = "short"%string)
            then short_break else long_break)
           (if bool_decide (break_type = "short"%string)
            then short_break_duration (timer m)
            else long_break_duration (timer m))
         :: more.
Proof.
  destruct m as [t tm w c sc tr]. unfold start_break. exec.
  repeat match goal with
    | |- context [if ?b then _ else _] => destruct b
    | |- context [match ?l with [] => _ | _ :: _ => _ end] =>
        destruct l as [| [? []] ?]
    end;
    exec; eexists; rewrite <- ?app_assoc; reflexivity.
Qed.

Lemma try_except_trace {A : Type} (body handler : M A) (m : Machine) :
  extends handler →
  ∃ more,
    trace (machine_of (try_except body handler m))
    = trace (machine_of (body m)) ++ more.
Proof.
  intros Hh. unfold try_except.
  destruct (body m) as [a m' | [] m' | m']; cbn [machine_of];
    try (exists []; by rewrite app_nil_r).
  apply Hh.
Qed.

Lemma bind_trace {A B : Type} (x : M A) (f : A → M B) (m : Machine) :
  (∀ a, extends (f a)) →
  ∃ more,
    trace (machine_of ((x ≫= f) m)) = trace (machine_of (x m)) ++ more.
Proof.
  intros Hf. unfold mbind, M_bind.
  destruct (x m) as [a m' | e m' | m']; cbn [machine_of];
    try (exists []; by rewrite app_nil_r).
  apply Hf.
Qed.

(** *** The choice of the break *)

(** The run of [start_pomodoro] up to the start of the break, when the
    countdown reaches its deadline and the operator presses ENTER. *)
Lemma start_pomodoro_rec_expired
    (fuel : nat) (t : PomodoroTimer) (tm : TaskManager.TaskManager)
    (w : World) (c : datetime) (tr : list action)
    (task : option TaskManager.Task) (t1 t2 : datetime) (enter : string)
    (rest : list event) :
  pomodoros_until_long_break t ≠ 0 →
  ∃ m' : Machine,
    trace m'
    = tr ++ [Notify "Pomodoro Started!";
             Countdown pomodoro (pomodoro_duration t);
             Notify "Pomodoro Complete!"]
    ∧ start_pomodoro_rec (S fuel) task
        (mk_machine t tm w c
           (expiry t t1 ++ mk_event t2 (Line enter) :: rest) tr)
      = try_except
          (start_break
             (if (current_pomodoros t + 1) mod pomodoros_until_long_break t
                 =? 0
              then "long" else "short");;
           choice ← input_choice;
           if bool_decide (choice = "y"%string)
           then start_pomodoro_rec fuel task
           else mret tt)
          (choice ← input_choice;
           (if bool_decide (choice = "y"%string)
            then count_and_record task
            else mret tt);;
           _ ← input; mret tt)
          m'.
Proof.
  intros Hk. apply Z.eqb_neq in Hk. unfold expiry.
  destruct (pomodoro_duration t <=? 0) eqn:Hd; cbn [app];
    (eexists; split; cycle 1;
     [ rewrite start_pomodoro_rec_S; unfold try_except;
       cbv beta iota zeta delta
         [mbind M_bind mret M_ret notify emit get set_timer set_world
          countdown input raise count_and_record stats_add_session now
          advance py_mod timer task_manager world clock script trace what
          at_time Stats.add_session];
       rewrite Hd; cbv beta iota;
       cbn [set_stats set_current_pomodoros current_pomodoros
            pomodoros_until_long_break];
       rewrite Hk; cbv beta iota;
       destruct (_ mod _ =? 0); reflexivity
     | cbn [trace]; rewrite <- !app_assoc; reflexivity ]).
Qed.

(** The first break that starts after a pomodoro whose countdown has
    reached its deadline. *)
Lemma break_selection_first
    (t : PomodoroTimer) (tm : TaskManager.TaskManager) (w : World)
    (c : datetime) (tr : list action) (task : option TaskManager.Task)
    (t1 t2 : datetime) (enter : string) (rest : list event) :
  pomodoros_until_long_break t ≠ 0 →
  ∃ later : list session_type,
    breaks_started
      (trace
         (machine_of
            (start_pomodoro task
               (mk_machine t tm w c
                  (expiry t t1 ++ mk_event t2 (Line enter) :: rest) tr))))
    = breaks_started tr
      ++ (if (current_pomodoros t + 1) mod pomodoros_until_long_break t =? 0
          then long_break else short_break) :: later.
Proof.
  intros Hk. unfold start_pomodoro. cbn [script].
  destruct (start_pomodoro_rec_expired
              (length (expiry t t1 ++ mk_event t2 (Line enter) :: rest))
              t tm w c tr task t1 t2 enter rest Hk) as (m' & Htr & ->).
  match goal with
  | |- context [try_except ?body ?handler m'] =>
      destruct (try_except_trace body handler m' (extends_handler task))
        as [more1 ->]
  end.
  match goal with
  | |- context [(?x ≫= ?f) m'] =>
      destruct (bind_trace x f m') as [more2 ->]
  end.
  { intros _. apply extends_bind; [apply extends_input_choice |].
    intros choice. destruct (bool_decide _);
      [apply extends_start_pomodoro_rec | apply extends_ret]. }
  match goal with
  | |- context [start_break ?b m'] =>
      destruct (start_break_first b m') as [more3 ->]
  end.
  rewrite Htr, !breaks_started_app.
  exists (breaks_started more3 ++ breaks_started more2 ++ breaks_started more1).
  destruct (_ mod _ =? 0);
    [rewrite !bool_decide_eq_false_2 by discriminate
    | rewrite !bool_decide_eq_true_2 by reflexivity];
    cbn [breaks_started omap]; unfold mbind, list_bind, mret, list_ret;
    cbn [app]; rewrite ?app_nil_r, <- ?app_assoc; reflexivity.
Qed.

(** When the script ends with the ENTER that starts the break, the break
    chosen is the only one that starts. *)
Lemma break_selection_last
    (t : PomodoroTimer) (tm : TaskManager.TaskManager) (w : World)
    (c : datetime) (tr : list action) (task : option TaskManager.Task)
    (t1 t2 : datetime) (enter : string) :
  pomodoros_until_long_break t ≠ 0 →
  breaks_started
    (trace
       (machine_of
          (start_pomodoro task
             (mk_machine t tm w c
                (expiry t t1 ++ [mk_event t2 (Line enter)]) tr))))
  = breaks_started tr
    ++ [if (current_pomodoros t + 1) mod pomodoros_until_long_break t =? 0
        then long_break else short_break].
Proof.
  intros Hk. apply Z.eqb_neq in Hk. unfold start_pomodoro, expiry.
  destruct (pomodoro_duration t <=? 0) eqn:Hd; cbn [app script length];
    rewrite start_pomodoro_rec_S;
    exec; rewrite Hd; exec;
    cbn [set_stats set_current_pomodoros current_pomodoros
         pomodoros_until_long_break short_break_duration long_break_duration
         pomodoro_duration];
    rewrite Hk; exec;
    (destruct (_ mod _ =? 0); exec;
     cbn [set_stats set_current_pomodoros current_pomodoros
          pomodoros_until_long_break short_break_duration
          long_break_duration pomodoro_duration];
     [rewrite bool_decide_eq_false_2 by discriminate
     | rewrite bool_decide_eq_true_2 by reflexivity];
     match goal with |- context [?d <=? 0] => destruct (d <=? 0) end;
     exec; rewrite !breaks_started_app; cbn; rewrite ?app_nil_r;
     reflexivity).
Qed.

(** C2: when the countdown of a pomodoro reaches its deadline and the
    operator presses ENTER, then, with [N] the counter of the timer after
    its increment, the break that starts is the long one if
    [N mod pomodoros_until_long_break = 0] and the short one otherwise,
    whatever happens afterwards; if nothing happens afterwards it is the
    only break that starts.  With the default of 4 the counts 4, 8 and 12
    start a long break and the counts 1, 2, 3, 5, 6 and 7 a short one. *)
Theorem break_selection :
  (∀ (t : PomodoroTimer) (tm : TaskManager.TaskManager) (w : World)
     (c : datetime) (tr : list action) (task : option TaskManager.Task)
     (t1 t2 : datetime) (enter : string) (rest : list event),
     pomodoros_until_long_break t ≠ 0 →
     let N := current_pomodoros t + 1 in
     ∃ later : list session_type,
       breaks_started
         (trace
            (machine_of
               (start_pomodoro task
                  (mk_machine t tm w c
                     (expiry t t1 ++ mk_event t2 (Line enter) :: rest) tr))))
       = breaks_started tr
         ++ (if N mod pomodoros_until_long_break t =? 0
             then long_break else short_break) :: later
       ∧ (rest = [] → later = []))
  ∧ (∀ (st : Stats.Stats) (tm : TaskManager.TaskManager) (w : World)
       (c : datetime) (task : option TaskManager.Task)
       (t1 t2 : datetime) (enter : string) (rest : list event),
       let started N :=
         breaks_started
           (trace
              (machine_of
                 (start_pomodoro task
                    (mk_machine (set_current_pomodoros (N - 1) (init st)) tm w c
                       (mk_event t1 Expire :: mk_event t2 (Line enter) :: rest)
                       [])))) in
       Forall (fun N => ∃ later, started N = long_break :: later) [4; 8; 12]
       ∧ Forall (fun N => ∃ later, started N = short_break :: later)
                [1; 2; 3; 5; 6; 7]).
Proof.
  split.
  - intros t tm w c tr task t1 t2 enter rest Hk N.
    destruct (break_selection_first t tm w c tr task t1 t2 enter rest Hk)
      as [later Hlater].
    exists later. split; [exact Hlater |]. intros ->.
    rewrite (break_selection_last t tm w c tr task t1 t2 enter Hk)
      in Hlater.
    apply app_inv_head in Hlater. by injection Hlater.
  - intros st tm w c task t1 t2 enter rest started.
    assert (Hdef : ∀ N, ∃ later,
               started N
               = (if N mod 4 =? 0 then long_break else short_break) :: later).
    { intros N. unfold started.
      destruct (break_selection_first (set_current_pomodoros (N - 1) (init st))
                  tm w c [] task t1 t2 enter rest)
        as [later Hb]; [discriminate |].
      exists later.
      change (expiry (set_current_pomodoros (N - 1) (init st)) t1)
        with [mk_event t1 Expire] in Hb.
      cbn [app] in Hb. rewrite Hb.
      cbn [set_current_pomodoros init current_pomodoros
           pomodoros_until_long_break breaks_started omap app].
      replace (N - 1 + 1) with N by lia. reflexivity. }
    split; repeat constructor; apply Hdef.
Qed.

Lemma break_selection_witness :
  let t := init (Stats.mk_stats "data/sessions.json" []) in
  let at0 := mk_datetime 738886 9 0 0 0 in
  ∃ later : list session_type,
    breaks_started
      (trace
         (machine_of
            (start_pomodoro None
               (mk_machine t (TaskManager.mk_task_manager "data/tasks.json" [])
                  (mk_world ∅ ∅) at0
                  [mk_event at0 Expire; mk_event at0 (Line EmptyString)] []))))
    = short_break :: later
    ∧ later = [].
Proof.
  intros t at0.
  destruct (proj1 break_selection t
              (TaskManager.mk_task_manager "data/tasks.json" [])
              (mk_world ∅ ∅) at0 [] None at0 at0 EmptyString [])
    as (later & Hb & Hlast).
  - vm_compute. discriminate.
  - exists later. split; [exact Hb | by apply Hlast].
Defined.

End TimerFacts.

(** ** Task registry: the other methods *)

Module TaskManagerMore.
Import Json Os Datetime TaskManager.

Lemma in_range_spec (index : Z) (self : TaskManager) :
  in_range index self = true ↔ 0 ≤ index < Z.of_nat (length (tasks self)).
Proof. unfold in_range, len. rewrite andb_true_iff, Z.leb_le, Z.ltb_lt. tauto. Qed.

Lemma in_range_lookup (index : Z) (self : TaskManager) :
  in_range index self = true → is_Some (tasks self !! Z.to_nat index).
Proof. rewrite in_range_spec. intros H. apply lookup_lt_is_Some. lia. Qed.

Lemma get_task_by_index_Some (index : Z) (self : TaskManager) (t : Task) :
  get_task_by_index index self = Some t ↔
  0 ≤ index ∧ tasks self !! Z.to_nat index = Some t.
Proof.
  unfold get_task_by_index. destruct (in_range index self) eqn:Hr.
  - apply in_range_spec in Hr. intuition lia.
  - split; [discriminate |]. intros [H0 Ht]. apply lookup_lt_Some in Ht.
    assert (in_range index self = true) by (apply in_range_spec; lia).
    congruence.
Qed.

Lemma set_tasks_same (self : TaskManager) : set_tasks self (tasks self) = self.
Proof. by destruct self. Qed.

(** X1: [complete_task(index)] with [0 <= index < len(tasks)] returns [True],
    sets [completed] to true and [completed_at] to the present time in the
    task at that position, leaves its other fields and every other
    position as they were, and saves the list.  With any other index, a
    negative one included, it returns [False], changes nothing and writes
    nothing. *)
Theorem complete_task_marks_one (index : Z) (now : datetime)
    (self : TaskManager) (w : World) :
  let r := complete_task index now self w in
  let self' := r.1.2 in
  data_file self' = data_file self
  ∧ length (tasks self') = length (tasks self)
  ∧ match get_task_by_index index self with
    | Some t =>
        0 ≤ index < Z.of_nat (length (tasks self))
        ∧ r.1.1 = true
        ∧ tasks self' !! Z.to_nat index
          = Some {| id := id t; name := name t; priority := priority t;
                    completed := Some true; created_at := created_at t;
                    completed_at := Some now;
                    pomodoros_spent := pomodoros_spent t |}
        ∧ (∀ j : nat, j ≠ Z.to_nat index → tasks self' !! j = tasks self !! j)
        ∧ r.2 = _save_tasks self' w
    | None =>
        ¬ (0 ≤ index < Z.of_nat (length (tasks self)))
        ∧ r.1.1 = false ∧ self' = self ∧ r.2 = w
    end.
Proof.
  unfold complete_task, get_task_by_index.
  destruct (in_range index self) eqn:Hr; cbn.
  - split; [reflexivity |]. split; [apply length_alter |].
    destruct (in_range_lookup _ _ Hr) as [t Ht]. rewrite Ht.
    split; [by apply in_range_spec |]. split; [reflexivity |].
    split; [| split; [| reflexivity]].
    + rewrite list_lookup_alter_eq, Ht. reflexivity.
    + intros j Hj. by apply list_lookup_alter_ne.
  - split; [reflexivity |]. split; [reflexivity |].
    split; [| auto]. rewrite <- in_range_spec. congruence.
Qed.

(** X2: on a task that is stored as pending ([completed] false,
    [completed_at] [None]), [complete_task] followed by [uncomplete_task]
    at the same position gives back the registry as it was; both calls
    return [True], and in between the task counts as completed. *)
Theorem uncomplete_undoes_complete (index : Z) (now : datetime)
    (self : TaskManager) (w : World) (t : Task) :
  get_task_by_index index self = Some t →
  completed t = Some false →
  completed_at t = None →
  let done := complete_task index now self w in
  let undone := uncomplete_task index done.1.2 done.2 in
  done.1.1 = true ∧ undone.1.1 = true
  ∧ is_completed <$> get_task_by_index index done.1.2 = Some true
  ∧ undone.1.2 = self.
Proof.
  intros Ht Hc Hat. apply get_task_by_index_Some in Ht as [H0 Ht].
  assert (Hr : in_range index self = true).
  { apply in_range_spec. apply lookup_lt_Some in Ht. lia. }
  unfold complete_task. rewrite Hr. cbn [fst snd].
  unfold uncomplete_task.
  assert (Hr' : ∀ l, length l = length (tasks self) →
                     in_range index (set_tasks self l) = true).
  { intros l Hl. apply in_range_spec. cbn. rewrite Hl. by apply in_range_spec. }
  rewrite Hr' by apply length_alter. cbn [fst snd].
  split; [reflexivity |]. split; [reflexivity |]. split.
  - unfold get_task_by_index. rewrite Hr' by apply length_alter. cbn.
    rewrite list_lookup_alter_eq, Ht. reflexivity.
  - destruct self as [df l]. cbn [set_tasks tasks data_file] in *. f_equal.
    apply list_eq. intros j. destruct (decide (j = Z.to_nat index)) as [-> | Hj].
    + rewrite !list_lookup_alter_eq, Ht. cbn. f_equal.
      destruct t; cbn in *. by subst.
    + by rewrite !list_lookup_alter_ne.
Qed.

Lemma uncomplete_undoes_complete_witness :
  let now := mk_datetime 738886 9 0 0 0 in
  let t := fun n => mk_task 1 n (Some "medium"%string) (Some false)
                      (Some now) None (Some 0) in
  let self := mk_task_manager "data/tasks.json" [t "a"; t "b"]%string in
  (uncomplete_task 1
     (complete_task 1 now self (mk_world ∅ ∅)).1.2
     (complete_task 1 now self (mk_world ∅ ∅)).2).1.2 = self.
Proof.
  intros now t self.
  apply (uncomplete_undoes_complete 1 now self (mk_world ∅ ∅) (t "b"%string));
    reflexivity.
Defined.

(** X3: [delete_task(index)] with an index in range returns the task at
    that position and stores the list without it, the tasks before and
    after it in their order, and saves it.  With any other index, a
    negative one included, it returns [None], changes nothing and writes
    nothing. *)
Theorem delete_task_removes_one (index : Z) (self : TaskManager) (w : World) :
  let r := delete_task index self w in
  let self' := r.1.2 in
  data_file self' = data_file self
  ∧ match get_task_by_index index self with
    | Some t =>
        0 ≤ index < Z.of_nat (length (tasks self))
        ∧ r.1.1 = Some t
        ∧ (∃ before after : list Task,
             tasks self = before ++ t :: after
             ∧ length before = Z.to_nat index
             ∧ tasks self' = before ++ after)
        ∧ r.2 = _save_tasks self' w
    | None =>
        ¬ (0 ≤ index < Z.of_nat (length (tasks self)))
        ∧ r.1.1 = None ∧ self' = self ∧ r.2 = w
    end.
Proof.
  unfold delete_task, get_task_by_index.
  destruct (in_range index self) eqn:Hr; cbn.
  - split; [reflexivity |].
    destruct (in_range_lookup _ _ Hr) as [t Ht]. rewrite Ht.
    split; [by apply in_range_spec |]. split; [reflexivity |].
    split; [| reflexivity].
    exists (take (Z.to_nat index) (tasks self)),
           (drop (S (Z.to_nat index)) (tasks self)).
    split; [| split].
    + by rewrite take_drop_middle.
    + apply length_take_le. apply lookup_lt_Some in Ht. lia.
    + apply delete_take_drop.
  - split; [reflexivity |]. split; [| auto].
    rewrite <- in_range_spec. congruence.
Qed.

(** X4: [set_priority(index, priority)] returns [True] exactly when the
    index is in range and the priority is one of 'high', 'medium' and
    'low'; it then changes the priority of that task only and saves the
    list.  Otherwise it returns [False], changes nothing and writes
    nothing. *)
Theorem set_priority_validates (index : Z) (new_priority : string)
    (self : TaskManager) (w : World) :
  let r := set_priority index new_priority self w in
  let self' := r.1.2 in
  if r.1.1 then
    0 ≤ index < Z.of_nat (length (tasks self))
    ∧ (new_priority = "high" ∨ new_priority = "medium"
       ∨ new_priority = "low")%string
    ∧ (∃ t : Task,
         tasks self !! Z.to_nat index = Some t
         ∧ tasks self' !! Z.to_nat index
           = Some {| id := id t; name := name t;
                     priority := Some new_priority;
                     completed := completed t; created_at := created_at t;
                     completed_at := completed_at t;
                     pomodoros_spent := pomodoros_spent t |})
    ∧ (∀ j : nat, j ≠ Z.to_nat index → tasks self' !! j = tasks self !! j)
    ∧ r.2 = _save_tasks self' w
  else
    (¬ (0 ≤ index < Z.of_nat (length (tasks self)))
     ∨ (new_priority ≠ "high" ∧ new_priority ≠ "medium"
        ∧ new_priority ≠ "low")%string)
    ∧ self' = self ∧ r.2 = w.
Proof.
  unfold set_priority.
  destruct (in_range index self) eqn:Hr; cbn [andb].
  - destruct (bool_decide _) eqn:Hp; cbn.
    + apply bool_decide_eq_true in Hp.
      split; [by apply in_range_spec |]. split.
      { rewrite !elem_of_cons in Hp. rewrite elem_of_nil in Hp. tauto. }
      destruct (in_range_lookup _ _ Hr) as [t Ht].
      split; [| split; [| reflexivity]].
      * exists t. split; [exact Ht |].
        rewrite list_lookup_alter_eq, Ht. reflexivity.
      * intros j Hj. by apply list_lookup_alter_ne.
    + apply bool_decide_eq_false in Hp. split; [| auto]. right.
      rewrite !elem_of_cons in Hp. rewrite elem_of_nil in Hp. tauto.
  - cbn. split; [| auto]. left. rewrite <- in_range_spec. congruence.
Qed.

Lemma starts_with_spec (p s : list ascii) :
  Text.starts_with p s = true ↔ ∃ post, s = p ++ post.
Proof.
  revert s. induction p as [| a p IH]; intros s; cbn.
  - split; [eauto | reflexivity].
  - destruct s as [| b s].
    + split; [discriminate |]. intros [post H]. discriminate.
    + rewrite andb_true_iff, Ascii.eqb_eq, IH. split.
      * intros [-> [post ->]]. eauto.
      * intros [post [= -> ->]]. eauto.
Qed.

Lemma occurs_spec (sub s : list ascii) :
  Text.occurs sub s = true ↔ ∃ pre post, s = pre ++ sub ++ post.
Proof.
  induction s as [| c s IH]; cbn [Text.occurs]; rewrite orb_true_iff.
  - rewrite starts_with_spec. split.
    + intros [[post H] | H]; [| discriminate]. by exists [], post.
    + intros (pre & post & H). left. destruct pre; [| discriminate].
      by exists post.
  - rewrite starts_with_spec, IH. split.
    + intros [[post H] | (pre & post & H)].
      * by exists [], post.
      * exists (c :: pre), post. by rewrite H.
    + intros (pre & post & H). destruct pre as [| c' pre].
      * left. by exists post.
      * right. injection H as -> ->. eauto.
Qed.

Lemma contains_refl (s : string) : Text.contains s s = true.
Proof.
  unfold Text.contains. apply occurs_spec. exists [], []. cbn.
  by rewrite app_nil_r.
Qed.

(** X5: [search_tasks(keyword)] returns exactly the stored tasks whose
    name, in lower case, contains the keyword, in lower case, at some
    position; it returns them in the order of the list; with the empty
    keyword it returns every task. *)
Theorem search_tasks_finds_substrings (keyword : string) (self : TaskManager) :
  (∀ t : Task,
     t ∈ search_tasks keyword self ↔
     t ∈ tasks self
     ∧ ∃ pre post : list ascii,
         Text.chars (Text.lower (name t))
         = pre ++ Text.chars (Text.lower keyword) ++ post)
  ∧ sublist (search_tasks keyword self) (tasks self)
  ∧ search_tasks EmptyString self = tasks self.
Proof.
  unfold search_tasks. split; [| split].
  - intros t. rewrite list_elem_of_In, filter_In, <- list_elem_of_In.
    unfold Text.contains. by rewrite occurs_spec.
  - induction (tasks self) as [| t l IH]; cbn; [constructor |].
    destruct (Text.contains _ _); by constructor.
  - assert (H : ∀ s, Text.contains (Text.lower EmptyString) s = true).
    { intros s. apply occurs_spec. by exists [], (Text.chars s). }
    induction (tasks self) as [| t l IH]; cbn [List.filter]; [reflexivity |].
    rewrite H. by f_equal.
Qed.

(** X6: after [edit_task(index, new_name)] on an index in range the task at
    that position carries the new name and its other fields as before,
    the other positions are unchanged, and [search_tasks(new_name)] finds
    the renamed task. *)
Theorem edit_task_then_search (index : Z) (new_name : string)
    (self : TaskManager) (w : World) (t : Task) :
  get_task_by_index index self = Some t →
  let r := edit_task index new_name self w in
  r.1.1 = true
  ∧ get_task_by_index index r.1.2
    = Some {| id := id t; name := new_name; priority := priority t;
              completed := completed t; created_at := created_at t;
              completed_at := completed_at t;
              pomodoros_spent := pomodoros_spent t |}
  ∧ {| id := id t; name := new_name; priority := priority t;
       completed := completed t; created_at := created_at t;
       completed_at := completed_at t;
       pomodoros_spent := pomodoros_spent t |}
    ∈ search_tasks new_name r.1.2
  ∧ (∀ j : nat, j ≠ Z.to_nat index → tasks r.1.2 !! j = tasks self !! j).
Proof.
  intros Ht. apply get_task_by_index_Some in Ht as [H0 Ht].
  assert (Hr : in_range index self = true).
  { apply in_range_spec. apply lookup_lt_Some in Ht. lia. }
  unfold edit_task. rewrite Hr. cbn [fst snd].
  split; [reflexivity |].
  match goal with
  | |- context [alter ?f _ _] => set (rename := f)
  end.
  assert (Hnew : tasks (set_tasks self (alter rename (Z.to_nat index)
                                          (tasks self)))
                 !! Z.to_nat index = Some (rename t)).
  { cbn. by rewrite list_lookup_alter_eq, Ht. }
  split; [| split].
  - apply get_task_by_index_Some. split; [exact H0 | exact Hnew].
  - unfold search_tasks. rewrite list_elem_of_In, filter_In, <- list_elem_of_In.
    split; [by eapply list_elem_of_lookup_2 |]. apply contains_refl.
  - intros j Hj. cbn. by apply list_lookup_alter_ne.
Qed.

Lemma edit_task_then_search_witness :
  let t := mk_task 1 "draft" (Some "medium"%string) (Some false) None None
             (Some 0) in
  let self := mk_task_manager "data/tasks.json" [t] in
  mk_task 1 "Report" (Some "medium"%string) (Some false) None None (Some 0)
  ∈ search_tasks "Report" (edit_task 0 "Report" self (mk_world ∅ ∅)).1.2.
Proof.
  intros t self.
  apply (edit_task_then_search 0 "Report" self (mk_world ∅ ∅) t).
  reflexivity.
Defined.

Lemma filter_filter_same {A : Type} (f : A → bool) (l : list A) :
  List.filter f (List.filter f l) = List.filter f l.
Proof.
  induction l as [| x l IH]; cbn; [reflexivity |].
  destruct (f x) eqn:Hx; cbn; rewrite ?Hx, IH; reflexivity.
Qed.

Lemma filter_filter_neg {A : Type} (f : A → bool) (l : list A) :
  List.filter f (List.filter (fun x => negb (f x)) l) = [].
Proof.
  induction l as [| x l IH]; cbn; [reflexivity |].
  destruct (f x) eqn:Hx; cbn; rewrite ?Hx, IH; reflexivity.
Qed.


(** X7: [clear_completed_tasks] leaves exactly the pending tasks, in
    their order, and saves them; afterwards no task is completed, and
    [get_task_stats] reports 0 completed tasks and a completion rate of
    0. *)
Theorem clear_completed_tasks_keeps_pending (self : TaskManager) (w : World) :
  let r := clear_completed_tasks self w in
  tasks r.1 = get_pending_tasks self
  ∧ get_pending_tasks r.1 = get_pending_tasks self
  ∧ get_completed_tasks r.1 = []
  ∧ sublist (tasks r.1) (tasks self)
  ∧ data_file r.1 = data_file self
  ∧ r.2 = _save_tasks r.1 w
  ∧ ∃ st : TaskStats,
      get_task_stats r.1 = Ok st
      ∧ stat_completed st = 0
      ∧ stat_pending st = stat_total st
      ∧ Qeq (stat_completion_rate st) (inject_Z 0).
Proof.
  unfold clear_completed_tasks, get_pending_tasks, get_completed_tasks.
  cbn [fst snd set_tasks tasks data_file].
  split; [reflexivity |]. split; [apply filter_filter_same |].
  split; [apply filter_filter_neg |]. split.
  { induction (tasks self) as [| t l IH]; cbn; [constructor |].
    destruct (is_completed t); by constructor. }
  split; [reflexivity |]. split; [reflexivity |].
  unfold get_task_stats, get_pending_tasks, get_completed_tasks, len.
  cbv zeta. cbn [tasks set_tasks].
  rewrite filter_filter_same, filter_filter_neg.
  destruct (0 <? _) eqn:Hpos.
  - rewrite TaskManagerFacts.py_truediv_ok by (apply Z.ltb_lt in Hpos; lia).
    eexists. split; [reflexivity |]. cbn [stat_completed stat_pending
      stat_total stat_completion_rate length]. repeat split.
  - eexists. split; [reflexivity |]. cbn. repeat split.
Qed.

Lemma get_task_stats_returns (self : TaskManager) :
  ∃ st : TaskStats, get_task_stats self = Ok st.
Proof.
  unfold get_task_stats, len.
  destruct (Z.ltb_spec 0 (Z.of_nat (length (tasks self)))) as [Hpos | Hle].
  - rewrite TaskManagerFacts.py_truediv_ok by lia. eauto.
  - eauto.
Qed.



(** X9: when the stored ids are 1, 2, ..., n in this order, as they are
    while tasks are only added, [add_task] gives the new task the id n + 1,
    the ids stay 1, ..., n + 1 and so pairwise distinct, the new task is the
    last pending task, and it is found at the position id - 1. *)
Theorem add_task_ids_count_up (task_name new_priority : string)
    (now : datetime) (self : TaskManager) (w : World) :
  map id (tasks self) = seqZ 1 (len self) →
  let r := add_task task_name new_priority now self w in
  let task := r.1.1 in
  let self' := r.1.2 in
  id task = len self + 1
  ∧ map id (tasks self') = seqZ 1 (len self')
  ∧ NoDup (map id (tasks self'))
  ∧ get_task_by_index (id task - 1) self' = Some task
  ∧ get_pending_tasks self' = get_pending_tasks self ++ [task]
  ∧ get_completed_tasks self' = get_completed_tasks self.
Proof.
  intros Hids. unfold add_task. cbn [fst snd].
  set (task := mk_task _ _ _ _ _ _ _).
  assert (Hlen : len (set_tasks self (tasks self ++ [task])) = len self + 1).
  { unfold len. cbn. rewrite length_app. cbn. lia. }
  assert (Hmap : map id (tasks (set_tasks self (tasks self ++ [task])))
                 = seqZ 1 (len self + 1)).
  { cbn [set_tasks tasks]. rewrite map_app, Hids.
    rewrite seqZ_app by (unfold len; lia).
    assert (seqZ (1 + len self) 1 = [len self + 1]) as ->
      by (unfold seqZ; change (Z.to_nat 1) with 1%nat; cbn; f_equal; lia).
    reflexivity. }
  split; [reflexivity |]. split; [by rewrite Hlen |].
  split; [rewrite Hmap; apply NoDup_seqZ |]. split; [| split].
  - apply TaskManagerMore.get_task_by_index_Some. cbn [id task].
    split; [unfold len; lia |]. cbn [set_tasks tasks].
    replace (Z.to_nat (len self + 1 - 1)) with (length (tasks self))
      by (unfold len; lia).
    by rewrite lookup_app_r, Nat.sub_diag.
  - unfold get_pending_tasks. cbn [set_tasks tasks].
    by rewrite List.filter_app.
  - unfold get_completed_tasks. cbn [set_tasks tasks].
    rewrite List.filter_app. cbn. by rewrite app_nil_r.
Qed.

Lemma add_task_ids_count_up_witness :
  let now := mk_datetime 738886 9 0 0 0 in
  let t := fun i n => mk_task i n (Some "medium"%string) (Some false)
                        (Some now) None (Some 0) in
  let self := mk_task_manager "data/tasks.json" [t 1 "a"; t 2 "b"]%string in
  map id (tasks (add_task "c" "high" now self (mk_world ∅ ∅)).1.2) = [1; 2; 3].
Proof.
  intros now t self.
  destruct (add_task_ids_count_up "c" "high" now self (mk_world ∅ ∅))
    as (_ & Hids & _); [reflexivity |].
  exact Hids.
Defined.

Lemma increment_loop_stats (task_id : Z) (l l' : list Task) :
  increment_loop task_id l = Some l' →
  map is_completed l' = map is_completed l
  ∧ py_sum (map (fun t => default 0 (pomodoros_spent t)) l')
    = py_sum (map (fun t => default 0 (pomodoros_spent t)) l) + 1.
Proof.
  revert l'. induction l as [| t l IH]; intros l'; cbn [increment_loop];
    [discriminate |].
  destruct (id t =? task_id).
  - intros [= <-]. cbn [map]. split; [reflexivity |].
    rewrite !StatsFacts.py_sum_cons.
    cbn [spend_pomodoro pomodoros_spent default]. unfold Datatypes.id. lia.
  - destruct (increment_loop task_id l) as [l0 |]; [| discriminate].
    intros [= <-]. destruct (IH l0 eq_refl) as [Hc Hs]. cbn [map].
    split; [by rewrite Hc |]. rewrite !StatsFacts.py_sum_cons. lia.
Qed.

Lemma filter_map_length {A : Type} (f : A → bool) (l : list A) :
  length (List.filter f l) = length (List.filter (fun b => b) (map f l)).
Proof.
  induction l as [| x l IH]; cbn; [reflexivity |].
  destruct (f x); cbn; by rewrite IH.
Qed.

Lemma filter_neg_map_length {A : Type} (f : A → bool) (l : list A) :
  length (List.filter (fun x => negb (f x)) l)
  = length (List.filter negb (map f l)).
Proof.
  induction l as [| x l IH]; cbn; [reflexivity |].
  destruct (f x); cbn; by rewrite IH.
Qed.

(** X10: [increment_pomodoro(task)] raises the [total_pomodoros] of
    [get_task_stats] by one when a stored task has the id of [task], and
    leaves it unchanged otherwise; the other entries of the dictionary
    never change. *)
Theorem increment_pomodoro_counts_once (task : Task) (self : TaskManager)
    (w : World) :
  ∃ st st' : TaskStats,
    get_task_stats self = Ok st
    ∧ get_task_stats (increment_pomodoro task self w).1 = Ok st'
    ∧ stat_total st' = stat_total st
    ∧ stat_pending st' = stat_pending st
    ∧ stat_completed st' = stat_completed st
    ∧ stat_completion_rate st' = stat_completion_rate st
    ∧ stat_total_pomodoros st'
      = stat_total_pomodoros st
        + (if bool_decide (id task ∈ map id (tasks self)) then 1 else 0).
Proof.
  destruct (get_task_stats_returns self) as [st Hst].
  exists st. unfold increment_pomodoro.
  destruct (increment_loop (id task) (tasks self)) as [l' |] eqn:Hloop.
  - destruct (increment_loop_stats _ _ _ Hloop) as [Hc Hs].
    assert (Hlen : length l' = length (tasks self)).
    { by rewrite <- (length_map is_completed l'), Hc, length_map. }
    apply TaskManagerFacts.increment_loop_Some in Hloop
      as (i & t & Hi & Hid & _ & _).
    rewrite bool_decide_eq_true_2
      by (rewrite <- Hid; apply list_elem_of_fmap_2;
          by eapply list_elem_of_lookup_2).
    revert Hst. unfold get_task_stats, get_pending_tasks,
      get_completed_tasks, len. cbv zeta. cbn [fst set_tasks tasks].
    rewrite (filter_map_length is_completed l'),
      (filter_neg_map_length is_completed l'), Hc, Hlen, Hs,
      <- filter_map_length, <- filter_neg_map_length.
    destruct (0 <? _); [destruct (py_truediv _ _) |].
    + intros [= <-]. eexists. split; [reflexivity |]. cbn. repeat split.
    + discriminate.
    + intros [= <-]. eexists. split; [reflexivity |]. cbn. repeat split.
  - apply TaskManagerFacts.increment_loop_None in Hloop.
    rewrite bool_decide_eq_false_2.
    + exists st. cbn [fst]. rewrite Hst. repeat split; lia.
    + rewrite list_elem_of_fmap. intros (t & Hid & Ht).
      rewrite Forall_forall in Hloop. by apply (Hloop t Ht).
Qed.

End TaskManagerMore.

(** ** Sorting *)

Module SortFacts.

Section py_sort.
Context {A : Type} (lt : A → A → bool).

Lemma insert_sorted_perm (x : A) (l : list A) :
  insert_sorted lt x l ≡ₚ x :: l.
Proof.
  induction l as [| y l IH]; cbn; [reflexivity |].
  destruct (lt x y); [reflexivity |].
  rewrite IH. apply Permutation_swap.
Qed.

Lemma py_sort_acc_perm (l acc : list A) :
  fold_left (fun sorted x => insert_sorted lt x sorted) l acc ≡ₚ acc ++ l.
Proof.
  revert acc. induction l as [| x l IH]; intros acc; cbn.
  - by rewrite app_nil_r.
  - rewrite IH, insert_sorted_perm. cbn. apply Permutation_middle.
Qed.

Lemma py_sort_perm (l : list A) : py_sort lt l ≡ₚ l.
Proof. unfold py_sort. by rewrite py_sort_acc_perm. Qed.

Hypothesis lt_asym : ∀ a b, lt a b = true → lt b a = false.
Hypothesis lt_trans : ∀ a b c, lt a b = true → lt b c = true → lt a c = true.

Lemma insert_sorted_ascending (x : A) (l : list A) :
  ascending lt l → ascending lt (insert_sorted lt x l).
Proof.
  unfold ascending. induction l as [| y l IH]; intros Hl; cbn.
  - repeat constructor.
  - inversion Hl as [| ? ? Hl' Hy]; subst.
    destruct (lt x y) eqn:Hxy.
    + constructor; [exact Hl |]. constructor; [by apply lt_asym |].
      rewrite Forall_forall in Hy |- *. intros z Hz.
      destruct (lt z x) eqn:Hzx; [| reflexivity].
      rewrite <- (Hy z Hz). symmetry. by eapply lt_trans.
    + constructor; [by apply IH |].
      rewrite (insert_sorted_perm x l). by constructor.
Qed.

Lemma py_sort_acc_ascending (l acc : list A) :
  ascending lt acc →
  ascending lt (fold_left (fun sorted x => insert_sorted lt x sorted) l acc).
Proof.
  revert acc. induction l as [| x l IH]; intros acc Hacc; cbn; [exact Hacc |].
  by apply IH, insert_sorted_ascending.
Qed.

Lemma py_sort_ascending (l : list A) : ascending lt (py_sort lt l).
Proof. apply py_sort_acc_ascending. constructor. Qed.

(** Elements that compare alike with every other element keep their
    order. *)
Variable same : A → bool.
Hypothesis same_lt : ∀ x z y,
  same x = true → same z = true → lt x y = lt z y.

Lemma insert_sorted_stable (x : A) (l : list A) :
  ascending lt l →
  List.filter same (insert_sorted lt x l)
  = List.filter same l ++ (if same x then [x] else []).
Proof.
  unfold ascending. induction l as [| y l IH]; intros Hl; cbn.
  - by destruct (same x).
  - inversion Hl as [| ? ? Hl' Hy]; subst.
    destruct (lt x y) eqn:Hxy.
    + destruct (same x) eqn:Hx; cbn; rewrite ?Hx; [| by rewrite app_nil_r].
      assert (Hnone : List.filter same (y :: l) = []).
      { assert (Hall : Forall (fun z => same z = false) (y :: l)).
        { constructor.
          - destruct (same y) eqn:Hsy; [| reflexivity].
            rewrite (same_lt x y y Hx Hsy) in Hxy.
            by rewrite (lt_asym _ _ Hxy) in Hxy.
          - rewrite Forall_forall in Hy |- *. intros z Hz.
            destruct (same z) eqn:Hsz; [| reflexivity].
            rewrite (same_lt x z y Hx Hsz) in Hxy.
            by rewrite (Hy z Hz) in Hxy. }
        clear -Hall. induction Hall as [| z l' Hz _ IH']; cbn;
          [reflexivity |]. by rewrite Hz. }
      cbn in Hnone. by rewrite Hnone.
    + cbn. rewrite (IH Hl'). by destruct (same y).
Qed.

Lemma py_sort_acc_stable (l acc : list A) :
  ascending lt acc →
  List.filter same (fold_left (fun sorted x => insert_sorted lt x sorted) l acc)
  = List.filter same acc ++ List.filter same l.
Proof.
  revert acc. induction l as [| x l IH]; intros acc Hacc; cbn.
  - by rewrite app_nil_r.
  - rewrite IH by by apply insert_sorted_ascending.
    rewrite insert_sorted_stable by exact Hacc.
    rewrite <- app_assoc. by destruct (same x).
Qed.

Lemma py_sort_stable (l : list A) :
  List.filter same (py_sort lt l) = List.filter same l.
Proof. unfold py_sort. rewrite py_sort_acc_stable; [done | constructor]. Qed.

End py_sort.

Lemma ascending_lookup {A : Type} (lt : A → A → bool) (l : list A)
    (i j : nat) (a b : A) :
  ascending lt l → (i < j)%nat → l !! i = Some a → l !! j = Some b →
  lt b a = false.
Proof.
  unfold ascending. intros Hl. revert i j.
  induction Hl as [| x l Hl IH Hx]; intros i j Hij Hi Hj; [by destruct i |].
  destruct j as [| j]; [lia |]. cbn in Hj. destruct i as [| i]; cbn in Hi.
  - injection Hi as ->. rewrite Forall_forall in Hx. apply Hx.
    by eapply list_elem_of_lookup_2.
  - apply (IH i j); [lia | done | done].
Qed.

End SortFacts.

(** ** Task registry: the two sorts *)

Module TaskManagerSort.
Import Json Os Datetime TaskManager SortFacts.

Lemma priority_key_lt_asym (a b : bool * Z) :
  priority_key_lt a b = true → priority_key_lt b a = false.
Proof.
  destruct a as [[] x], b as [[] y]; unfold priority_key_lt; cbn;
    rewrite ?Z.ltb_lt, ?Z.ltb_ge; try lia; try done.
Qed.

Lemma priority_key_lt_trans (a b c : bool * Z) :
  priority_key_lt a b = true → priority_key_lt b c = true →
  priority_key_lt a c = true.
Proof.
  destruct a as [[] x], b as [[] y], c as [[] z]; unfold priority_key_lt; cbn;
    rewrite ?Z.ltb_lt; try lia; try done.
Qed.

Lemma chars_lt_asym (a b : list ascii) :
  Text.chars_lt a b = true → Text.chars_lt b a = false.
Proof.
  revert b. induction a as [| x a IH]; intros [| y b]; cbn; try done.
  destruct (N.ltb_spec (Text.code x) (Text.code y)),
           (N.ltb_spec (Text.code y) (Text.code x)),
           (N.eqb_spec (Text.code x) (Text.code y)),
           (N.eqb_spec (Text.code y) (Text.code x)); cbn; try lia; try done.
  apply IH.
Qed.

Lemma chars_lt_trans (a b c : list ascii) :
  Text.chars_lt a b = true → Text.chars_lt b c = true →
  Text.chars_lt a c = true.
Proof.
  revert b c. induction a as [| x a IH]; intros [| y b] [| z c]; cbn;
    try done.
  destruct (N.ltb_spec (Text.code x) (Text.code y)),
           (N.ltb_spec (Text.code y) (Text.code z)),
           (N.ltb_spec (Text.code x) (Text.code z)),
           (N.eqb_spec (Text.code x) (Text.code y)),
           (N.eqb_spec (Text.code y) (Text.code z)),
           (N.eqb_spec (Text.code x) (Text.code z)); cbn; try lia; try done.
  apply IH.
Qed.

(** X11: [sort_tasks_by_priority] stores a permutation of the tasks in
    which no completed task stands before a pending one and, among tasks
    of the same state, none of higher rank (high 0, medium and everything
    else 1, low 2) stands behind one of lower rank; tasks with the same
    state and rank keep their order; the list is saved. *)
Theorem sort_tasks_by_priority_orders (self : TaskManager) (w : World) :
  let r := sort_tasks_by_priority self w in
  tasks r.1 ≡ₚ tasks self
  ∧ (∀ (i j : nat) (a b : Task),
       (i < j)%nat → tasks r.1 !! i = Some a → tasks r.1 !! j = Some b →
       (is_completed a = true → is_completed b = true)
       ∧ (is_completed a = is_completed b →
          priority_order (default "medium"%string (priority a))
          ≤ priority_order (default "medium"%string (priority b))))
  ∧ (∀ key : bool * Z,
       List.filter (fun t => bool_decide (priority_key t = key)) (tasks r.1)
       = List.filter (fun t => bool_decide (priority_key t = key)) (tasks self))
  ∧ data_file r.1 = data_file self
  ∧ r.2 = _save_tasks r.1 w.
Proof.
  unfold sort_tasks_by_priority. cbn [fst snd set_tasks tasks data_file].
  set (lt := fun a b => priority_key_lt (priority_key a) (priority_key b)).
  assert (Hasym : ∀ a b, lt a b = true → lt b a = false)
    by (intros a b; apply priority_key_lt_asym).
  assert (Htrans : ∀ a b c, lt a b = true → lt b c = true → lt a c = true)
    by (intros a b c; apply priority_key_lt_trans).
  split; [apply py_sort_perm |]. split; [| split; [| done]].
  - intros i j a b Hij Ha Hb.
    pose proof (ascending_lookup lt _ i j a b
                  (py_sort_ascending lt Hasym Htrans _) Hij Ha Hb) as Hba.
    unfold lt, priority_key_lt, priority_key in Hba. cbn [fst snd] in Hba.
    destruct (is_completed a), (is_completed b); cbn in Hba;
      rewrite ?Z.ltb_ge in Hba; split; intros; try done; lia.
  - intros key. apply (py_sort_stable lt Hasym Htrans).
    intros x z y Hx Hz. apply bool_decide_eq_true in Hx, Hz.
    unfold lt. by rewrite Hx, Hz.
Qed.

Lemma isoformat_nonempty (d : datetime) : isoformat d ≠ EmptyString.
Proof.
  unfold isoformat. destruct (ord2ymd (date d)) as [[y m] dd].
  intros H. apply (f_equal Text.chars) in H.
  rewrite JsonFacts.chars_text in H. apply (f_equal length) in H.
  rewrite !length_app in H. cbn in H. lia.
Qed.

(** X12: [sort_tasks_by_date] stores a permutation of the tasks in which
    the time stamps [created_at], compared as strings, never increase;
    tasks without a time stamp come last; tasks with the same time stamp
    keep their order; the list is saved. *)
Theorem sort_tasks_by_date_orders (self : TaskManager) (w : World) :
  let r := sort_tasks_by_date self w in
  tasks r.1 ≡ₚ tasks self
  ∧ (∀ (i j : nat) (a b : Task),
       (i < j)%nat → tasks r.1 !! i = Some a → tasks r.1 !! j = Some b →
       Text.str_lt (date_key a) (date_key b) = false
       ∧ (created_at a = None → created_at b = None))
  ∧ (∀ key : string,
       List.filter (fun t => bool_decide (date_key t = key)) (tasks r.1)
       = List.filter (fun t => bool_decide (date_key t = key)) (tasks self))
  ∧ data_file r.1 = data_file self
  ∧ r.2 = _save_tasks r.1 w.
Proof.
  unfold sort_tasks_by_date. cbn [fst snd set_tasks tasks data_file].
  set (lt := fun a b => Text.str_lt (date_key b) (date_key a)).
  assert (Hasym : ∀ a b, lt a b = true → lt b a = false)
    by (intros a b; apply chars_lt_asym).
  assert (Htrans : ∀ a b c, lt a b = true → lt b c = true → lt a c = true)
    by (intros a b c H1 H2; exact (chars_lt_trans _ _ _ H2 H1)).
  split; [apply py_sort_perm |]. split; [| split; [| done]].
  - intros i j a b Hij Ha Hb.
    pose proof (ascending_lookup lt _ i j a b
                  (py_sort_ascending lt Hasym Htrans _) Hij Ha Hb) as Hba.
    unfold lt in Hba. split; [exact Hba |].
    intros Hnone. unfold date_key in Hba. rewrite Hnone in Hba.
    destruct (created_at b) as [d |]; [| reflexivity].
    exfalso. pose proof (isoformat_nonempty d) as Hd.
    unfold Text.str_lt in Hba. destruct (isoformat d); [done | discriminate].
  - intros key. apply (py_sort_stable lt Hasym Htrans).
    intros x z y Hx Hz. apply bool_decide_eq_true in Hx, Hz.
    unfold lt. by rewrite Hx, Hz.
Qed.

(** Pending before completed, high before medium before low, the order
    of the list among equals. *)
Example sort_tasks_by_priority_sample :
  let task := fun n p done =>
    mk_task 1 n p (Some done) None None (Some 0) in
  map name
    (tasks (sort_tasks_by_priority
              (mk_task_manager "data/tasks.json"
                 [task "a" (Some "low") false; task "b" (Some "high") true;
                  task "c" None false; task "d" (Some "high") false;
                  task "e" (Some "urgent") false; task "f" (Some "low") false]%string)
              (mk_world ∅ ∅)).1)
  = ["d"; "c"; "e"; "a"; "f"; "b"]%string.
Proof. vm_compute. reflexivity. Qed.

End TaskManagerSort.

(** ** Statistics engine: the other methods *)

Module DictFacts.

Section dict.
Context {K V : Type} `{EqDecision K}.
Implicit Types (d : list (K * V)) (k : K) (v : V).

Lemma dict_get_put_eq k v d : dict_get k (dict_put k v d) = Some v.
Proof.
  induction d as [| [k' v'] d IH]; cbn.
  - by rewrite decide_True.
  - destruct (decide (k' = k)) as [-> | Hne]; cbn.
    + by rewrite decide_True.
    + by rewrite decide_False.
Qed.

Lemma dict_get_put_ne k k' v d :
  k ≠ k' → dict_get k' (dict_put k v d) = dict_get k' d.
Proof.
  intros Hne. induction d as [| [k0 v0] d IH]; cbn.
  - by rewrite decide_False.
  - destruct (decide (k0 = k)) as [-> | Hk0]; cbn.
    + by rewrite !decide_False.
    + destruct (decide (k0 = k')); [reflexivity | exact IH].
Qed.

Lemma dict_get_None k d : dict_get k d = None ↔ k ∉ map fst d.
Proof.
  induction d as [| [k' v'] d IH]; cbn.
  - split; [intros _; apply not_elem_of_nil | reflexivity].
  - rewrite not_elem_of_cons. destruct (decide (k' = k)) as [-> | Hne].
    + split; [discriminate | intros [? _]; congruence].
    + rewrite IH. split; [intros ?; split; congruence | tauto].
Qed.

Lemma dict_put_keys k v d :
  map fst (dict_put k v d)
  = match dict_get k d with
    | Some _ => map fst d
    | None => map fst d ++ [k]
    end.
Proof.
  induction d as [| [k' v'] d IH]; cbn; [reflexivity |].
  destruct (decide (k' = k)) as [-> | Hne]; cbn; [reflexivity |].
  rewrite IH. by destruct (dict_get k d).
Qed.

Lemma dict_put_NoDup k v d :
  NoDup (map fst d) → NoDup (map fst (dict_put k v d)).
Proof.
  intros Hd. rewrite dict_put_keys.
  destruct (dict_get k d) eqn:Hk; [exact Hd |].
  apply dict_get_None in Hk. apply NoDup_app. split; [exact Hd |].
  split; [| apply NoDup_singleton].
  intros x Hx Hx'. apply list_elem_of_singleton in Hx'. by subst.
Qed.

Lemma dict_get_elem_of k v d : dict_get k d = Some v → (k, v) ∈ d.
Proof.
  induction d as [| [k' v'] d IH]; cbn; [discriminate |].
  destruct (decide (k' = k)) as [-> | Hne].
  - intros [= ->]. left.
  - intros H'. right. by apply IH.
Qed.

Lemma elem_of_dict_get k v d :
  NoDup (map fst d) → (k, v) ∈ d → dict_get k d = Some v.
Proof.
  induction d as [| [k' v'] d IH]; cbn; intros Hd Hin.
  - by apply elem_of_nil in Hin.
  - apply NoDup_cons in Hd as [Hk' Hd]. apply elem_of_cons in Hin as [[= -> ->] | Hin].
    + by rewrite decide_True.
    + destruct (decide (k' = k)) as [-> | Hne]; [| by apply IH].
      exfalso. apply Hk'. apply list_elem_of_fmap. by exists (k, v).
Qed.

Lemma dict_put_sum (g : V → Z) k v d :
  py_sum (map (fun e => g e.2) (dict_put k v d))
  = py_sum (map (fun e => g e.2) d) + g v
    - match dict_get k d with
      | Some v0 => g v0
      | None => 0
      end.
Proof.
  induction d as [| [k' v'] d IH]; cbn [dict_put dict_get map].
  - rewrite StatsFacts.py_sum_cons. cbn. lia.
  - destruct (decide (k' = k)) as [-> | Hne]; cbn [map];
      rewrite !StatsFacts.py_sum_cons; cbn [snd]; [lia |].
    rewrite IH. lia.
Qed.

End dict.
End DictFacts.

Module StatsMore.
Import Json Os Datetime Stats DictFacts.

Lemma get_pomodoro_count_length (l : list Session) :
  get_pomodoro_count l
  = Z.of_nat (length (List.filter is_completed_pomodoro l)).
Proof.
  unfold get_pomodoro_count.
  induction (List.filter is_completed_pomodoro l) as [| s l' IH];
    [reflexivity |].
  cbn [map length]. rewrite StatsFacts.py_sum_cons, IH. lia.
Qed.

Lemma get_pomodoro_count_cons (s : Session) (l : list Session) :
  get_pomodoro_count (s :: l)
  = (if is_completed_pomodoro s then 1 else 0) + get_pomodoro_count l.
Proof.
  rewrite !get_pomodoro_count_length. cbn [List.filter].
  destruct (is_completed_pomodoro s); cbn [length]; lia.
Qed.

Lemma get_pomodoro_count_nonneg (l : list Session) : 0 ≤ get_pomodoro_count l.
Proof. rewrite get_pomodoro_count_length. lia. Qed.

Lemma filter_sublist_impl {A : Type} (f g : A → bool) (l : list A) :
  (∀ x, f x = true → g x = true) →
  sublist (List.filter f l) (List.filter g l).
Proof.
  intros Hfg. induction l as [| x l IH]; cbn; [constructor |].
  destruct (f x) eqn:Hf.
  - rewrite (Hfg x Hf). by constructor.
  - destruct (g x); [by constructor | exact IH].
Qed.

Lemma filter_sublist {A : Type} (f : A → bool) (l : list A) :
  sublist (List.filter f l) l.
Proof.
  induction l as [| x l IH]; cbn; [constructor |].
  destruct (f x); by constructor.
Qed.

Lemma get_pomodoro_count_sublist (l1 l2 : list Session) :
  sublist l1 l2 → get_pomodoro_count l1 ≤ get_pomodoro_count l2.
Proof.
  induction 1 as [| s l1 l2 _ IH | s l1 l2 _ IH].
  - lia.
  - rewrite !get_pomodoro_count_cons. lia.
  - rewrite get_pomodoro_count_cons.
    destruct (is_completed_pomodoro s); lia.
Qed.

Lemma weekday_bounds (d : Z) : 0 ≤ weekday d < 7.
Proof. unfold weekday. apply Z.mod_pos_bound. lia. Qed.

Lemma week_start_monday (today : Z) : weekday (week_start today) = 0.
Proof.
  unfold week_start, weekday.
  pose proof (Z.div_mod (today + 6) 7 ltac:(lia)) as Hdm.
  replace (today - (today + 6) mod 7 + 6) with ((today + 6) / 7 * 7) by lia.
  apply Z.mod_mul. lia.
Qed.

(** X13: the week of [get_week_sessions] starts on the Monday on or before
    today; it holds every stored session dated on or after that Monday,
    also those dated after today; today's sessions are among them, in
    their order; so the pomodoro count of today is at most that of the
    week, which is at most that of the whole log. *)
Theorem week_contains_today (today : Z) (self : Stats) :
  weekday (week_start today) = 0
  ∧ week_start today ≤ today < week_start today + 7
  ∧ sublist (get_today_sessions today self) (get_week_sessions today self)
  ∧ sublist (get_week_sessions today self) (sessions self)
  ∧ 0 ≤ get_pomodoro_count (get_today_sessions today self)
  ∧ get_pomodoro_count (get_today_sessions today self)
    ≤ get_pomodoro_count (get_week_sessions today self)
  ∧ get_pomodoro_count (get_week_sessions today self)
    ≤ get_pomodoro_count (sessions self)
  ∧ ∀ s : Session,
      s ∈ get_week_sessions today self ↔
      s ∈ sessions self ∧ week_start today ≤ session_date s.
Proof.
  pose proof (weekday_bounds today) as Hwd.
  assert (Hsub1 : sublist (get_today_sessions today self)
                          (get_week_sessions today self)).
  { apply filter_sublist_impl. intros s Hs. apply Z.eqb_eq in Hs.
    apply Z.leb_le. unfold week_start. lia. }
  assert (Hsub2 : sublist (get_week_sessions today self) (sessions self))
    by apply filter_sublist.
  split; [apply week_start_monday |].
  split; [unfold week_start; lia |].
  split; [exact Hsub1 |]. split; [exact Hsub2 |].
  split; [apply get_pomodoro_count_nonneg |].
  split; [by apply get_pomodoro_count_sublist |].
  split; [by apply get_pomodoro_count_sublist |].
  intros s. unfold get_week_sessions.
  by rewrite list_elem_of_In, filter_In, <- list_elem_of_In, Z.leb_le.
Qed.

(** The completed pomodoros of the day [day]. *)
Lemma count_on_cons (day : Z) (s : Session) (l : list Session) :
  get_pomodoro_count (List.filter (fun s => session_date s =? day) (s :: l))
  = (if is_completed_pomodoro s && (session_date s =? day) then 1 else 0)
    + get_pomodoro_count (List.filter (fun s => session_date s =? day) l).
Proof.
  cbn [List.filter]. destruct (session_date s =? day).
  - rewrite get_pomodoro_count_cons. by rewrite andb_true_r.
  - rewrite andb_false_r. lia.
Qed.

Lemma daily_counts_acc (l : list Session) (acc : list (Z * Z)) (day : Z) :
  dict_get day
    (fold_left
       (fun counts s =>
          if is_completed_pomodoro s
          then dict_update 0 (fun n => n + 1) (session_date s) counts
          else counts) l acc)
  = let n := get_pomodoro_count
               (List.filter (fun s => session_date s =? day) l) in
    match dict_get day acc with
    | Some a => Some (a + n)
    | None => if 0 <? n then Some n else None
    end.
Proof.
  revert acc. induction l as [| s l IH]; intros acc.
  - cbn. destruct (dict_get day acc); [f_equal; lia | reflexivity].
  - cbn [fold_left]. rewrite IH. cbv zeta. rewrite count_on_cons.
    pose proof (get_pomodoro_count_nonneg
                  (List.filter (fun s => session_date s =? day) l)) as Hn.
    set (n := get_pomodoro_count _) in *.
    destruct (is_completed_pomodoro s); cbn [andb].
    + unfold dict_update. destruct (Z.eqb_spec (session_date s) day) as [-> | Hne].
      * rewrite dict_get_put_eq.
        destruct (dict_get day acc) as [a |]; cbn [default].
        -- unfold id. f_equal. lia.
        -- assert ((0 <? 1 + n) = true) as -> by (apply Z.ltb_lt; lia).
           reflexivity.
      * rewrite dict_get_put_ne by exact Hne. reflexivity.
    + reflexivity.
Qed.

Lemma daily_counts_get (l : list Session) (day : Z) :
  dict_get day (daily_counts l)
  = let n := get_pomodoro_count
               (List.filter (fun s => session_date s =? day) l) in
    if 0 <? n then Some n else None.
Proof. unfold daily_counts. by rewrite daily_counts_acc. Qed.

Lemma daily_counts_NoDup (l : list Session) :
  NoDup (map fst (daily_counts l)).
Proof.
  unfold daily_counts.
  assert (H : ∀ acc : list (Z * Z), NoDup (map fst acc) →
    NoDup (map fst (fold_left
       (fun counts s =>
          if is_completed_pomodoro s
          then dict_update 0 (fun n => n + 1) (session_date s) counts
          else counts) l acc))).
  { induction l as [| s l IH]; intros acc Hacc; cbn [fold_left]; [exact Hacc |].
    apply IH. destruct (is_completed_pomodoro s); [| exact Hacc].
    by apply dict_put_NoDup. }
  apply H. constructor.
Qed.

Lemma max_by_value_spec (best : Z * Z) (rest : list (Z * Z)) :
  max_by_value best rest ∈ best :: rest
  ∧ ∀ e, e ∈ best :: rest → e.2 ≤ (max_by_value best rest).2.
Proof.
  revert best. induction rest as [| [k n] rest IH]; intros best; cbn.
  - split; [left |]. intros e He. apply list_elem_of_singleton in He. by subst.
  - destruct (Z.ltb_spec best.2 n) as [Hlt | Hge].
    + destruct (IH (k, n)) as [Hin Hmax]. split.
      * right. exact Hin.
      * intros e He. apply elem_of_cons in He as [-> | He]; [| by apply Hmax].
        specialize (Hmax (k, n) ltac:(left)). cbn in Hmax. lia.
    + destruct (IH best) as [Hin Hmax]. split.
      * apply elem_of_cons in Hin as [-> | Hin]; [left | right; by right].
      * intros e He. apply elem_of_cons in He as [-> | He];
          [apply Hmax; left |].
        apply elem_of_cons in He as [-> | He]; [| apply Hmax; by right].
        specialize (Hmax best ltac:(left)). cbn. lia.
Qed.

(** X14: [get_best_day] returns [None] exactly when the log holds no
    completed pomodoro; otherwise it returns a date together with the
    number of completed pomodoros of that date, which is positive and at
    least the number of every other date. *)
Theorem get_best_day_is_maximal (self : Stats) :
  let on day :=
    get_pomodoro_count
      (List.filter (fun s => session_date s =? day) (sessions self)) in
  match get_best_day self with
  | Some best =>
      best_pomodoros best = on (best_date best)
      ∧ 0 < best_pomodoros best
      ∧ ∀ day : Z, on day ≤ best_pomodoros best
  | None => get_pomodoro_count (sessions self) = 0 ∧ ∀ day : Z, on day = 0
  end.
Proof.
  intros on.
  assert (Hget : ∀ day, dict_get day (daily_counts (sessions self))
                        = if 0 <? on day then Some (on day) else None)
    by (intros day; apply daily_counts_get).
  assert (Hnonneg : ∀ day, 0 ≤ on day)
    by (intros day; apply get_pomodoro_count_nonneg).
  assert (Hnone : daily_counts (sessions self) = [] →
                  get_pomodoro_count (sessions self) = 0 ∧ ∀ day, on day = 0).
  { intros Hempty.
    assert (Hzero : ∀ day, on day = 0).
    { intros day. specialize (Hget day). rewrite Hempty in Hget. cbn in Hget.
      destruct (Z.ltb_spec 0 (on day)); [discriminate |].
      specialize (Hnonneg day). lia. }
    split; [| exact Hzero].
    rewrite get_pomodoro_count_length.
    destruct (List.filter is_completed_pomodoro (sessions self))
      as [| s l] eqn:Hf; [reflexivity |].
    exfalso. assert (Hs : s ∈ List.filter is_completed_pomodoro (sessions self))
      by (rewrite Hf; left).
    rewrite list_elem_of_In, filter_In, <- list_elem_of_In in Hs.
    destruct Hs as [Hin Hcp].
    specialize (Hzero (session_date s)). unfold on in Hzero.
    rewrite get_pomodoro_count_length in Hzero.
    assert (Hs' : s ∈ List.filter is_completed_pomodoro
                    (List.filter (fun s0 => session_date s0 =? session_date s)
                                 (sessions self))).
    { rewrite list_elem_of_In, filter_In, filter_In, <- list_elem_of_In.
      by rewrite Z.eqb_refl. }
    destruct (List.filter is_completed_pomodoro _); [| cbn in Hzero; lia].
    by apply elem_of_nil in Hs'. }
  unfold get_best_day. destruct (sessions self) as [| s0 l0] eqn:Hs.
  - split; [reflexivity |]. intros day. reflexivity.
  - rewrite <- Hs in *. cbv zeta.
    destruct (daily_counts (sessions self)) as [| first rest] eqn:Hc;
      [by apply Hnone |].
    destruct (max_by_value_spec first rest) as [Hin Hmax].
    destruct (max_by_value first rest) as [k n] eqn:Hm.
    cbn [best_date best_pomodoros fst snd] in *.
    assert (Hk : dict_get k (first :: rest) = Some n).
    { apply elem_of_dict_get; [| exact Hin]. rewrite <- Hc.
      apply daily_counts_NoDup. }
    rewrite Hk. cbn [default]. unfold id.
    pose proof (Hget k) as Hgk. rewrite Hk in Hgk.
    destruct (Z.ltb_spec 0 (on k)); [| discriminate]. injection Hgk as ->.
    split; [reflexivity |]. split; [assumption |].
    intros day. pose proof (Hget day) as Hgd.
    destruct (Z.ltb_spec 0 (on day)) as [Hpos | Hle]; [| lia].
    apply dict_get_elem_of in Hgd. exact (Hmax _ Hgd).
Qed.

Lemma get_task_stats_acc (l : list Session) (acc : list (string * TaskFocus))
    (key : string) :
  dict_get key
    (fold_left
       (fun task_stats s =>
          if is_completed_pomodoro s then
            let key := task_name s in
            let task_stats :=
              dict_update (mk_task_focus 0 0)
                (fun e => mk_task_focus (focus_count e + 1) (focus_time e))
                key task_stats in
            dict_update (mk_task_focus 0 0)
              (fun e => mk_task_focus (focus_count e)
                          (focus_time e + default 0 (duration s)))
              key task_stats
          else task_stats) l acc)
  = let mine :=
      List.filter
        (fun s => is_completed_pomodoro s && bool_decide (task_name s = key))
        l in
    let n := Z.of_nat (length mine) in
    let t := py_sum (map (fun s => default 0 (duration s)) mine) in
    match dict_get key acc with
    | Some e => Some (mk_task_focus (focus_count e + n) (focus_time e + t))
    | None => if 0 <? n then Some (mk_task_focus n t) else None
    end.
Proof.
  revert acc. induction l as [| s l IH]; intros acc.
  - cbn. destruct (dict_get key acc) as [[c t] |]; [| reflexivity].
    cbn. do 2 f_equal; lia.
  - cbn [fold_left]. rewrite IH. cbv zeta. cbn [List.filter].
    set (mine := List.filter _ l).
    destruct (is_completed_pomodoro s); cbn [andb]; [| reflexivity].
    unfold dict_update.
    destruct (decide (task_name s = key)) as [-> | Hne].
    + rewrite bool_decide_eq_true_2 by reflexivity.
      rewrite !dict_get_put_eq. cbn [map length].
      rewrite StatsFacts.py_sum_cons.
      destruct (dict_get key acc) as [[c t] |]; cbn -[py_sum Z.of_nat].
      * do 2 f_equal; lia.
      * assert ((0 <? Z.of_nat (S (length mine))) = true) as ->
          by (apply Z.ltb_lt; lia).
        do 2 f_equal; lia.
    + rewrite bool_decide_eq_false_2 by exact Hne.
      by rewrite !dict_get_put_ne.
Qed.

Lemma get_task_stats_sums (l : list Session) (acc : list (string * TaskFocus)) :
  let result :=
    fold_left
       (fun task_stats s =>
          if is_completed_pomodoro s then
            let key := task_name s in
            let task_stats :=
              dict_update (mk_task_focus 0 0)
                (fun e => mk_task_focus (focus_count e + 1) (focus_time e))
                key task_stats in
            dict_update (mk_task_focus 0 0)
              (fun e => mk_task_focus (focus_count e)
                          (focus_time e + default 0 (duration s)))
              key task_stats
          else task_stats) l acc in
  py_sum (map (fun e => focus_count e.2) result)
  = py_sum (map (fun e => focus_count e.2) acc) + get_pomodoro_count l
  ∧ py_sum (map (fun e => focus_time e.2) result)
    = py_sum (map (fun e => focus_time e.2) acc)
      + py_sum (map (fun s => default 0 (duration s))
                    (List.filter is_completed_pomodoro l)).
Proof.
  revert acc. induction l as [| s l IH]; intros acc; cbv zeta.
  - cbn. unfold get_pomodoro_count, py_sum. cbn. lia.
  - cbn [fold_left]. destruct (IH
      (if is_completed_pomodoro s then
         dict_update (mk_task_focus 0 0)
           (fun e => mk_task_focus (focus_count e)
                       (focus_time e + default 0 (duration s)))
           (task_name s)
           (dict_update (mk_task_focus 0 0)
              (fun e => mk_task_focus (focus_count e + 1) (focus_time e))
              (task_name s) acc)
       else acc)) as [Hc Ht].
    cbv zeta in Hc, Ht. rewrite Hc, Ht. clear Hc Ht IH.
    rewrite get_pomodoro_count_cons. cbn [List.filter].
    destruct (is_completed_pomodoro s); [| split; lia].
    cbn [map]. rewrite StatsFacts.py_sum_cons.
    unfold dict_update.
    rewrite !(dict_put_sum focus_count), !(dict_put_sum focus_time).
    rewrite !dict_get_put_eq.
    destruct (dict_get (task_name s) acc) as [[c t] |];
      cbn -[py_sum]; split; lia.
Qed.

(** X15: the dictionary of [Stats.get_task_stats] has an entry for a task
    name exactly when a completed pomodoro carries it ('General work'
    when the record has no task); the entry holds the number of these
    pomodoros and the sum of their durations.  The counts of all entries
    add up to [get_pomodoro_count] of the log, the times to the seconds
    that [get_total_focus_time] formats. *)
Theorem get_task_stats_per_task (self : Stats) :
  (∀ key : string,
     let mine :=
       List.filter
         (fun s => is_completed_pomodoro s && bool_decide (task_name s = key))
         (sessions self) in
     match dict_get key (get_task_stats self) with
     | Some e =>
         focus_count e = Z.of_nat (length mine)
         ∧ focus_time e = py_sum (map (fun s => default 0 (duration s)) mine)
         ∧ 0 < focus_count e
     | None => mine = []
     end)
  ∧ py_sum (map (fun e => focus_count e.2) (get_task_stats self))
    = get_pomodoro_count (sessions self)
  ∧ py_sum (map (fun e => focus_time e.2) (get_task_stats self))
    = Spec.focus_seconds (sessions self).
Proof.
  split; [| split].
  - intros key mine. unfold get_task_stats. rewrite get_task_stats_acc.
    cbv zeta. cbn [dict_get]. fold mine.
    destruct (Z.ltb_spec 0 (Z.of_nat (length mine))) as [Hpos | Hle].
    + cbn. auto.
    + apply length_zero_iff_nil. lia.
  - unfold get_task_stats.
    destruct (get_task_stats_sums (sessions self) []) as [Hc _].
    cbv zeta in Hc. rewrite Hc. reflexivity.
  - unfold get_task_stats.
    destruct (get_task_stats_sums (sessions self) []) as [_ Ht].
    cbv zeta in Ht. rewrite Ht. cbn [map].
    rewrite <- StatsFacts.focus_seconds_filter. reflexivity.
Qed.

Lemma weekday_add (start i : Z) :
  weekday start = 0 → 0 ≤ i < 7 → weekday (start + i) = i.
Proof.
  unfold weekday. intros H0 Hi.
  pose proof (Z.div_mod (start + 6) 7 ltac:(lia)) as Hdm.
  replace (start + i + 6) with (i + (start + 6) / 7 * 7) by lia.
  rewrite Z.mod_add by lia. apply Z.mod_small. lia.
Qed.

Lemma day_name_known (d : Z) :
  day_name d
  ∈ ["Monday"; "Tuesday"; "Wednesday"; "Thursday"; "Friday"; "Saturday";
     "Sunday"]%string.
Proof.
  unfold day_name. pose proof (weekday_bounds d) as Hwd.
  assert (Hn : (Z.to_nat (weekday d) < 7)%nat) by lia.
  destruct (Z.to_nat (weekday d)) as [| [| [| [| [| [| [| n]]]]]]];
    cbn [nth]; try lia; rewrite !elem_of_cons; tauto.
Qed.

Lemma weekly_chart_start (today : Z) :
  fold_left (fun data i => dict_put (day_name (week_start today + i)) 0 data)
            [0; 1; 2; 3; 4; 5; 6] ([] : list (string * Z))
  = [("Monday", 0); ("Tuesday", 0); ("Wednesday", 0); ("Thursday", 0);
     ("Friday", 0); ("Saturday", 0); ("Sunday", 0)]%string.
Proof.
  cbn [fold_left]. unfold day_name.
  rewrite !weekday_add by (apply week_start_monday || lia).
  reflexivity.
Qed.

Lemma dict_put_sum_snd (k : string) (v : Z) (d : list (string * Z)) :
  py_sum (map snd (dict_put k v d))
  = py_sum (map snd d) + v - default 0 (dict_get k d).
Proof.
  rewrite (dict_put_sum (fun n => n) k v d).
  by destruct (dict_get k d).
Qed.

Lemma weekly_chart_loop (start : Z) (l : list Session)
    (acc : list (string * Z)) :
  let counted s :=
    is_completed_pomodoro s && (start <=? session_date s) in
  let result :=
    fold_left
      (fun data s =>
         if is_completed_pomodoro s then
           if start <=? session_date s then
             let key := day_name (session_date s) in
             match dict_get key data with
             | Some n => dict_put key (n + 1) data
             | None => data
             end
           else data
         else data) l acc in
  map fst result = map fst acc
  ∧ (∀ key : string,
       dict_get key result
       = (fun n => n + Z.of_nat (length (List.filter
              (fun s => counted s && bool_decide (day_name (session_date s) = key))
              l))) <$> dict_get key acc)
  ∧ ((∀ d : Z, is_Some (dict_get (day_name d) acc)) →
     py_sum (map snd result)
     = py_sum (map snd acc) + Z.of_nat (length (List.filter counted l))).
Proof.
  cbv zeta. revert acc. induction l as [| s l IH]; intros acc.
  - cbn [fold_left List.filter length]. split; [reflexivity |]. split.
    + intros key. destruct (dict_get key acc); cbn; [f_equal; lia | done].
    + intros _. cbn. lia.
  - cbn [fold_left List.filter].
    destruct (is_completed_pomodoro s); cbn [andb]; [| apply IH].
    destruct (start <=? session_date s); cbn [andb]; [| apply IH].
    destruct (dict_get (day_name (session_date s)) acc) as [n |] eqn:Hn.
    + destruct (IH (dict_put (day_name (session_date s)) (n + 1) acc))
        as (Hkeys & Hget & Hsum).
      split; [| split].
      * rewrite Hkeys, dict_put_keys. by rewrite Hn.
      * intros key. rewrite Hget.
        destruct (decide (day_name (session_date s) = key)) as [<- | Hne].
        -- rewrite bool_decide_eq_true_2 by reflexivity.
           rewrite dict_get_put_eq, Hn. cbn [fmap option_fmap option_map length].
           f_equal. lia.
        -- rewrite bool_decide_eq_false_2 by exact Hne.
           by rewrite dict_get_put_ne.
      * intros Hall. rewrite Hsum.
        -- rewrite dict_put_sum_snd, Hn. cbn [length default]. unfold id. lia.
        -- intros d.
           destruct (decide (day_name (session_date s) = day_name d))
             as [-> | Hne].
           ++ rewrite dict_get_put_eq. eauto.
           ++ rewrite dict_get_put_ne by exact Hne. apply Hall.
    + destruct (IH acc) as (Hkeys & Hget & Hsum).
      split; [exact Hkeys |]. split.
      * intros key. rewrite Hget.
        destruct (decide (day_name (session_date s) = key)) as [<- | Hne].
        -- by rewrite Hn.
        -- by rewrite bool_decide_eq_false_2 by exact Hne.
      * intros Hall. destruct (Hall (session_date s)) as [n' Hn'].
        congruence.
Qed.

(** X16: [get_weekly_chart] returns one entry for each day of the week,
    Monday to Sunday in this order; the entry of a day counts the
    completed pomodoros dated on or after this week's Monday that fall on
    that day of the week; the seven counts add up to the pomodoro count
    of [get_week_sessions]. *)
Theorem get_weekly_chart_totals (today : Z) (self : Stats) :
  map fst (get_weekly_chart today self)
  = ["Monday"; "Tuesday"; "Wednesday"; "Thursday"; "Friday"; "Saturday";
     "Sunday"]%string
  ∧ py_sum (map snd (get_weekly_chart today self))
    = get_pomodoro_count (get_week_sessions today self)
  ∧ ∀ (key : string) (n : Z),
      (key, n) ∈ get_weekly_chart today self →
      n = Z.of_nat (length (List.filter
            (fun s => is_completed_pomodoro s
                      && (week_start today <=? session_date s)
                      && bool_decide (day_name (session_date s) = key))
            (sessions self))).
Proof.
  unfold get_weekly_chart. cbv zeta. rewrite weekly_chart_start.
  destruct (weekly_chart_loop (week_start today) (sessions self)
    [("Monday", 0); ("Tuesday", 0); ("Wednesday", 0); ("Thursday", 0);
     ("Friday", 0); ("Saturday", 0); ("Sunday", 0)]%string)
    as (Hkeys & Hget & Hsum).
  cbv beta zeta in Hkeys, Hget, Hsum.
  split; [exact Hkeys |]. split.
  - rewrite Hsum.
    + rewrite get_pomodoro_count_length. unfold get_week_sessions.
      change (py_sum (map snd _)) with 0 at 1.
      f_equal. clear. induction (sessions self) as [| s l IH]; [reflexivity |].
      cbn [List.filter].
      destruct (is_completed_pomodoro s) eqn:Hc,
               (week_start today <=? session_date s) eqn:Hw;
        cbn [andb List.filter length]; rewrite ?Hc; cbn [length]; lia.
    + intros d. pose proof (day_name_known d) as Hd.
      rewrite !elem_of_cons in Hd. rewrite elem_of_nil in Hd.
      destruct Hd as [-> | [-> | [-> | [-> | [-> | [-> | [-> | []]]]]]]];
        vm_compute; eauto.
  - intros key n Hin. apply elem_of_dict_get in Hin.
    + rewrite Hget in Hin.
      destruct (dict_get key _) as [n0 |] eqn:Hk; [| discriminate].
      cbn [fmap option_fmap option_map] in Hin. injection Hin as <-.
      assert (n0 = 0) as ->.
      { apply dict_get_elem_of in Hk. rewrite !elem_of_cons in Hk.
        rewrite elem_of_nil in Hk.
        repeat (destruct Hk as [Hk | Hk]; [by injection Hk |]). done. }
      lia.
    + rewrite Hkeys. apply (bool_decide_unpack _). by vm_compute.
Qed.

(** X17: on a log none of whose completed pomodoros is dated after today,
    [get_streak] returns the number of consecutive days, counted backward
    from today, that carry a completed pomodoro: the days today, ...,
    today - (k - 1) do, the day today - k does not, and no other number
    has this property. *)
Theorem get_streak_counts_back_from_today (today : Z) (self : Stats) :
  (∀ s, s ∈ sessions self → Spec.completed_pomodoro s →
        session_date s ≤ today) →
  0 ≤ get_streak today self
  ∧ (∀ i, 0 ≤ i < get_streak today self →
          Spec.pomodoro_on (sessions self) (today - i))
  ∧ ¬ Spec.pomodoro_on (sessions self) (today - get_streak today self)
  ∧ ∀ k, Spec.is_streak (sessions self) today k → get_streak today self = k.
Proof.
  intros Hpast. pose proof (StatsFacts.get_streak_spec today self Hpast) as Hk.
  destruct Hk as (H0 & Hin & Hout).
  split; [exact H0 |]. split; [exact Hin |]. split; [exact Hout |].
  intros k Hk. eapply StatsFacts.is_streak_unique; [| exact Hk].
  by repeat split.
Qed.

Lemma get_streak_counts_back_from_today_witness :
  let pom day :=
    mk_session (Some "pomodoro"%string) (Some "General work"%string)
      (Some 1500) (Some true) (mk_datetime day 9 0 0 0) in
  let self := mk_stats "data/sessions.json" [pom 738887; pom 738889; pom 738890] in
  0 ≤ get_streak 738890 self
  ∧ (∀ i, 0 ≤ i < get_streak 738890 self →
          Spec.pomodoro_on (sessions self) (738890 - i))
  ∧ ¬ Spec.pomodoro_on (sessions self) (738890 - get_streak 738890 self).
Proof.
  intros pom self.
  destruct (get_streak_counts_back_from_today 738890 self)
    as (H0 & Hin & Hout & _).
  - intros s Hs _. unfold self in Hs. cbn [sessions] in Hs.
    repeat (apply elem_of_cons in Hs as [-> | Hs]; [vm_compute; discriminate |]).
    by apply elem_of_nil in Hs.
  - split; [exact H0 |]. split; [exact Hin | exact Hout].
Defined.

(** The day that reaches the greatest count first in the log wins a tie. *)
Example get_best_day_tie :
  let pom day :=
    mk_session (Some "pomodoro"%string) None (Some 1500) (Some true)
      (mk_datetime day 9 0 0 0) in
  get_best_day
    (mk_stats "data/sessions.json"
       [pom 738890; pom 738889; pom 738889; pom 738890])
  = Some (mk_best_day 738890 2).
Proof. vm_compute. reflexivity. Qed.

(** X30: the task breakdown of [display_stats] shows five entries of
    [Stats.get_task_stats], or all of them when there are fewer; their
    counts never increase from one line to the next, and no entry that is
    left out has a greater count than one that is shown. *)
Theorem top_tasks_are_the_greatest (self : Stats) :
  length (top_tasks self) = (length (get_task_stats self) `min` 5)%nat
  ∧ (∀ (i j : nat) (a b : string * TaskFocus),
       (i < j)%nat → top_tasks self !! i = Some a →
       top_tasks self !! j = Some b →
       focus_count b.2 ≤ focus_count a.2)
  ∧ ∃ others : list (string * TaskFocus),
      top_tasks self ++ others ≡ₚ get_task_stats self
      ∧ ∀ a b, a ∈ top_tasks self → b ∈ others →
               focus_count b.2 ≤ focus_count a.2.
Proof.
  unfold top_tasks.
  set (lt := fun a b : string * TaskFocus =>
               focus_count b.2 <? focus_count a.2).
  set (sorted := py_sort lt (get_task_stats self)).
  assert (Hperm : sorted ≡ₚ get_task_stats self)
    by apply SortFacts.py_sort_perm.
  assert (Hasc : ascending lt sorted).
  { apply SortFacts.py_sort_ascending; unfold lt.
    - intros a b. rewrite Z.ltb_lt, Z.ltb_ge. lia.
    - intros a b c. rewrite !Z.ltb_lt. lia. }
  assert (Hle : ∀ i j a b, (i < j)%nat → sorted !! i = Some a →
                  sorted !! j = Some b → focus_count b.2 ≤ focus_count a.2).
  { intros i j a b Hij Ha Hb.
    pose proof (SortFacts.ascending_lookup lt sorted i j a b Hasc Hij Ha Hb)
      as Hba.
    unfold lt in Hba. by apply Z.ltb_ge in Hba. }
  split; [| split].
  - rewrite length_take, (Permutation_length Hperm). lia.
  - intros i j a b Hij Ha Hb.
    apply lookup_take_Some in Ha as [Ha _]. apply lookup_take_Some in Hb as [Hb _].
    by apply (Hle i j).
  - exists (drop 5 sorted). split; [by rewrite take_drop |].
    intros a b Ha Hb.
    apply list_elem_of_lookup in Ha as [i Ha].
    apply list_elem_of_lookup in Hb as [j Hb].
    apply lookup_take_Some in Ha as [Ha Hi]. rewrite lookup_drop in Hb.
    apply (Hle i (5 + j)%nat); [lia | exact Ha | exact Hb].
Qed.

End StatsMore.

(** ** Timer: invariants and complete runs *)

Module TimerMore.
Import Os Datetime Timer TimerFacts.

(** The decimal digit [n]. *)
Lemma padded_two_digits (n : Z) :
  0 ≤ n < 100 →
  padded 2 n
  = [ascii_of_nat (48 + Z.to_nat (n / 10));
     ascii_of_nat (48 + Z.to_nat (n mod 10))].
Proof.
  intros Hn.
  assert (H : Forall (fun n => padded 2 n
                = [ascii_of_nat (48 + Z.to_nat (n / 10));
                   ascii_of_nat (48 + Z.to_nat (n mod 10))]) (seqZ 0 100))
    by (apply (bool_decide_unpack _); vm_compute; exact I).
  rewrite Forall_forall in H. apply H. apply elem_of_seqZ. lia.
Qed.

(** X18: for [0 <= seconds < 6000], [format_time(seconds)] is the
    five-character text MM:SS: the two decimal digits of the minutes, a
    colon, the two decimal digits of the remaining seconds. *)
Theorem format_time_minutes_seconds (seconds : Z) :
  0 ≤ seconds < 6000 →
  format_time seconds
  = Text.text
      [ascii_of_nat (48 + Z.to_nat (seconds / 600));
       ascii_of_nat (48 + Z.to_nat (seconds / 60 mod 10));
       ":"%char;
       ascii_of_nat (48 + Z.to_nat (seconds mod 60 / 10));
       ascii_of_nat (48 + Z.to_nat (seconds mod 10))].
Proof.
  intros Hs. unfold format_time, format_02d. cbv zeta.
  assert (Hm : 0 ≤ seconds / 60 < 100).
  { split; [apply Z.div_pos; lia | apply Z.div_lt_upper_bound; lia]. }
  pose proof (Z.mod_pos_bound seconds 60 ltac:(lia)) as Hsec.
  destruct (Z.ltb_spec (seconds / 60) 0); [lia |].
  destruct (Z.ltb_spec (seconds mod 60) 0); [lia |].
  rewrite !padded_two_digits by lia.
  rewrite Z.div_div by lia.
  rewrite (Z.mod_mod_divide seconds 60 10) by (exists 6; lia).
  reflexivity.
Qed.

Lemma format_time_minutes_seconds_witness :
  format_time 1500 = "25:00"%string ∧ format_time 61 = "01:01"%string.
Proof.
  split.
  - rewrite (format_time_minutes_seconds 1500) by lia. reflexivity.
  - rewrite (format_time_minutes_seconds 61) by lia. reflexivity.
Defined.

(** Beyond 99 minutes the minutes take more digits; a negative number of
    seconds gives negative minutes. *)
Example format_time_samples :
  format_time 0 = "00:00"%string ∧ format_time 5999 = "99:59"%string
  ∧ format_time 6000 = "100:00"%string ∧ format_time (-1) = "-1:59"%string.
Proof. repeat split; vm_compute; reflexivity. Qed.

(** *** What a run never touches *)

Lemma quiet_ret {A : Type} (a : A) : quiet (mret a : M A).
Proof. intros m. repeat split. Qed.

Lemma quiet_bind {A B : Type} (x : M A) (f : A → M B) :
  quiet x → (∀ a, quiet (f a)) → quiet (x ≫= f).
Proof.
  intros Hx Hf m. destruct (Hx m) as (Ht & Htm & Hw). unfold mbind, M_bind.
  destruct (x m) as [a m' | e m' | m']; cbn [machine_of] in *; auto.
  destruct (Hf a m') as (Ht' & Htm' & Hw'). repeat split; congruence.
Qed.

Lemma quiet_try {A : Type} (body handler : M A) :
  quiet body → quiet handler → quiet (try_except body handler).
Proof.
  intros Hb Hh m. destruct (Hb m) as (Ht & Htm & Hw). unfold try_except.
  destruct (body m) as [a m' | [] m' | m']; cbn [machine_of] in *; auto.
  destruct (Hh m') as (Ht' & Htm' & Hw'). repeat split; congruence.
Qed.

Lemma quiet_emit (a : action) : quiet (emit a).
Proof. intros m. repeat split. Qed.

Lemma quiet_get {A : Type} (f : PomodoroTimer → A) : quiet (get f).
Proof. intros m. repeat split. Qed.

Lemma quiet_input : quiet input.
Proof.
  intros m. unfold input. destruct (script m) as [| e rest];
    [repeat split |].
  destruct (what e); repeat split.
Qed.

Lemma quiet_input_choice : quiet input_choice.
Proof.
  unfold input_choice. apply quiet_bind; [apply quiet_input |].
  intros s. apply quiet_ret.
Qed.

Lemma quiet_countdown (d : Z) (kind : session_type) : quiet (countdown d kind).
Proof.
  unfold countdown. apply quiet_bind; [apply quiet_emit |]. intros _.
  destruct (d <=? 0); [apply quiet_ret |].
  intros m. destruct (script m) as [| e rest]; [repeat split |].
  destruct (what e); repeat split.
Qed.

Lemma quiet_py_mod (a b : Z) : quiet (py_mod a b).
Proof. intros m. unfold py_mod. destruct (b =? 0); repeat split. Qed.

Lemma quiet_start_break (break_type : string) : quiet (start_break break_type).
Proof.
  unfold start_break. apply quiet_try.
  - apply quiet_bind; [apply quiet_get |]. intros d.
    apply quiet_bind; [apply quiet_countdown |]. intros [].
    + apply quiet_bind; [apply quiet_emit |]. intros _.
      apply quiet_bind; [apply quiet_input |]. intros _. apply quiet_ret.
    + apply quiet_ret.
  - apply quiet_bind; [apply quiet_input |]. intros _. apply quiet_ret.
Qed.

(** X19: whatever signals arrive, [start_break] leaves the timer with its
    counter and its session log, the task registry and the files as they
    are; it starts one countdown, of the short break with its duration for
    'short' and of the long break with its duration for every other
    argument, and announces the end of the break at most once. *)
Theorem start_break_changes_nothing (break_type : string) (m : Machine) :
  let m' := machine_of (start_break break_type m) in
  let kind :=
    if bool_decide (break_type = "short"%string)
    then short_break else long_break in
  let duration :=
    if bool_decide (break_type = "short"%string)
    then short_break_duration (timer m) else long_break_duration (timer m) in
  timer m' = timer m
  ∧ task_manager m' = task_manager m
  ∧ world m' = world m
  ∧ (trace m' = trace m ++ [Countdown kind duration]
     ∨ trace m' = trace m ++ [Countdown kind duration; Notify "Break Over!"]).
Proof.
  cbv zeta. destruct (quiet_start_break break_type m) as (Ht & Htm & Hw).
  split; [exact Ht |]. split; [exact Htm |]. split; [exact Hw |].
  destruct m as [t tm w c sc tr]. unfold start_break. exec.
  repeat match goal with
    | |- context [if ?b then _ else _] => destruct b
    | |- context [match ?l with [] => _ | _ :: _ => _ end] =>
        destruct l as [| [? []] ?]
    end;
    exec; rewrite <- ?app_assoc; auto.
Qed.

Lemma counted_together_refl (task : option TaskManager.Task) (m : Machine) :
  counted_together task m m.
Proof.
  repeat split. exists []. rewrite app_nil_r. repeat split; [cbn; lia |].
  constructor.
Qed.

Lemma counted_together_trans (task : option TaskManager.Task)
    (m1 m2 m3 : Machine) :
  counted_together task m1 m2 → counted_together task m2 m3 →
  counted_together task m1 m3.
Proof.
  intros (Htm1 & Hset1 & Hfile1 & (new1 & Hlog1 & Hcnt1 & Hrec1) & Hw1)
         (Htm2 & Hset2 & Hfile2 & (new2 & Hlog2 & Hcnt2 & Hrec2) & Hw2).
  split; [congruence |]. split; [congruence |]. split; [congruence |].
  split.
  - exists (new1 ++ new2). split; [| split].
    + by rewrite Hlog2, Hlog1, app_assoc.
    + rewrite Hcnt2, Hcnt1, length_app. lia.
    + apply Forall_app. split; [exact Hrec1 |].
      injection Hset1 as Hd _ _ _. by rewrite <- Hd.
  - intros path Hpath. rewrite Hw2 by congruence. by apply Hw1.
Qed.

Lemma quiet_keeps {A : Type} (task : option TaskManager.Task) (x : M A) :
  quiet x → keeps task x.
Proof.
  intros Hx m. destruct (Hx m) as (Ht & Htm & Hw).
  unfold counted_together. rewrite Ht, Htm, Hw.
  apply (counted_together_refl task m).
Qed.

Lemma keeps_bind {A B : Type} (task : option TaskManager.Task)
    (x : M A) (f : A → M B) :
  keeps task x → (∀ a, keeps task (f a)) → keeps task (x ≫= f).
Proof.
  intros Hx Hf m. specialize (Hx m). unfold mbind, M_bind.
  destruct (x m) as [a m' | e m' | m']; cbn [machine_of] in *; auto.
  eapply counted_together_trans; [exact Hx | apply Hf].
Qed.

Lemma keeps_try {A : Type} (task : option TaskManager.Task)
    (body handler : M A) :
  keeps task body → keeps task handler → keeps task (try_except body handler).
Proof.
  intros Hb Hh m. specialize (Hb m). unfold try_except.
  destruct (body m) as [a m' | [] m' | m']; cbn [machine_of] in *; auto.
  eapply counted_together_trans; [exact Hb | apply Hh].
Qed.

Lemma save_other_files (data_file path : string) (doc : Json.json) (w : World) :
  path ≠ data_file →
  files (RecordStore.save data_file doc w) !! path = files w !! path.
Proof.
  intros Hne. unfold RecordStore.save, RecordStore.write_json, write_text.
  destruct (can_write _ _); cbn; [| reflexivity].
  by rewrite lookup_insert_ne.
Qed.

Lemma keeps_count_and_record (task : option TaskManager.Task) :
  keeps task (count_and_record task).
Proof.
  intros m. destruct m as [t tm w c sc tr]. unfold count_and_record. exec.
  split; [reflexivity |]. split; [reflexivity |]. split; [reflexivity |].
  split.
  - eexists. split; [reflexivity |]. split; [cbn; lia |].
    repeat constructor.
  - intros path Hpath. cbn. unfold Stats._save_sessions.
    by apply save_other_files.
Qed.

Lemma keeps_start_pomodoro_rec (fuel : nat) (task : option TaskManager.Task) :
  keeps task (start_pomodoro_rec fuel task).
Proof.
  induction fuel as [| fuel IH].
  - intros m. apply counted_together_refl.
  - rewrite start_pomodoro_rec_S. apply keeps_try.
    + apply keeps_bind; [apply quiet_keeps, quiet_emit |]. intros _.
      apply keeps_bind; [apply quiet_keeps, quiet_get |]. intros d.
      apply keeps_bind; [apply quiet_keeps, quiet_countdown |]. intros [].
      * apply keeps_bind; [apply keeps_count_and_record |]. intros _.
        apply keeps_bind; [apply quiet_keeps, quiet_emit |]. intros _.
        apply keeps_bind; [apply quiet_keeps, quiet_get |]. intros n.
        apply keeps_bind; [apply quiet_keeps, quiet_get |]. intros k.
        apply keeps_bind; [apply quiet_keeps, quiet_py_mod |]. intros r.
        apply keeps_bind.
        { destruct (r =? 0);
            (apply keeps_bind; [apply quiet_keeps, quiet_input |]; intros _;
             apply quiet_keeps, quiet_start_break). }
        intros _. apply keeps_bind; [apply quiet_keeps, quiet_input_choice |].
        intros choice. destruct (bool_decide _);
          [exact IH | apply quiet_keeps, quiet_ret].
      * apply quiet_keeps, quiet_ret.
    + apply keeps_bind; [apply quiet_keeps, quiet_input_choice |].
      intros choice. apply keeps_bind.
      { destruct (bool_decide _);
          [apply keeps_count_and_record | apply quiet_keeps, quiet_ret]. }
      intros _. apply keeps_bind; [apply quiet_keeps, quiet_input |].
      intros _. apply quiet_keeps, quiet_ret.
Qed.

(** X20: whatever signals arrive, a call of [start_pomodoro(task)] leaves
    the task registry and the four settings of the timer unchanged,
    appends to the session log only completed pomodoros of the configured
    duration that carry the name of [task] ('General work' without a
    task), raises the counter by the number of appended records, and
    writes no file but the session log. *)
Theorem start_pomodoro_counts_and_records_together
    (task : option TaskManager.Task) (m : Machine) :
  let m' := machine_of (start_pomodoro task m) in
  task_manager m' = task_manager m
  ∧ (pomodoro_duration (timer m'), short_break_duration (timer m'),
     long_break_duration (timer m'), pomodoros_until_long_break (timer m'))
    = (pomodoro_duration (timer m), short_break_duration (timer m),
       long_break_duration (timer m), pomodoros_until_long_break (timer m))
  ∧ Stats.data_file (stats (timer m')) = Stats.data_file (stats (timer m))
  ∧ (∃ new : list Stats.Session,
       Stats.sessions (stats (timer m'))
       = Stats.sessions (stats (timer m)) ++ new
       ∧ current_pomodoros (timer m')
         = current_pomodoros (timer m) + Z.of_nat (length new)
       ∧ Forall (pomodoro_record task (pomodoro_duration (timer m))) new)
  ∧ (∀ path : string,
       path ≠ Stats.data_file (stats (timer m)) →
       files (world m') !! path = files (world m) !! path).
Proof. apply (keeps_start_pomodoro_rec _ task m). Qed.

(** A pomodoro and its break, both run to their end. *)
Lemma start_pomodoro_completed_run
    (t : PomodoroTimer) (tm : TaskManager.TaskManager) (w : World)
    (c : datetime) (tr : list action) (task : option TaskManager.Task)
    (t1 t2 t3 t4 t5 : datetime) (enter1 enter2 answer : string)
    (rest : list event) :
  0 < pomodoro_duration t →
  0 < short_break_duration t →
  0 < long_break_duration t →
  pomodoros_until_long_break t ≠ 0 →
  Text.lower (Text.strip answer) ≠ "y"%string →
  let long := (current_pomodoros t + 1) mod pomodoros_until_long_break t =? 0 in
  ∃ m' : Machine,
    start_pomodoro task
      (mk_machine t tm w c
         (mk_event t1 Expire :: mk_event t2 (Line enter1)
          :: mk_event t3 Expire :: mk_event t4 (Line enter2)
          :: mk_event t5 (Line answer) :: rest) tr)
    = Return tt m'
    ∧ Stats.sessions (stats (timer m'))
      = Stats.sessions (stats t)
        ++ [Stats.mk_session
              (Some "pomodoro"%string)
              (Some (match task with
                     | Some t => TaskManager.name t
                     | None => "General work"%string
                     end))
              (Some (pomodoro_duration t)) (Some true) t1]
    ∧ world m' = Stats._save_sessions (stats (timer m')) w
    ∧ current_pomodoros (timer m') = current_pomodoros t + 1
    ∧ task_manager m' = tm
    ∧ trace m'
      = tr ++ [Notify "Pomodoro Started!";
               Countdown pomodoro (pomodoro_duration t);
               Notify "Pomodoro Complete!";
               Countdown (if long then long_break else short_break)
                         (if long then long_break_duration t
                          else short_break_duration t);
               Notify "Break Over!"]
    ∧ clock m' = t5
    ∧ script m' = rest.
Proof.
  intros Hd Hs Hl Hk Hans long.
  apply Z.leb_gt in Hd, Hs, Hl. apply Z.eqb_neq in Hk.
  unfold start_pomodoro. cbn [script length]. rewrite start_pomodoro_rec_S.
  exec. rewrite Hd. exec.
  cbn [set_stats set_current_pomodoros current_pomodoros
       pomodoros_until_long_break short_break_duration long_break_duration
       pomodoro_duration].
  rewrite Hk. exec. fold long.
  destruct long; exec;
    cbn [set_stats set_current_pomodoros current_pomodoros
         pomodoros_until_long_break short_break_duration long_break_duration
         pomodoro_duration];
    [rewrite bool_decide_eq_false_2 by discriminate
    | rewrite bool_decide_eq_true_2 by reflexivity];
    cbn [set_stats set_current_pomodoros current_pomodoros
         pomodoros_until_long_break short_break_duration long_break_duration
         pomodoro_duration];
    rewrite ?Hs, ?Hl; exec;
    rewrite bool_decide_eq_false_2 by exact Hans;
    (eexists; split; [reflexivity |]);
    cbn [timer world task_manager trace script clock stats set_stats
         Stats.sessions Stats.set_sessions current_pomodoros];
    repeat split; rewrite <- ?app_assoc; reflexivity.
Qed.

(** X21: a pomodoro whose countdown reaches its deadline, followed by its
    break and the answer not to start another one, returns with exactly
    one record appended to the session log, stamped with the time of the
    deadline, the log saved, the counter raised by one, the task registry
    untouched, and one break run to its end. *)
Theorem completed_pomodoro_records_once
    (t : PomodoroTimer) (tm : TaskManager.TaskManager) (w : World)
    (c : datetime) (tr : list action) (task : option TaskManager.Task)
    (t1 t2 t3 t4 t5 : datetime) (enter1 enter2 answer : string)
    (rest : list event) :
  0 < pomodoro_duration t →
  0 < short_break_duration t →
  0 < long_break_duration t →
  pomodoros_until_long_break t ≠ 0 →
  Text.lower (Text.strip answer) ≠ "y"%string →
  let long := (current_pomodoros t + 1) mod pomodoros_until_long_break t =? 0 in
  ∃ m' : Machine,
    start_pomodoro task
      (mk_machine t tm w c
         (mk_event t1 Expire :: mk_event t2 (Line enter1)
          :: mk_event t3 Expire :: mk_event t4 (Line enter2)
          :: mk_event t5 (Line answer) :: rest) tr)
    = Return tt m'
    ∧ Stats.sessions (stats (timer m'))
      = Stats.sessions (stats t)
        ++ [Stats.mk_session
              (Some "pomodoro"%string)
              (Some (match task with
                     | Some t => TaskManager.name t
                     | None => "General work"%string
                     end))
              (Some (pomodoro_duration t)) (Some true) t1]
    ∧ world m' = Stats._save_sessions (stats (timer m')) w
    ∧ current_pomodoros (timer m') = current_pomodoros t + 1
    ∧ task_manager m' = tm
    ∧ trace m'
      = tr ++ [Notify "Pomodoro Started!";
               Countdown pomodoro (pomodoro_duration t);
               Notify "Pomodoro Complete!";
               Countdown (if long then long_break else short_break)
                         (if long then long_break_duration t
                          else short_break_duration t);
               Notify "Break Over!"]
    ∧ clock m' = t5
    ∧ script m' = rest.
Proof. apply start_pomodoro_completed_run. Qed.

Lemma completed_pomodoro_records_once_witness :
  let t := init (Stats.mk_stats "data/sessions.json" []) in
  let tm := TaskManager.mk_task_manager "data/tasks.json" [] in
  let at0 := mk_datetime 738886 9 0 0 0 in
  let at1 := mk_datetime 738886 9 25 0 0 in
  ∃ m' : Machine,
    start_pomodoro None
      (mk_machine t tm (mk_world ∅ ∅) at0
         [mk_event at1 Expire; mk_event at1 (Line EmptyString);
          mk_event at1 Expire; mk_event at1 (Line EmptyString);
          mk_event at1 (Line "n")] [])
    = Return tt m'
    ∧ Stats.sessions (stats (timer m'))
      = [Stats.mk_session (Some "pomodoro"%string) (Some "General work"%string)
           (Some 1500) (Some true) at1]
    ∧ current_pomodoros (timer m') = 1.
Proof.
  intros t tm at0 at1.
  destruct (completed_pomodoro_records_once t tm (mk_world ∅ ∅) at0 [] None
              at1 at1 at1 at1 at1 EmptyString EmptyString "n" [])
    as (m' & Hrun & Hlog & _ & Hcount & _).
  - vm_compute. reflexivity.
  - vm_compute. reflexivity.
  - vm_compute. reflexivity.
  - vm_compute. discriminate.
  - vm_compute. discriminate.
  - exists m'. repeat split; assumption.
Defined.

(** X22: when Ctrl+C arrives at the prompt that follows a countdown which
    has reached its deadline, the handler of [start_pomodoro] asks whether
    to mark the session as complete, and after the answer 'y' the same
    pomodoro is counted and recorded a second time; no break starts. *)
Theorem interrupt_at_break_prompt_records_twice
    (t : PomodoroTimer) (tm : TaskManager.TaskManager) (w : World)
    (c : datetime) (tr : list action) (task : option TaskManager.Task)
    (t1 t2 t3 t4 : datetime) (answer last : string) (rest : list event) :
  0 < pomodoro_duration t →
  pomodoros_until_long_break t ≠ 0 →
  Text.lower (Text.strip answer) = "y"%string →
  let record stamp :=
    Stats.mk_session
      (Some "pomodoro"%string)
      (Some (match task with
             | Some t => TaskManager.name t
             | None => "General work"%string
             end))
      (Some (pomodoro_duration t)) (Some true) stamp in
  ∃ m' : Machine,
    start_pomodoro task
      (mk_machine t tm w c
         (mk_event t1 Expire :: mk_event t2 Interrupt
          :: mk_event t3 (Line answer) :: mk_event t4 (Line last) :: rest) tr)
    = Return tt m'
    ∧ Stats.sessions (stats (timer m'))
      = Stats.sessions (stats t) ++ [record t1; record t3]
    ∧ current_pomodoros (timer m') = current_pomodoros t + 2
    ∧ breaks_started (trace m') = breaks_started tr
    ∧ script m' = rest.
Proof.
  intros Hd Hk Hans record.
  apply Z.leb_gt in Hd. apply Z.eqb_neq in Hk.
  unfold start_pomodoro. cbn [script length]. rewrite start_pomodoro_rec_S.
  exec. rewrite Hd. exec.
  cbn [set_stats set_current_pomodoros current_pomodoros
       pomodoros_until_long_break short_break_duration long_break_duration
       pomodoro_duration].
  rewrite Hk. exec.
  destruct (_ mod _ =? 0); exec;
    rewrite bool_decide_eq_true_2 by exact Hans; exec;
    (eexists; split; [reflexivity |]);
    cbn [timer world task_manager trace script clock stats set_stats
         Stats.sessions Stats.set_sessions current_pomodoros
         set_current_pomodoros pomodoro_duration];
    (split; [by rewrite <- app_assoc |]);
    (split; [lia |]);
    (split; [| reflexivity]);
    rewrite !breaks_started_app; cbn; rewrite ?app_nil_r; reflexivity.
Qed.

Lemma interrupt_at_break_prompt_records_twice_witness :
  let t := init (Stats.mk_stats "data/sessions.json" []) in
  let tm := TaskManager.mk_task_manager "data/tasks.json" [] in
  let at0 := mk_datetime 738886 9 0 0 0 in
  ∃ m' : Machine,
    start_pomodoro None
      (mk_machine t tm (mk_world ∅ ∅) at0
         [mk_event at0 Expire; mk_event at0 Interrupt;
          mk_event at0 (Line "y"); mk_event at0 (Line EmptyString)] [])
    = Return tt m'
    ∧ length (Stats.sessions (stats (timer m'))) = 2%nat
    ∧ current_pomodoros (timer m') = 2.
Proof.
  intros t tm at0.
  destruct (interrupt_at_break_prompt_records_twice t tm (mk_world ∅ ∅) at0 []
              None at0 at0 at0 at0 "y" EmptyString [])
    as (m' & Hrun & Hlog & Hcount & _).
  - vm_compute. reflexivity.
  - vm_compute. discriminate.
  - vm_compute. reflexivity.
  - exists m'. split; [exact Hrun |]. split; [by rewrite Hlog | exact Hcount].
Defined.

(** X23: with more than one pomodoro between two long breaks, whenever
    [get_stats_summary] reports 'long' as the next break, the break that
    starts after the next completed pomodoro is the short one: the summary
    tests the counter before its increment, [start_pomodoro] after it. *)
Theorem summary_names_the_break_before
    (t : PomodoroTimer) (tm : TaskManager.TaskManager) (w : World)
    (c : datetime) (tr : list action) (task : option TaskManager.Task)
    (t1 t2 : datetime) (enter : string) (rest : list event) :
  1 < pomodoros_until_long_break t →
  get_stats_summary t
  = Ok (mk_stats_summary (current_pomodoros t) "long") →
  ∃ later : list session_type,
    breaks_started
      (trace
         (machine_of
            (start_pomodoro task
               (mk_machine t tm w c
                  (expiry t t1 ++ mk_event t2 (Line enter) :: rest) tr))))
    = breaks_started tr ++ short_break :: later.
Proof.
  intros Hk Hsum.
  destruct (break_selection_first t tm w c tr task t1 t2 enter rest)
    as [later Hb]; [lia |].
  exists later. rewrite Hb. do 2 f_equal.
  unfold get_stats_summary, next_break in Hsum.
  destruct (Z.eqb_spec (pomodoros_until_long_break t) 0); [lia |].
  destruct (Z.eqb_spec (current_pomodoros t mod pomodoros_until_long_break t) 0)
    as [H0 | H0]; [| discriminate].
  destruct (Z.eqb_spec
              ((current_pomodoros t + 1) mod pomodoros_until_long_break t) 0)
    as [H1 | H1]; [| reflexivity].
  exfalso. rewrite Z.add_mod, H0, Z.add_0_l, Z.mod_mod in H1 by lia.
  rewrite Z.mod_small in H1 by lia. lia.
Qed.

Lemma summary_names_the_break_before_witness :
  let t := init (Stats.mk_stats "data/sessions.json" []) in
  let at0 := mk_datetime 738886 9 0 0 0 in
  get_stats_summary t = Ok (mk_stats_summary 0 "long")
  ∧ ∃ later : list session_type,
      breaks_started
        (trace
           (machine_of
              (start_pomodoro None
                 (mk_machine t (TaskManager.mk_task_manager "data/tasks.json" [])
                    (mk_world ∅ ∅) at0
                    (expiry t at0 ++ [mk_event at0 (Line EmptyString)]) []))))
      = [] ++ short_break :: later.
Proof.
  intros t at0. split; [reflexivity |].
  apply (summary_names_the_break_before t
           (TaskManager.mk_task_manager "data/tasks.json" [])
           (mk_world ∅ ∅) at0 [] None at0 at0 EmptyString []).
  - vm_compute. reflexivity.
  - reflexivity.
Defined.

End TimerMore.

(** ** The menus *)

Module MainFacts.
Import Os Datetime Timer TimerFacts TimerMore Main.

Example py_int_samples :
  map py_int
    [" 42 "; "-7"; "+0"; "1_000"; "007"; "4 2"; "1__0"; "_1"; "+ 5"; "5.0";
     "x"; "+"; EmptyString]%string
  = [Some 42; Some (-7); Some 0; Some 1000; Some 7; None; None; None; None;
     None; None; None; None].
Proof. vm_compute. reflexivity. Qed.

(** Runs the statements of the menus on an explicit machine. *)
Ltac exec_menu :=
  cbv beta iota zeta delta
    [mbind M_bind mret M_ret notify emit get set_timer set_world countdown
     input input_choice input_stripped raise now advance try_except try_bare
     registry ask_minutes timer task_manager world clock script trace what
     at_time machine_of].

Lemma manage_tasks_menu_rec_S (fuel : nat) :
  manage_tasks_menu_rec (S fuel)
  = (choice ← input_stripped;
     if bool_decide (choice = "1"%string) then
       _ ← input; manage_tasks_menu_rec fuel
     else if bool_decide (choice = "2"%string) then
       task_name ← input_stripped;
       (if bool_decide (task_name = EmptyString) then mret tt
        else
          _ ← registry (fun now =>
                          TaskManager.add_task task_name "medium" now);
          mret tt);;
       _ ← input; manage_tasks_menu_rec fuel
     else if bool_decide (choice = "3"%string) then
       try_bare
         (s ← input;
          match py_int s with
          | Some task_id =>
              _ ← registry (fun now =>
                              TaskManager.complete_task (task_id - 1) now);
              mret (Some tt)
          | None => mret None
          end)
         (mret tt);;
       _ ← input; manage_tasks_menu_rec fuel
     else if bool_decide (choice = "4"%string) then
       try_bare
         (s ← input;
          match py_int s with
          | Some task_id =>
              _ ← registry (fun _ => TaskManager.delete_task (task_id - 1));
              mret (Some tt)
          | None => mret None
          end)
         (mret tt);;
       _ ← input; manage_tasks_menu_rec fuel
     else if bool_decide (choice = "5"%string) then mret tt
     else manage_tasks_menu_rec fuel).
Proof. reflexivity. Qed.

Lemma settings_menu_rec_S (fuel : nat) :
  settings_menu_rec (S fuel)
  = (choice ← input_stripped;
     if bool_decide (choice = "1"%string) then
       ask_minutes set_pomodoro_duration;;
       _ ← input; settings_menu_rec fuel
     else if bool_decide (choice = "2"%string) then
       ask_minutes set_short_break_duration;;
       _ ← input; settings_menu_rec fuel
     else if bool_decide (choice = "3"%string) then
       ask_minutes set_long_break_duration;;
       _ ← input; settings_menu_rec fuel
     else if bool_decide (choice = "4"%string) then
       t ← get (fun t => t);
       set_timer (reset_to_default t);;
       _ ← input; settings_menu_rec fuel
     else if bool_decide (choice = "5"%string) then mret tt
     else settings_menu_rec fuel).
Proof. reflexivity. Qed.

Lemma main_rec_S (fuel : nat) (stats : Stats.Stats)
    (shown : list (Stats.StatsData * list (string * Stats.TaskFocus))) :
  main_rec (S fuel) stats shown
  = (choice ← input_stripped;
     if bool_decide (choice = "1"%string) then
       start_timer_menu;; main_rec fuel stats shown
     else if bool_decide (choice = "2"%string) then
       manage_tasks_menu;; main_rec fuel stats shown
     else if bool_decide (choice = "3"%string) then
       stamp ← now;
       let view := Stats.display_stats (date stamp) stats in
       _ ← input;
       main_rec fuel stats (shown ++ [view])
     else if bool_decide (choice = "4"%string) then
       settings_menu;; main_rec fuel stats shown
     else if bool_decide (choice = "5"%string) then mret shown
     else _ ← input; main_rec fuel stats shown).
Proof. reflexivity. Qed.

(** Settles the comparisons of a menu choice that is a literal. *)
Ltac choose :=
  repeat match goal with
    | |- context [Text.strip ?s] =>
        let v := eval vm_compute in (Text.strip s) in
        change (Text.strip s) with v
    end;
  repeat match goal with
    | |- context [bool_decide (@eq string ?a ?b)] =>
        first
          [ rewrite (bool_decide_eq_true_2 (a = b)) by reflexivity
          | rewrite (bool_decide_eq_false_2 (a = b)) by discriminate ]
    end.

(** X24: with pending tasks, [start_timer_menu] calls the timer with the
    pending task number [choice] (counted from 1 among the pending tasks)
    when the line typed is an integer with [1 <= choice <= len(tasks)],
    and without a task when the line is another integer or no integer, and
    also when Ctrl+C or the end of the input arrives at the prompt, since
    the bare [except] catches both. *)
Theorem start_timer_menu_selection
    (t : PomodoroTimer) (tm : TaskManager.TaskManager) (w : World)
    (c : datetime) (tr : list action) (t1 t2 : datetime) (answer : signal)
    (enter : string) (rest : list event) :
  TaskManager.get_pending_tasks tm ≠ [] →
  answer ≠ Expire →
  let pending := TaskManager.get_pending_tasks tm in
  let selected_task :=
    match answer with
    | Line s =>
        match py_int s with
        | Some choice =>
            if (1 <=? choice) && (choice <=? Z.of_nat (length pending))
            then pending !! Z.to_nat (choice - 1)
            else None
        | None => None
        end
    | _ => None
    end in
  start_timer_menu
    (mk_machine t tm w c
       (mk_event t1 answer :: mk_event t2 (Line enter) :: rest) tr)
  = start_pomodoro selected_task (mk_machine t tm w t2 rest tr).
Proof.
  intros Hpending Hanswer pending selected_task.
  unfold start_timer_menu. exec_menu. fold pending.
  destruct pending as [| p0 ps] eqn:Hp; [done |].
  exec_menu. destruct answer as [| | s |]; try done; exec_menu;
    try reflexivity.
  subst selected_task.
  destruct (py_int s) as [choice |]; exec_menu; [| reflexivity].
  destruct (_ && _); exec_menu; reflexivity.
Qed.

Lemma start_timer_menu_selection_witness :
  let at0 := mk_datetime 738886 9 0 0 0 in
  let task := fun n done =>
    TaskManager.mk_task 1 n (Some "medium"%string) (Some done) (Some at0)
      None (Some 0) in
  let tm :=
    TaskManager.mk_task_manager "data/tasks.json"
      [task "a" true; task "b" false; task "c" false]%string in
  let t := init (Stats.mk_stats "data/sessions.json" []) in
  start_timer_menu
    (mk_machine t tm (mk_world ∅ ∅) at0
       [mk_event at0 (Line " 2 "); mk_event at0 (Line EmptyString);
        mk_event at0 Interrupt] [])
  = start_pomodoro (Some (task "c"%string false))
      (mk_machine t tm (mk_world ∅ ∅) at0 [mk_event at0 Interrupt] []).
Proof.
  intros at0 task tm t.
  apply (start_timer_menu_selection t tm (mk_world ∅ ∅) at0 [] at0 at0
           (Line " 2 ") EmptyString [mk_event at0 Interrupt]).
  - vm_compute. discriminate.
  - discriminate.
Defined.

Lemma start_timer_menu_reaches_timer (m : Machine) :
  (timer (machine_of (start_timer_menu m)) = timer m
   ∧ task_manager (machine_of (start_timer_menu m)) = task_manager m
   ∧ world (machine_of (start_timer_menu m)) = world m)
  ∨ ∃ (selected_task : option TaskManager.Task) (m1 : Machine),
      (∀ task, selected_task = Some task →
               task ∈ TaskManager.get_pending_tasks (task_manager m))
      ∧ timer m1 = timer m ∧ task_manager m1 = task_manager m
      ∧ world m1 = world m
      ∧ start_timer_menu m = start_pomodoro selected_task m1.
Proof.
  destruct m as [t tm w c sc tr]. unfold start_timer_menu. exec_menu.
  set (pending := TaskManager.get_pending_tasks tm).
  assert (Hnone : ∀ task : TaskManager.Task,
            @None TaskManager.Task = Some task → task ∈ pending) by done.
  assert (Hgo : ∀ sel m1,
            (∀ task, sel = Some task → task ∈ pending) →
            timer m1 = t → task_manager m1 = tm → world m1 = w →
            (timer (machine_of (start_pomodoro sel m1)) = t
             ∧ task_manager (machine_of (start_pomodoro sel m1)) = tm
             ∧ world (machine_of (start_pomodoro sel m1)) = w)
            ∨ ∃ (selected_task : option TaskManager.Task) (m2 : Machine),
                (∀ task, selected_task = Some task → task ∈ pending)
                ∧ timer m2 = t ∧ task_manager m2 = tm ∧ world m2 = w
                ∧ start_pomodoro sel m1 = start_pomodoro selected_task m2).
  { intros sel m1 Hsel Ht Htm Hw. right. exists sel, m1. auto. }
  destruct pending as [| p0 ps] eqn:Hp; exec_menu.
  - destruct sc as [| [t1 []] sc]; exec_menu;
      try (left; by repeat split).
    by apply Hgo.
  - destruct sc as [| [t1 s1] sc]; exec_menu; [left; by repeat split |].
    destruct s1 as [| | s |]; exec_menu; try (left; by repeat split).
    + destruct sc as [| [t2 []] sc]; exec_menu;
        try (left; by repeat split).
      by apply Hgo.
    + destruct (py_int s) as [choice |]; exec_menu.
      * destruct (_ && _) eqn:Hrange; exec_menu.
        -- destruct sc as [| [t2 []] sc]; exec_menu;
             try (left; by repeat split).
           apply Hgo; try reflexivity.
           intros task Htask. by eapply list_elem_of_lookup_2.
        -- destruct sc as [| [t2 []] sc]; exec_menu;
             try (left; by repeat split).
           by apply Hgo.
      * destruct sc as [| [t2 []] sc]; exec_menu;
          try (left; by repeat split).
        by apply Hgo.
    + destruct sc as [| [t2 []] sc]; exec_menu;
        try (left; by repeat split).
      by apply Hgo.
Qed.

(** X25: whatever is typed, [start_timer_menu] leaves the task registry as
    it is, so that no [pomodoros_spent] changes; the records that it adds
    to the session log all carry the name of one pending task, or
    'General work', and the counter of the timer grows by their
    number. *)
Theorem start_timer_menu_leaves_registry (m : Machine) :
  let m' := machine_of (start_timer_menu m) in
  task_manager m' = task_manager m
  ∧ ∃ (selected_task : option TaskManager.Task) (new : list Stats.Session),
      (∀ task, selected_task = Some task →
               task ∈ TaskManager.get_pending_tasks (task_manager m))
      ∧ Stats.sessions (stats (timer m'))
        = Stats.sessions (stats (timer m)) ++ new
      ∧ current_pomodoros (timer m')
        = current_pomodoros (timer m) + Z.of_nat (length new)
      ∧ Forall (pomodoro_record selected_task (pomodoro_duration (timer m)))
               new.
Proof.
  cbv zeta.
  destruct (start_timer_menu_reaches_timer m)
    as [(Ht & Htm & Hw) | (sel & m1 & Hsel & Ht & Htm & Hw & Hrun)].
  - split; [exact Htm |]. exists None, [].
    split; [done |]. rewrite app_nil_r, Ht.
    repeat split; [cbn; lia | constructor].
  - rewrite Hrun.
    destruct (keeps_start_pomodoro_rec (S (length (script m1))) sel m1)
      as (Htm1 & _ & _ & (new & Hlog & Hcnt & Hrec) & _).
    unfold start_pomodoro. split; [congruence |].
    exists sel, new. rewrite <- Ht.
    split; [exact Hsel |]. split; [exact Hlog |]. split; [exact Hcnt |].
    exact Hrec.
Qed.

Lemma manage_tasks_menu_round
    (t : PomodoroTimer) (tm : TaskManager.TaskManager) (w : World)
    (c : datetime) (tr : list action) (t1 t2 t3 t4 : datetime)
    (typed enter : string) (rest : list event) :
  let run choice :=
    manage_tasks_menu
      (mk_machine t tm w c
         (mk_event t1 (Line choice) :: mk_event t2 (Line typed)
          :: mk_event t3 (Line enter) :: mk_event t4 (Line "5") :: rest) tr) in
  let after (r : TaskManager.TaskManager * World) :=
    Return tt (mk_machine t r.1 r.2 t4 rest tr) in
  run "2"%string
  = after (if bool_decide (Text.strip typed = EmptyString) then (tm, w)
           else
             let r := TaskManager.add_task (Text.strip typed) "medium" t2 tm w in
             (r.1.2, r.2))
  ∧ run "3"%string
    = after (match py_int typed with
             | Some task_id =>
                 let r := TaskManager.complete_task (task_id - 1) t2 tm w in
                 (r.1.2, r.2)
             | None => (tm, w)
             end)
  ∧ run "4"%string
    = after (match py_int typed with
             | Some task_id =>
                 let r := TaskManager.delete_task (task_id - 1) tm w in
                 (r.1.2, r.2)
             | None => (tm, w)
             end).
Proof.
  cbv zeta. unfold manage_tasks_menu. cbn [script length].
  split; [| split]; rewrite manage_tasks_menu_rec_S; exec_menu.
  - change (Text.strip "2") with "2"%string.
    rewrite (bool_decide_eq_false_2 ("2" = "1")%string) by discriminate.
    rewrite (bool_decide_eq_true_2 ("2" = "2")%string) by reflexivity.
    exec_menu.
    destruct (bool_decide (Text.strip typed = EmptyString)); exec_menu.
    + rewrite manage_tasks_menu_rec_S. exec_menu.
      change (Text.strip "5") with "5"%string.
      rewrite !(bool_decide_eq_false_2 ("5" = _)%string) by discriminate.
      rewrite (bool_decide_eq_true_2 ("5" = "5")%string) by reflexivity.
      reflexivity.
    + destruct (TaskManager.add_task _ _ _ _ _) as [[task tm'] w'].
      exec_menu. rewrite manage_tasks_menu_rec_S. exec_menu.
      change (Text.strip "5") with "5"%string.
      rewrite !(bool_decide_eq_false_2 ("5" = _)%string) by discriminate.
      rewrite (bool_decide_eq_true_2 ("5" = "5")%string) by reflexivity.
      reflexivity.
  - change (Text.strip "3") with "3"%string.
    rewrite !(bool_decide_eq_false_2 ("3" = _)%string) by discriminate.
    rewrite (bool_decide_eq_true_2 ("3" = "3")%string) by reflexivity.
    exec_menu. destruct (py_int typed) as [task_id |]; exec_menu.
    + destruct (TaskManager.complete_task _ _ _ _) as [[ok tm'] w'].
      exec_menu. rewrite manage_tasks_menu_rec_S. exec_menu.
      change (Text.strip "5") with "5"%string.
      rewrite !(bool_decide_eq_false_2 ("5" = _)%string) by discriminate.
      rewrite (bool_decide_eq_true_2 ("5" = "5")%string) by reflexivity.
      reflexivity.
    + rewrite manage_tasks_menu_rec_S. exec_menu.
      change (Text.strip "5") with "5"%string.
      rewrite !(bool_decide_eq_false_2 ("5" = _)%string) by discriminate.
      rewrite (bool_decide_eq_true_2 ("5" = "5")%string) by reflexivity.
      reflexivity.
  - change (Text.strip "4") with "4"%string.
    rewrite !(bool_decide_eq_false_2 ("4" = _)%string) by discriminate.
    rewrite (bool_decide_eq_true_2 ("4" = "4")%string) by reflexivity.
    exec_menu. destruct (py_int typed) as [task_id |]; exec_menu.
    + destruct (TaskManager.delete_task _ _ _) as [[deleted tm'] w'].
      exec_menu. rewrite manage_tasks_menu_rec_S. exec_menu.
      change (Text.strip "5") with "5"%string.
      rewrite !(bool_decide_eq_false_2 ("5" = _)%string) by discriminate.
      rewrite (bool_decide_eq_true_2 ("5" = "5")%string) by reflexivity.
      reflexivity.
    + rewrite manage_tasks_menu_rec_S. exec_menu.
      change (Text.strip "5") with "5"%string.
      rewrite !(bool_decide_eq_false_2 ("5" = _)%string) by discriminate.
      rewrite (bool_decide_eq_true_2 ("5" = "5")%string) by reflexivity.
      reflexivity.
Qed.

(** X26: one round of [manage_tasks_menu] followed by choice 5: choice 2
    adds the line typed, stripped, as a task of priority 'medium', unless
    it is blank; choices 3 and 4 read an integer [n] and complete or
    delete the task at position [n - 1] of the whole list; a line that is
    no integer changes nothing.  The menu returns and the timer is
    untouched. *)
Theorem manage_tasks_menu_acts_on_positions
    (t : PomodoroTimer) (tm : TaskManager.TaskManager) (w : World)
    (c : datetime) (tr : list action) (t1 t2 t3 t4 : datetime)
    (typed enter : string) (rest : list event) :
  let run choice :=
    manage_tasks_menu
      (mk_machine t tm w c
         (mk_event t1 (Line choice) :: mk_event t2 (Line typed)
          :: mk_event t3 (Line enter) :: mk_event t4 (Line "5") :: rest) tr) in
  let after (r : TaskManager.TaskManager * World) :=
    Return tt (mk_machine t r.1 r.2 t4 rest tr) in
  run "2"%string
  = after (if bool_decide (Text.strip typed = EmptyString) then (tm, w)
           else
             let r := TaskManager.add_task (Text.strip typed) "medium" t2 tm w in
             (r.1.2, r.2))
  ∧ run "3"%string
    = after (match py_int typed with
             | Some task_id =>
                 let r := TaskManager.complete_task (task_id - 1) t2 tm w in
                 (r.1.2, r.2)
             | None => (tm, w)
             end)
  ∧ run "4"%string
    = after (match py_int typed with
             | Some task_id =>
                 let r := TaskManager.delete_task (task_id - 1) tm w in
                 (r.1.2, r.2)
             | None => (tm, w)
             end).
Proof. apply manage_tasks_menu_round. Qed.

(** X27: [show_task_list] numbers the pending tasks from 1 among
    themselves, while choice 3 of [manage_tasks_menu] takes the number
    typed as a position in the whole list.  With a completed task stored
    first and a pending one second, the pending task is listed as number
    1, and typing 1 marks the completed task again, with a new
    [completed_at], and leaves the pending one pending. *)
Theorem listed_number_is_not_the_position
    (t : PomodoroTimer) (tm : TaskManager.TaskManager) (w : World)
    (c : datetime) (tr : list action) (t1 t2 t3 t4 : datetime)
    (enter : string) (rest : list event)
    (done todo : TaskManager.Task) (others : list TaskManager.Task) :
  TaskManager.tasks tm = done :: todo :: others →
  TaskManager.is_completed done = true →
  TaskManager.is_completed todo = false →
  (∃ listing : Display.TaskListing,
     Display.show_task_list (TaskManager.tasks tm) = Some listing
     ∧ head (Display.pending_lines listing) = Some (1, TaskManager.name todo))
  ∧ ∃ m' : Machine,
      manage_tasks_menu
        (mk_machine t tm w c
           (mk_event t1 (Line "3") :: mk_event t2 (Line "1")
            :: mk_event t3 (Line enter) :: mk_event t4 (Line "5") :: rest) tr)
      = Return tt m'
      ∧ TaskManager.tasks (task_manager m')
        = TaskManager.mk_task (TaskManager.id done) (TaskManager.name done)
            (TaskManager.priority done) (Some true)
            (TaskManager.created_at done) (Some t2)
            (TaskManager.pomodoros_spent done)
          :: todo :: others.
Proof.
  intros Htasks Hdone Htodo. split.
  - rewrite Htasks. cbn [Display.show_task_list List.filter].
    rewrite Hdone, Htodo. cbn [negb List.filter]. eexists.
    split; [reflexivity |]. reflexivity.
  - destruct (manage_tasks_menu_round t tm w c tr t1 t2 t3 t4 "1" enter rest)
      as (_ & Hrun & _).
    cbv zeta in Hrun. rewrite Hrun. eexists. split; [reflexivity |].
    change (py_int "1") with (Some 1).
    unfold TaskManager.complete_task, TaskManager.in_range, TaskManager.len.
    rewrite Htasks. cbn [length].
    replace (0 <=? 1 - 1) with true by (symmetry; apply Z.leb_le; lia).
    replace (1 - 1 <? Z.of_nat (S (S (length others)))) with true
      by (symmetry; apply Z.ltb_lt; lia).
    change (Z.to_nat (1 - 1)) with 0%nat. reflexivity.
Qed.

Lemma listed_number_is_not_the_position_witness :
  let at0 := mk_datetime 738886 9 0 0 0 in
  let task := fun n done =>
    TaskManager.mk_task 1 n (Some "medium"%string) (Some done) (Some at0)
      None (Some 0) in
  let tm :=
    TaskManager.mk_task_manager "data/tasks.json"
      [task "a" true; task "b" false]%string in
  ∃ listing : Display.TaskListing,
    Display.show_task_list (TaskManager.tasks tm) = Some listing
    ∧ head (Display.pending_lines listing) = Some (1, "b"%string).
Proof.
  intros at0 task tm.
  apply (listed_number_is_not_the_position
           (init (Stats.mk_stats "data/sessions.json" [])) tm (mk_world ∅ ∅)
           at0 [] at0 at0 at0 at0 EmptyString []
           (task "a"%string true) (task "b"%string false) []); reflexivity.
Defined.

Lemma steady_ret {A : Type} (a : A) : steady (mret a : M A).
Proof. intros m. repeat split. Qed.

Lemma steady_bind {A B : Type} (x : M A) (f : A → M B) :
  steady x → (∀ a, steady (f a)) → steady (x ≫= f).
Proof.
  intros Hx Hf m. destruct (Hx m) as (H1 & H2 & H3 & H4 & H5).
  unfold mbind, M_bind.
  destruct (x m) as [a m' | e m' | m']; cbn [machine_of] in *; auto.
  destruct (Hf a m') as (G1 & G2 & G3 & G4 & G5). repeat split; congruence.
Qed.

Lemma steady_try_bare {A : Type} (body : M (option A)) (handler : M A) :
  steady body → steady handler → steady (try_bare body handler).
Proof.
  intros Hb Hh m. destruct (Hb m) as (H1 & H2 & H3 & H4 & H5).
  unfold try_bare.
  destruct (body m) as [[a |] m' | e m' | m']; cbn [machine_of] in *; auto;
    destruct (Hh m') as (G1 & G2 & G3 & G4 & G5); repeat split; congruence.
Qed.

Lemma steady_input : steady input.
Proof.
  intros m. unfold input. destruct (script m) as [| e rest];
    [repeat split |].
  destruct (what e); repeat split.
Qed.

Lemma steady_input_stripped : steady input_stripped.
Proof.
  unfold input_stripped. apply steady_bind; [apply steady_input |].
  intros s. apply steady_ret.
Qed.

Lemma steady_ask_minutes (store : Z → PomodoroTimer → PomodoroTimer) :
  (∀ d t, current_pomodoros (store d t) = current_pomodoros t
          ∧ pomodoros_until_long_break (store d t)
            = pomodoros_until_long_break t
          ∧ stats (store d t) = stats t) →
  steady (ask_minutes store).
Proof.
  intros Hstore. unfold ask_minutes. apply steady_try_bare;
    [| apply steady_ret].
  apply steady_bind; [apply steady_input |]. intros s.
  destruct (py_int s) as [minutes |]; [| apply steady_ret].
  intros m. destruct (Hstore (minutes * 60) (timer m)) as (H1 & H2 & H3).
  repeat split; assumption.
Qed.

Lemma steady_settings_menu_rec (fuel : nat) : steady (settings_menu_rec fuel).
Proof.
  induction fuel as [| fuel IH]; [intros m; repeat split |].
  cbn [settings_menu_rec].
  assert (Hnext : steady (_ ← input; settings_menu_rec fuel)).
  { apply steady_bind; [apply steady_input |]. intros _. exact IH. }
  apply steady_bind; [apply steady_input_stripped |]. intros choice.
  repeat match goal with
    | |- steady (if ?b then _ else _) => destruct b
    end;
    try (apply steady_bind;
         [apply steady_ask_minutes; intros d t; repeat split |];
         intros _; exact Hnext).
  - intros m.
    exact (Hnext (mk_machine (reset_to_default (timer m)) (task_manager m)
                    (world m) (clock m) (script m) (trace m))).
  - apply steady_ret.
  - exact IH.
Qed.

(** X28: whatever is typed, [settings_menu] leaves the counter of the
    timer, the number of pomodoros between two long breaks, the session
    log, the task registry and the files as they are.  Choices 1, 2 and 3
    store 60 times the integer typed as the duration of the pomodoro, the
    short break and the long break, whatever its sign; a line that is no
    integer changes nothing. *)
Theorem settings_menu_changes_durations_only
    (m : Machine)
    (t : PomodoroTimer) (tm : TaskManager.TaskManager) (w : World)
    (c : datetime) (tr : list action) (t1 t2 t3 t4 : datetime)
    (typed enter : string) (rest : list event) :
  let m' := machine_of (settings_menu m) in
  let run choice :=
    settings_menu
      (mk_machine t tm w c
         (mk_event t1 (Line choice) :: mk_event t2 (Line typed)
          :: mk_event t3 (Line enter) :: mk_event t4 (Line "5") :: rest) tr) in
  let after (store : Z → PomodoroTimer → PomodoroTimer) :=
    Return tt
      (mk_machine
         (match py_int typed with
          | Some minutes => store (minutes * 60) t
          | None => t
          end) tm w t4 rest tr) in
  (current_pomodoros (timer m') = current_pomodoros (timer m)
   ∧ pomodoros_until_long_break (timer m')
     = pomodoros_until_long_break (timer m)
   ∧ stats (timer m') = stats (timer m)
   ∧ task_manager m' = task_manager m
   ∧ world m' = world m)
  ∧ run "1"%string = after set_pomodoro_duration
  ∧ run "2"%string = after set_short_break_duration
  ∧ run "3"%string = after set_long_break_duration.
Proof.
  cbv zeta. split; [apply (steady_settings_menu_rec _ m) |].
  unfold settings_menu. cbn [script length].
  repeat split; rewrite settings_menu_rec_S; exec_menu; choose; exec_menu;
    destruct (py_int typed) as [minutes |]; exec_menu;
    rewrite settings_menu_rec_S; exec_menu; choose; reflexivity.
Qed.

(** *** The statistics view *)

Lemma start_timer_menu_without_tasks
    (t : PomodoroTimer) (tm : TaskManager.TaskManager) (w : World)
    (c : datetime) (tr : list action) (t1 : datetime) (enter : string)
    (rest : list event) :
  TaskManager.get_pending_tasks tm = [] →
  start_timer_menu
    (mk_machine t tm w c (mk_event t1 (Line enter) :: rest) tr)
  = start_pomodoro None (mk_machine t tm w t1 rest tr).
Proof.
  intros Hnone. unfold start_timer_menu. exec_menu. rewrite Hnone.
  exec_menu. reflexivity.
Qed.

(** X29: [main] creates one [Stats] object for the statistics view and the
    timer creates another.  A pomodoro completed through choice 1 is added
    to the log of the timer, but the statistics view of choice 3 that
    follows still shows the totals of the log as it was loaded at the
    start: one pomodoro less than the timer has recorded. *)
Theorem statistics_view_misses_new_pomodoro
    (t : PomodoroTimer) (tm : TaskManager.TaskManager) (w : World)
    (c : datetime) (tr : list action)
    (a1 a2 a3 a4 a5 a6 a7 a8 a9 a10 : datetime)
    (enter1 enter2 enter3 enter4 answer : string) (rest : list event) :
  TaskManager.get_pending_tasks tm = [] →
  0 < pomodoro_duration t →
  0 < short_break_duration t →
  0 < long_break_duration t →
  pomodoros_until_long_break t ≠ 0 →
  Text.lower (Text.strip answer) ≠ "y"%string →
  ∃ (m' : Machine) (view : Stats.StatsData * list (string * Stats.TaskFocus)),
    main (stats t)
      (mk_machine t tm w c
         (mk_event a1 (Line "1") :: mk_event a2 (Line enter1)
          :: mk_event a3 Expire :: mk_event a4 (Line enter2)
          :: mk_event a5 Expire :: mk_event a6 (Line enter3)
          :: mk_event a7 (Line answer)
          :: mk_event a8 (Line "3") :: mk_event a9 (Line enter4)
          :: mk_event a10 (Line "5") :: rest) tr)
    = Return [view] m'
    ∧ view = Stats.display_stats (date a8) (stats t)
    ∧ Stats.total_pomodoros view.1
      = Stats.get_pomodoro_count (Stats.sessions (stats t))
    ∧ Stats.get_pomodoro_count (Stats.sessions (stats (timer m')))
      = Stats.get_pomodoro_count (Stats.sessions (stats t)) + 1
    ∧ current_pomodoros (timer m') = current_pomodoros t + 1.
Proof.
  intros Hnone Hd Hs Hl Hk Hans.
  destruct (start_pomodoro_completed_run t tm w a2 tr None a3 a4 a5 a6 a7
              enter2 enter3 answer
              (mk_event a8 (Line "3") :: mk_event a9 (Line enter4)
               :: mk_event a10 (Line "5") :: rest) Hd Hs Hl Hk Hans)
    as (m1 & Hrun & Hlog & _ & Hcnt & Htm & _ & Hclock & Hscript).
  unfold main. cbn [script length]. rewrite main_rec_S. exec_menu. choose.
  rewrite start_timer_menu_without_tasks by exact Hnone.
  rewrite Hrun. destruct m1 as [t' tm' w' c' sc' tr'].
  cbn [script clock timer] in Hscript, Hclock, Hlog, Hcnt. subst sc'.
  cbv beta iota. rewrite main_rec_S. exec_menu. choose. exec_menu.
  rewrite main_rec_S. exec_menu. choose.
  eexists. eexists. split; [reflexivity |].
  split; [reflexivity |]. split; [reflexivity |].
  cbn [timer]. split; [| exact Hcnt].
  rewrite Hlog, !StatsMore.get_pomodoro_count_length, List.filter_app,
    length_app.
  cbn [List.filter].
  match goal with
  | |- context [Stats.is_completed_pomodoro ?s] =>
      change (Stats.is_completed_pomodoro s) with true
  end.
  cbn [length]. lia.
Qed.

Lemma statistics_view_misses_new_pomodoro_witness :
  let at0 := mk_datetime 738886 9 0 0 0 in
  let t := init (Stats.mk_stats "data/sessions.json" []) in
  let tm := TaskManager.mk_task_manager "data/tasks.json" [] in
  let line s := mk_event at0 (Line s) in
  ∃ (m' : Machine) (view : Stats.StatsData * list (string * Stats.TaskFocus)),
    main (stats t)
      (mk_machine t tm (mk_world ∅ ∅) at0
         [line "1"; line EmptyString; mk_event at0 Expire; line EmptyString;
          mk_event at0 Expire; line EmptyString; line "n"; line "3";
          line EmptyString; line "5"]%string [])
    = Return [view] m'
    ∧ Stats.total_pomodoros view.1 = 0
    ∧ Stats.get_pomodoro_count (Stats.sessions (stats (timer m'))) = 1.
Proof.
  intros at0 t tm line.
  destruct (statistics_view_misses_new_pomodoro t tm (mk_world ∅ ∅) at0 []
              at0 at0 at0 at0 at0 at0 at0 at0 at0 at0
              EmptyString EmptyString EmptyString EmptyString "n" [])
    as (m' & view & Hrun & _ & Hshown & Hlog & _).
  - reflexivity.
  - vm_compute. reflexivity.
  - vm_compute. reflexivity.
  - vm_compute. reflexivity.
  - vm_compute. discriminate.
  - vm_compute. discriminate.
  - exists m', view. split; [exact Hrun |]. split; [exact Hshown | exact Hlog].
Defined.

(** *** The fuel of the menus *)

Lemma shrinks_try_bare {A : Type} (body : M (option A)) (handler : M A) :
  shrinks body → shrinks handler → shrinks (try_bare body handler).
Proof.
  intros Hb Hh m. specialize (Hb m). unfold try_bare.
  destruct (body m) as [[a |] m' | e m' | m']; cbn [machine_of] in *;
    try exact Hb; specialize (Hh m'); lia.
Qed.

Lemma shrinks_registry {A : Type}
    (method : datetime → TaskManager.TaskManager → World →
              A * TaskManager.TaskManager * World) :
  shrinks (registry method).
Proof.
  intros m. unfold registry.
  destruct (method _ _ _) as [[a tm] w]. reflexivity.
Qed.

Lemma consumes_input_stripped : consumes input_stripped.
Proof.
  unfold input_stripped. apply consumes_bind; [apply consumes_input |].
  intros s. apply shrinks_ret.
Qed.

Lemma shrinks_by_number {A : Type} (act : Z → M A) :
  (∀ n, shrinks (act n)) →
  shrinks (try_bare
             (s ← input;
              match py_int s with
              | Some n => _ ← act n; mret (Some tt)
              | None => mret None
              end)
             (mret tt)).
Proof.
  intros Hact. apply shrinks_try_bare; [| apply shrinks_ret].
  apply shrinks_bind; [apply shrinks_input |]. intros s.
  destruct (py_int s) as [n |]; [| apply shrinks_ret].
  apply shrinks_bind; [apply Hact |]. intros _. apply shrinks_ret.
Qed.

Lemma shrinks_ask_minutes (store : Z → PomodoroTimer → PomodoroTimer) :
  shrinks (ask_minutes store).
Proof.
  unfold ask_minutes. apply shrinks_try_bare; [| apply shrinks_ret].
  apply shrinks_bind; [apply shrinks_input |]. intros s.
  destruct (py_int s) as [minutes |]; [| apply shrinks_ret].
  apply shrinks_bind; [apply shrinks_get |]. intros t.
  apply shrinks_bind; [intros m; reflexivity |]. intros _. apply shrinks_ret.
Qed.

(** After a statement that does not lengthen the script and an ENTER, the
    next round of a loop has fuel left. *)
Lemma round_fuel {A : Type} (x : M A) (loop1 loop2 : M unit) (n : nat)
    (m : Machine) :
  shrinks x →
  (length (script m) ≤ n)%nat →
  (∀ m', (length (script m') < n)%nat → loop1 m' = loop2 m') →
  (x;; _ ← input; loop1) m = (x;; _ ← input; loop2) m.
Proof.
  intros Hx Hn Hloop. apply bind_ext. intros a m1 E1.
  pose proof (shrinks_return _ _ _ _ Hx E1) as L1.
  apply bind_ext. intros s m2 E2.
  pose proof (consumes_input _ _ _ E2) as L2. apply Hloop. lia.
Qed.

Lemma manage_tasks_menu_rec_fuel (f1 : nat) :
  ∀ (f2 : nat) (m : Machine),
    (length (script m) < f1)%nat → (length (script m) < f2)%nat →
    manage_tasks_menu_rec f1 m = manage_tasks_menu_rec f2 m.
Proof.
  induction f1 as [| f1 IH]; intros [| f2] m H1 H2; try lia.
  cbn [manage_tasks_menu_rec]. apply bind_ext. intros choice m1 E1.
  pose proof (consumes_input_stripped _ _ _ E1) as L1.
  assert (Hloop : ∀ m', (length (script m') < length (script m1))%nat →
            manage_tasks_menu_rec f1 m' = manage_tasks_menu_rec f2 m')
    by (intros m' Hm'; apply IH; lia).
  repeat match goal with
    | |- (if ?b then _ else _) _ = (if ?b then _ else _) _ => destruct b
    end.
  - apply bind_ext. intros s m2 E2.
    pose proof (consumes_input _ _ _ E2) as L2. apply IH; lia.
  - apply bind_ext. intros task_name m2 E2.
    pose proof (shrinks_return _ _ _ _
                  (shrinks_bind _ _ shrinks_input (fun _ => shrinks_ret _)) E2)
      as L2.
    apply (round_fuel _ _ _ (length (script m1))); [| lia |].
    + destruct (bool_decide _); [apply shrinks_ret |].
      apply shrinks_bind; [apply shrinks_registry |]. intros _.
      apply shrinks_ret.
    + exact Hloop.
  - apply (round_fuel _ _ _ (length (script m1))); [| lia | exact Hloop].
    apply shrinks_by_number. intros n. apply shrinks_registry.
  - apply (round_fuel _ _ _ (length (script m1))); [| lia | exact Hloop].
    apply shrinks_by_number. intros n. apply shrinks_registry.
  - reflexivity.
  - apply IH; lia.
Qed.

Lemma manage_tasks_menu_fuel (fuel : nat) (m : Machine) :
  (length (script m) < fuel)%nat →
  manage_tasks_menu_rec fuel m = manage_tasks_menu m.
Proof.
  intros H. unfold manage_tasks_menu. apply manage_tasks_menu_rec_fuel; lia.
Qed.

Lemma settings_menu_rec_fuel (f1 : nat) :
  ∀ (f2 : nat) (m : Machine),
    (length (script m) < f1)%nat → (length (script m) < f2)%nat →
    settings_menu_rec f1 m = settings_menu_rec f2 m.
Proof.
  induction f1 as [| f1 IH]; intros [| f2] m H1 H2; try lia.
  cbn [settings_menu_rec]. apply bind_ext. intros choice m1 E1.
  pose proof (consumes_input_stripped _ _ _ E1) as L1.
  assert (Hloop : ∀ m', (length (script m') < length (script m1))%nat →
            settings_menu_rec f1 m' = settings_menu_rec f2 m')
    by (intros m' Hm'; apply IH; lia).
  repeat match goal with
    | |- (if ?b then _ else _) _ = (if ?b then _ else _) _ => destruct b
    end;
    try (apply (round_fuel _ _ _ (length (script m1)));
         [apply shrinks_ask_minutes | lia | exact Hloop]).
  - apply bind_ext. intros t0 m2 E2.
    pose proof (shrinks_return _ _ _ _ (shrinks_get _) E2) as L2.
    apply (round_fuel _ _ _ (length (script m1)));
      [intros m'; reflexivity | lia | exact Hloop].
  - reflexivity.
  - apply IH; lia.
Qed.

Lemma settings_menu_fuel (fuel : nat) (m : Machine) :
  (length (script m) < fuel)%nat →
  settings_menu_rec fuel m = settings_menu m.
Proof.
  intros H. unfold settings_menu. apply settings_menu_rec_fuel; lia.
Qed.

Lemma shrinks_start_pomodoro_rec (fuel : nat)
    (task : option TaskManager.Task) :
  shrinks (start_pomodoro_rec fuel task).
Proof.
  induction fuel as [| fuel IH]; [intros m; reflexivity |].
  rewrite start_pomodoro_rec_S. apply shrinks_try.
  - apply shrinks_bind; [apply shrinks_emit |]. intros _.
    apply shrinks_bind; [apply shrinks_get |]. intros d.
    apply shrinks_bind; [apply shrinks_countdown |]. intros [].
    + apply shrinks_bind; [apply shrinks_count_and_record |]. intros _.
      apply shrinks_bind; [apply shrinks_emit |]. intros _.
      apply shrinks_bind; [apply shrinks_get |]. intros n.
      apply shrinks_bind; [apply shrinks_get |]. intros k.
      apply shrinks_bind; [apply shrinks_py_mod |]. intros r.
      apply shrinks_bind.
      { destruct (r =? 0);
          (apply shrinks_bind; [apply shrinks_input |]; intros _;
           apply shrinks_start_break). }
      intros _. apply shrinks_bind.
      { apply shrinks_bind; [apply shrinks_input |]. intros s.
        apply shrinks_ret. }
      intros choice. destruct (bool_decide _); [exact IH | apply shrinks_ret].
    + apply shrinks_ret.
  - apply shrinks_bind.
    { apply shrinks_bind; [apply shrinks_input |]. intros s.
      apply shrinks_ret. }
    intros choice. apply shrinks_bind.
    { destruct (bool_decide _);
        [apply shrinks_count_and_record | apply shrinks_ret]. }
    intros _. apply shrinks_bind; [apply shrinks_input |]. intros _.
    apply shrinks_ret.
Qed.

Lemma shrinks_start_timer_menu : shrinks start_timer_menu.
Proof.
  unfold start_timer_menu. apply shrinks_bind; [intros m; reflexivity |].
  intros tasks. apply shrinks_bind.
  - destruct tasks as [| p ps]; [apply shrinks_ret |].
    apply shrinks_try_bare; [| apply shrinks_ret].
    apply shrinks_bind; [apply shrinks_input |]. intros s.
    destruct (py_int s) as [choice |]; [| apply shrinks_ret].
    destruct (_ && _); apply shrinks_ret.
  - intros sel. apply shrinks_bind; [apply shrinks_input |]. intros _.
    intros m. apply shrinks_start_pomodoro_rec.
Qed.

Lemma shrinks_manage_tasks_menu_rec (fuel : nat) :
  shrinks (manage_tasks_menu_rec fuel).
Proof.
  induction fuel as [| fuel IH]; [intros m; reflexivity |].
  cbn [manage_tasks_menu_rec].
  assert (Hnext : shrinks (_ ← input; manage_tasks_menu_rec fuel)).
  { apply shrinks_bind; [apply shrinks_input |]. intros _. exact IH. }
  apply shrinks_bind.
  { apply shrinks_bind; [apply shrinks_input |]. intros s. apply shrinks_ret. }
  intros choice.
  repeat match goal with
    | |- shrinks (if ?b then _ else _) => destruct b
    end.
  - exact Hnext.
  - apply shrinks_bind.
    { apply shrinks_bind; [apply shrinks_input |]. intros s.
      apply shrinks_ret. }
    intros task_name. apply shrinks_bind; [| intros _; exact Hnext].
    destruct (bool_decide _); [apply shrinks_ret |].
    apply shrinks_bind; [apply shrinks_registry |]. intros _.
    apply shrinks_ret.
  - apply shrinks_bind; [| intros _; exact Hnext].
    apply shrinks_by_number. intros n. apply shrinks_registry.
  - apply shrinks_bind; [| intros _; exact Hnext].
    apply shrinks_by_number. intros n. apply shrinks_registry.
  - apply shrinks_ret.
  - exact IH.
Qed.

Lemma shrinks_settings_menu_rec (fuel : nat) :
  shrinks (settings_menu_rec fuel).
Proof.
  induction fuel as [| fuel IH]; [intros m; reflexivity |].
  cbn [settings_menu_rec].
  assert (Hnext : shrinks (_ ← input; settings_menu_rec fuel)).
  { apply shrinks_bind; [apply shrinks_input |]. intros _. exact IH. }
  apply shrinks_bind.
  { apply shrinks_bind; [apply shrinks_input |]. intros s. apply shrinks_ret. }
  intros choice.
  repeat match goal with
    | |- shrinks (if ?b then _ else _) => destruct b
    end;
    try (apply shrinks_bind; [apply shrinks_ask_minutes |];
         intros _; exact Hnext).
  - apply shrinks_bind; [apply shrinks_get |]. intros t0.
    apply shrinks_bind; [intros m; reflexivity |]. intros _. exact Hnext.
  - apply shrinks_ret.
  - exact IH.
Qed.

(** With any two amounts of fuel above the length of the script, [main]
    ends in the same way. *)
Lemma main_rec_fuel (stats : Stats.Stats) (f1 : nat) :
  ∀ (f2 : nat) (shown : list (Stats.StatsData * list (string * Stats.TaskFocus)))
    (m : Machine),
    (length (script m) < f1)%nat → (length (script m) < f2)%nat →
    main_rec f1 stats shown m = main_rec f2 stats shown m.
Proof.
  induction f1 as [| f1 IH]; intros [| f2] shown m H1 H2; try lia.
  cbn [main_rec]. apply bind_ext. intros choice m1 E1.
  pose proof (consumes_input_stripped _ _ _ E1) as L1.
  repeat match goal with
    | |- (if ?b then _ else _) _ = (if ?b then _ else _) _ => destruct b
    end.
  - apply bind_ext. intros u m2 E2.
    pose proof (shrinks_return _ _ _ _ shrinks_start_timer_menu E2) as L2.
    apply IH; lia.
  - apply bind_ext. intros u m2 E2.
    assert (L2 : (length (script m2) ≤ length (script m1))%nat).
    { unfold manage_tasks_menu in E2.
      exact (shrinks_return _ _ _ _ (shrinks_manage_tasks_menu_rec _) E2). }
    apply IH; lia.
  - apply bind_ext. intros stamp m2 E2.
    assert (L2 : (length (script m2) ≤ length (script m1))%nat).
    { unfold now in E2. injection E2 as _ <-. lia. }
    apply bind_ext. intros s m3 E3.
    pose proof (consumes_input _ _ _ E3) as L3. apply IH; lia.
  - apply bind_ext. intros u m2 E2.
    assert (L2 : (length (script m2) ≤ length (script m1))%nat).
    { unfold settings_menu in E2.
      exact (shrinks_return _ _ _ _ (shrinks_settings_menu_rec _) E2). }
    apply IH; lia.
  - reflexivity.
  - apply bind_ext. intros s m2 E2.
    pose proof (consumes_input _ _ _ E2) as L2. apply IH; lia.
Qed.

Lemma main_fuel (stats : Stats.Stats) (fuel : nat) (m : Machine) :
  (length (script m) < fuel)%nat →
  main_rec fuel stats [] m = main stats m.
Proof. intros H. unfold main. apply main_rec_fuel; lia. Qed.

End MainFacts.
